(** * September AMS Analysis: classification and on-time performance

    A shallow embedding of the account classifier, the office filter, the
    date normaliser and the OTP calculators of the Streamlit dashboards
    [src/app1.py] (module [App1]) and [src/unnamed/part_000] (modules
    [KpiVariant], lines 1-349, and [TabVariant], lines 351-872).

    Conventions of the embedding.
    - Text is a [string] of bytes; [lower]/[upper] act on the ASCII letters,
      which is what [str.lower]/[str.upper] do on ASCII text.
    - A spreadsheet cell is a [cell]; numeric cells are integers (the
      formatting of binary floats is outside the model) and a missing cell
      is [CNaN].
    - A timestamp is an integer count of nanoseconds since 1970-01-01, as
      pandas stores it.  The calculators work on the values of the
      normalised columns and do not bound them; the 64-bit range limit,
      where pandas raises, is part of the date normaliser as a run
      ([DateNormalizer]).
    - Percentages are exact rationals ([Q]); pandas computes them in binary
      floating point.  [round2] is rounding to two decimals, half to even;
      the float computation can break a tie the other way, so the
      statements about rounding say "a nearest hundredth" ([Spec.rounded2])
      and do not depend on how a tie is broken.
    - The pandas parsers [pd.to_datetime(..., errors="coerce")] and
      [pd.to_numeric(..., errors="coerce")] are parameters of the
      development (variables of a section).  In the calculators the
      parameter is the reading of one cell that pandas applies to the
      column at hand; in [DateNormalizer] the reading depends on the
      series, since pandas infers the format of a text column from the
      series itself. *)

From Stdlib Require Import ZArith QArith Qround Qabs List String Ascii Bool.
From Stdlib Require Import Lia Lqa Sorted.
From Stdlib Require Import Numbers.DecimalString.
Import ListNotations.
Open Scope string_scope.
Open Scope Z_scope.

(** ** Python text primitives *)

Module Py.

Definition in_range (lo hi : nat) (c : ascii) : bool :=
  let n := nat_of_ascii c in (Nat.leb lo n && Nat.leb n hi)%bool.

Definition is_upper_letter (c : ascii) : bool := in_range 65 90 c.
Definition is_lower_letter (c : ascii) : bool := in_range 97 122 c.
Definition is_digit (c : ascii) : bool := in_range 48 57 c.

Definition lower_char (c : ascii) : ascii :=
  if is_upper_letter c then ascii_of_nat (nat_of_ascii c + 32) else c.

Definition upper_char (c : ascii) : ascii :=
  if is_lower_letter c then ascii_of_nat (nat_of_ascii c - 32) else c.

(** [s.lower()] and [s.upper()] *)
Fixpoint lower (s : string) : string :=
  match s with
  | EmptyString => EmptyString
  | String c s' => String (lower_char c) (lower s')
  end.

Fixpoint upper (s : string) : string :=
  match s with
  | EmptyString => EmptyString
  | String c s' => String (upper_char c) (upper s')
  end.

(** [k in s] on text: [k] occurs in [s] as a contiguous substring. *)
Fixpoint contains (k s : string) : bool :=
  (prefix k s ||
   match s with
   | EmptyString => false
   | String _ s' => contains k s'
   end)%bool.

(** [x in xs] for a list of text. *)
Definition mem (x : string) (xs : list string) : bool :=
  existsb (String.eqb x) xs.

(** [any(k in text for k in keywords)], also the shape of the loops
    [for keyword in KEYWORDS: if keyword in text: return ...]. *)
Definition any_in (keywords : list string) (text : string) : bool :=
  existsb (fun k => contains k text) keywords.

(** [str(n)] for an integer. *)
Definition str_int (z : Z) : string := NilZero.string_of_int (Z.to_int z).

(** [c.isspace()] on ASCII: blank, tab to carriage return, and the four
    separators 0x1c-0x1f. *)
Definition is_whitespace (c : ascii) : bool :=
  (in_range 9 13 c || in_range 28 31 c || Ascii.eqb c " ")%bool.

(** [s.lstrip()], [s.rstrip()] and [s.strip()] *)
Fixpoint lstrip (s : string) : string :=
  match s with
  | String c s' => if is_whitespace c then lstrip s' else s
  | EmptyString => s
  end.

Fixpoint rstrip (s : string) : string :=
  match s with
  | String c s' =>
      match rstrip s' with
      | EmptyString => if is_whitespace c then EmptyString
                       else String c EmptyString
      | r => String c r
      end
  | EmptyString => s
  end.

Definition strip (s : string) : string := rstrip (lstrip s).

End Py.

(** ** Timestamps

    A pandas [Timestamp] is a count of nanoseconds since 1970-01-01 00:00.
    The calendar fields ([.dt.year], [.dt.month]) follow the proleptic
    Gregorian calendar. *)

Module Timestamp.

Definition ns_per_second : Z := 1000000000.
Definition ns_per_day : Z := 86400 * ns_per_second.

(** Day number (days since 1970-01-01) of a calendar date. *)
Definition days_from_civil (y m d : Z) : Z :=
  let y' := if m <=? 2 then y - 1 else y in
  let era := y' / 400 in
  let yoe := y' - era * 400 in
  let mp := if 2 <? m then m - 3 else m + 9 in
  let doy := (153 * mp + 2) / 5 + d - 1 in
  let doe := yoe * 365 + yoe / 4 - yoe / 100 + doy in
  era * 146097 + doe - 719468.

(** Calendar date (year, month, day) of a day number. *)
Definition civil_from_days (z : Z) : Z * Z * Z :=
  let z' := z + 719468 in
  let era := z' / 146097 in
  let doe := z' - era * 146097 in
  let yoe := (doe - doe / 1460 + doe / 36524 - doe / 146096) / 365 in
  let y := yoe + era * 400 in
  let doy := doe - (365 * yoe + yoe / 4 - yoe / 100) in
  let mp := (5 * doy + 2) / 153 in
  let d := doy - (153 * mp + 2) / 5 + 1 in
  let m := if mp <? 10 then mp + 3 else mp - 9 in
  (if m <=? 2 then y + 1 else y, m, d).

(** [pd.Timestamp(year, month, day, hour, minute)] *)
Definition make (y m d hh mm : Z) : Z :=
  days_from_civil y m d * ns_per_day + (hh * 3600 + mm * 60) * ns_per_second.

Definition year (t : Z) : Z := fst (fst (civil_from_days (t / ns_per_day))).
Definition month (t : Z) : Z := snd (fst (civil_from_days (t / ns_per_day))).
Definition day (t : Z) : Z := snd (civil_from_days (t / ns_per_day)).

Definition digit (n : Z) : ascii := ascii_of_nat (48 + Z.to_nat (n mod 10)).

Definition pad2 (n : Z) : string :=
  String (digit (n / 10)) (String (digit n) EmptyString).

Definition pad3 (n : Z) : string := String (digit (n / 100)) (pad2 n).

Definition pad4 (n : Z) : string := String (digit (n / 1000)) (pad3 n).

(** [str(ts)]: [YYYY-MM-DD HH:MM:SS], followed by the microseconds when the
    sub-second part is not zero and by the nanoseconds when they are not. *)
Definition to_string (t : Z) : string :=
  let tod := t mod ns_per_day in
  let secs := tod / ns_per_second in
  let sub := tod mod ns_per_second in
  let yyyy := if (0 <=? year t) && (year t <? 10000)
              then pad4 (year t) else Py.str_int (year t) in
  yyyy ++ "-" ++ pad2 (month t) ++ "-" ++ pad2 (day t) ++ " "
    ++ pad2 (secs / 3600) ++ ":" ++ pad2 (secs / 60 mod 60) ++ ":"
    ++ pad2 (secs mod 60)
    ++ (if sub =? 0 then ""
        else "." ++ pad3 (sub / 1000000) ++ pad3 (sub / 1000 mod 1000)
             ++ (if sub mod 1000 =? 0 then "" else pad3 (sub mod 1000))).

End Timestamp.

(** ** Cells, rows and frames *)

(** A value held by a spreadsheet cell after [pd.read_excel]. *)
Inductive cell : Type :=
| CStr (s : string)     (* text *)
| CInt (z : Z)          (* a whole number *)
| CBool (b : bool)
| CDate (t : Z)         (* a datetime cell *)
| CNone                 (* Python [None] *)
| CNaN.                 (* missing value (float NaN) *)

(** Python truthiness, as tested by [if not account_name]. *)
Definition truthy (c : cell) : bool :=
  match c with
  | CStr s => negb (String.eqb s "")
  | CInt z => negb (z =? 0)
  | CBool b => b
  | CDate _ => true
  | CNone => false
  | CNaN => true
  end.

(** [str(c)], also what [Series.astype(str)] puts in each position. *)
Definition pystr (c : cell) : string :=
  match c with
  | CStr s => s
  | CInt z => Py.str_int z
  | CBool true => "True"
  | CBool false => "False"
  | CDate t => Timestamp.to_string t
  | CNone => "None"
  | CNaN => "nan"
  end.

(** [isinstance(c, str)] *)
Definition is_str (c : cell) : bool :=
  match c with CStr _ => true | _ => false end.

(** [pd.notna(c)] / [Series.notna()] *)
Definition notna (c : cell) : bool :=
  match c with CNone | CNaN => false | _ => true end.

(** ** The regular expressions of the QC patterns

    Every pattern of the source has the shape [\b t1 t2 ... tn \b] where a
    [ti] is literal text or [\s*].  In each pattern the text after a [\s*]
    starts with a letter, so a match has to consume the whole run of white
    space: the matcher needs no backtracking. *)

Module Regex.

Inductive token : Type :=
| Lit (s : string)    (* literal characters *)
| Spaces.             (* [\s*] *)

Definition pattern : Type := list token.

(** [\w]: letters, digits and the underscore. *)
Definition is_word (c : ascii) : bool :=
  (Py.is_upper_letter c || Py.is_lower_letter c || Py.is_digit c
   || Ascii.eqb c "_")%bool.

(** [\s]: blank, tab, line feed, vertical tab, form feed, carriage return
    and the four separators 0x1c-0x1f. *)
Definition is_space (c : ascii) : bool :=
  (Py.in_range 9 13 c || Py.in_range 28 31 c || Ascii.eqb c " ")%bool.

Definition word_opt (c : option ascii) : bool :=
  match c with Some c => is_word c | None => false end.

Definition head (s : string) : option ascii :=
  match s with EmptyString => None | String c _ => Some c end.

(** [\b] between the character [prev] and the text [s] that follows. *)
Definition boundary (prev : option ascii) (s : string) : bool :=
  xorb (word_opt prev) (word_opt (head s)).

Fixpoint match_lit (l s : string) (prev : option ascii)
  : option (option ascii * string) :=
  match l with
  | EmptyString => Some (prev, s)
  | String c l' =>
      match s with
      | String d s' => if Ascii.eqb c d then match_lit l' s' (Some d) else None
      | EmptyString => None
      end
  end.

Fixpoint skip_spaces (s : string) (prev : option ascii)
  : option ascii * string :=
  match s with
  | String d s' => if is_space d then skip_spaces s' (Some d) else (prev, s)
  | EmptyString => (prev, s)
  end.

Fixpoint match_tokens (p : pattern) (prev : option ascii) (s : string)
  : option (option ascii * string) :=
  match p with
  | [] => Some (prev, s)
  | Lit l :: p' =>
      match match_lit l s prev with
      | Some (prev', s') => match_tokens p' prev' s'
      | None => None
      end
  | Spaces :: p' =>
      let '(prev', s') := skip_spaces s prev in match_tokens p' prev' s'
  end.

(** [\b p \b] matches at the start of [s], [prev] being the character
    before it. *)
Definition match_at (p : pattern) (prev : option ascii) (s : string) : bool :=
  (boundary prev s &&
   match match_tokens p prev s with
   | Some (prev', s') => boundary prev' s'
   | None => false
   end)%bool.

Fixpoint search_from (ps : list pattern) (prev : option ascii) (s : string)
  : bool :=
  (existsb (fun p => match_at p prev s) ps ||
   match s with
   | String c s' => search_from ps (Some c) s'
   | EmptyString => false
   end)%bool.

(** [bool(re.compile('|'.join(ps)).search(s))] *)
Definition search (ps : list pattern) (s : string) : bool :=
  search_from ps None s.

End Regex.

(** ** Frames

    A [DataFrame] is its column labels and its rows.  A row keeps the
    cells of its columns by label; reading a label the row does not have
    gives NaN, which is what [pd.concat] fills in for the columns a frame
    lacks.  [origin] is a ghost tag (sheet name and position in the sheet)
    that identifies the spreadsheet record a row was read from; no
    operation of the program looks at it. *)

Module Pandas.

Definition Series : Type := list cell.

Record row : Type := Row {
  origin : string * nat;
  cells : list (string * cell)
}.

Record DataFrame : Type := Frame {
  columns : list string;
  rows : list row
}.

(** [pd.DataFrame()] *)
Definition empty_frame : DataFrame := Frame [] [].

Fixpoint lookup (name : string) (kvs : list (string * cell)) : cell :=
  match kvs with
  | [] => CNaN
  | (k, v) :: kvs' => if String.eqb name k then v else lookup name kvs'
  end.

Definition get (name : string) (r : row) : cell := lookup name (cells r).

(** [name in df.columns] *)
Definition has_col (name : string) (df : DataFrame) : bool :=
  Py.mem name (columns df).

(** [df[name]] *)
Definition col (name : string) (df : DataFrame) : Series :=
  map (get name) (rows df).

(** [df.empty]: no rows or no columns. *)
Definition is_empty (df : DataFrame) : bool :=
  match rows df, columns df with
  | [], _ => true
  | _, [] => true
  | _, _ => false
  end.

(** Selection by a boolean mask, [xs[mask]]. *)
Fixpoint select {A : Type} (mask : list bool) (xs : list A) : list A :=
  match mask, xs with
  | b :: mask', x :: xs' => if b then x :: select mask' xs' else select mask' xs'
  | _, _ => []
  end.

(** [df[mask]] *)
Definition loc (mask : list bool) (df : DataFrame) : DataFrame :=
  Frame (columns df) (select mask (rows df)).

(** [df[name] = values] *)
Definition set_cell (name : string) (v : cell) (r : row) : row :=
  Row (origin r) ((name, v) :: cells r).

Fixpoint set_cells (name : string) (vs : Series) (rs : list row) : list row :=
  match vs, rs with
  | v :: vs', r :: rs' => set_cell name v r :: set_cells name vs' rs'
  | _, _ => []
  end.

Definition set_col (name : string) (vs : Series) (df : DataFrame) : DataFrame :=
  Frame (if has_col name df then columns df else columns df ++ [name])
        (set_cells name vs (rows df)).

(** Union of column labels, in order of first appearance. *)
Fixpoint union_cols (acc : list string) (names : list string) : list string :=
  match names with
  | [] => acc
  | n :: names' =>
      union_cols (if Py.mem n acc then acc else acc ++ [n]) names'
  end.

(** [pd.concat(dfs, ignore_index=True)] *)
Definition concat (dfs : list DataFrame) : DataFrame :=
  Frame (fold_left (fun acc df => union_cols acc (columns df)) dfs [])
        (flat_map rows dfs).

(** [s.isin(values)]: a cell is in a list of text when it is text equal to
    one of the entries. *)
Definition isin (values : list string) (c : cell) : bool :=
  match c with
  | CStr s => Py.mem s values
  | _ => false
  end.

(** [s.fillna('')] *)
Definition fillna_empty (c : cell) : cell :=
  if notna c then c else CStr "".

(** Elementwise [a & b] and [~a] on boolean series, [s.sum()], [s.any()]. *)
Fixpoint band (a b : list bool) : list bool :=
  match a, b with
  | x :: a', y :: b' => (x && y)%bool :: band a' b'
  | _, _ => []
  end.

Definition bnot (a : list bool) : list bool := map negb a.

Definition bsum (a : list bool) : nat :=
  List.length (filter (fun b => b) a).

Definition bany (a : list bool) : bool := existsb (fun b => b) a.

(** A workbook: the sheets by name, each a header line and data lines. *)
Record sheet : Type := Sheet {
  header : list string;
  body : list (list cell)
}.

Definition workbook : Type := list (string * sheet).

(** [xl.sheet_names] *)
Definition sheet_names (wb : workbook) : list string := map fst wb.

Fixpoint find_sheet (name : string) (wb : workbook) : option sheet :=
  match wb with
  | [] => None
  | (k, sh) :: wb' => if String.eqb name k then Some sh else find_sheet name wb'
  end.

Fixpoint tag_rows (name : string) (hd : list string) (i : nat)
    (lines : list (list cell)) : list row :=
  match lines with
  | [] => []
  | l :: lines' => Row (name, i) (combine hd l) :: tag_rows name hd (S i) lines'
  end.

(** [pd.read_excel(file, sheet_name=name)] for a sheet of the workbook. *)
Definition read_excel (wb : workbook) (name : string) : DataFrame :=
  match find_sheet name wb with
  | Some sh => Frame (header sh) (tag_rows name (header sh) 0 (body sh))
  | None => empty_frame
  end.

End Pandas.

Import Pandas.

(** ** [src/app1.py] *)

Module App1.

(** Radiopharma specific accounts *)
Definition RP_ACCOUNTS : list string := [
  "Marken Ltd";
  "QIAGEN GmbH Weekly";
  "Fisher Clinical Services";
  "Agilent Technologies Deutschland GmbH";
  "Patheon Biologics BV";
  "Delpharm Development Leiden BV";
  "Abbott Biologicals BV";
  "Fisher BioServices Netherlands BV";
  "Abbott Healthcare Products BV";
  "UNIVERSAL PICTURES INTERNATIONAL NETHERLANDS";
  "Patheon UK";
  "VERACYTE INC";
  "Tosoh Europe";
  "Exnet Services";
  "Nobel Biocare Distribution Center BV"
].

(** Healthcare keywords for LFS identification *)
Definition HEALTHCARE_KEYWORDS : list string := [
  "pharma"; "medical"; "health"; "bio"; "clinical"; "hospital"; "diagnostic";
  "therapeut"; "laborator"; "patholog"; "imaging"; "surgical"; "oncolog";
  "cardio"; "neuro"; "radiol"; "genetic"; "genomic"; "molecular"; "cell";
  "tissue"; "organ"; "transplant"; "vaccine"; "antibod"; "protein"; "peptide";
  "life science"; "lifescience"; "medic"; "therap"; "diagnost"; "clinic";
  "patient"; "treatment"; "disease"; "drug"; "dose"; "isotope"; "radio";
  "nuclear"; "pet"; "spect"; "immuno"; "assay"; "reagent"; "specimen";
  "sample"; "blood"; "plasma"; "serum"; "biobank"; "cryo"; "stem";
  "marken"; "fisher"; "cardinal"; "patheon"; "organox"; "qiagen"; "abbott";
  "tosoh"; "leica"; "sophia"; "cerus"; "sirtex"; "lantheus"; "avid";
  "petnet"; "innervate"; "ndri"; "university"; "institut"; "pentec";
  "sexton"; "atomics"; "curium"; "medtronic"; "catalent"; "delpharm";
  "veracyte"; "eckert"; "ziegler"; "shine"; "altasciences";
  "onkos"; "biolabs"; "biosystem"; "life molecular"; "cerveau"; "meilleur";
  "samsung bio"; "agilent"
].

(** Aviation keywords for AVS identification *)
Definition AVIATION_KEYWORDS : list string := [
  "airline"; "airport"; "cargo"; "freight"; "logistic"; "transport";
  "express"; "disney"; "pictures"; "aviation"; "aircraft"; "aerospace";
  "volaris"; "easyjet"; "lufthansa"; "delta"; "american airlines";
  "british airways"; "nippon"; "aeromexico"; "spairliners"; "universal";
  "paramount"; "productions"; "courier"; "forwarding"; "tmr global";
  "aeroplex"; "nova traffic"; "ups"; "endeavor air";
  "storm aviation"; "adventures"; "hartford"; "tokyo electron"; "slipstick";
  "sealion production"; "heathrow courier"; "macaronesia"; "exnet service";
  "mnx global logistics"; "logical freight"; "concesionaria"; "vuela compania";
  "panasonic avionics"
].

(** Check if an account is in the RP accounts list. *)
Definition is_rp_account (account_name : cell) : bool :=
  if negb (truthy account_name) then false
  else Py.mem (pystr account_name) RP_ACCOUNTS.

(** Determine if an account is healthcare-related (excluding RP accounts). *)
Definition is_healthcare (account_name : cell) : bool :=
  if negb (truthy account_name) then false
  else if is_rp_account account_name then false
  else
    let account_lower := Py.lower (pystr account_name) in
    if Py.any_in AVIATION_KEYWORDS account_lower then false
    else if Py.any_in HEALTHCARE_KEYWORDS account_lower then true
    else false.

(** Determine if an account is aviation-related. *)
Definition is_aviation (account_name : cell) : bool :=
  if negb (truthy account_name) then false
  else if is_rp_account account_name then false
  else
    let account_lower := Py.lower (pystr account_name) in
    if Py.any_in HEALTHCARE_KEYWORDS account_lower then false
    else if Py.any_in AVIATION_KEYWORDS account_lower then true
    else false.

(** The segments of the report, one per tab. *)
Inductive segment : Type := RadioPharma | LifeSciences | Aviation.

(** The tabs whose account filter accepts a name: the RP tab keeps
    [isin(RP_ACCOUNTS)], the LFS tab keeps [is_healthcare] and then drops
    [isin(RP_ACCOUNTS)], the AVS tab does the same with [is_aviation].  An
    account that no tab accepts is unclassified. *)
Definition tabs_of (account_name : cell) : list segment :=
  (if isin RP_ACCOUNTS account_name then [RadioPharma] else [])
  ++ (if (is_healthcare account_name
          && negb (isin RP_ACCOUNTS account_name))%bool
      then [LifeSciences] else [])
  ++ (if (is_aviation account_name
          && negb (isin RP_ACCOUNTS account_name))%bool
      then [Aviation] else []).

(** *** Percentages *)

(** [a / b] for two counts. *)
Definition ratio (a b : nat) : Q :=
  inject_Z (Z.of_nat a) / inject_Z (Z.of_nat b).

(** Rounding to the nearest integer, ties to the even one. *)
Definition round_half_even (x : Q) : Z :=
  let f := Qfloor x in
  match Qcompare (x - inject_Z f) (1 # 2) with
  | Lt => f
  | Gt => f + 1
  | Eq => if Z.even f then f else f + 1
  end.

(** [round(x, 2)] *)
Definition round2 (x : Q) : Q := (round_half_even (x * 100) # 100)%Q.

(** *** Dates *)

Definition is_some {A : Type} (o : option A) : bool :=
  match o with Some _ => true | None => false end.

(** [pd.to_datetime("1899-12-30")] *)
Definition excel_epoch : Z := Timestamp.make 1899 12 30 0 0.

(** [pd.to_timedelta(q, unit="D")] in nanoseconds (truncated): the count
    itself.  Whether it fits [timedelta64[ns]], and the error pandas raises
    when it does not, is [DateNormalizer.to_timedelta]. *)
Definition days_to_ns (q : Q) : Z :=
  Z.quot (Qnum q * Timestamp.ns_per_day) (Zpos (Qden q)).

(** [s.mean()] of a boolean series; NaN ([None]) on the empty series. *)
Definition bmean (a : list bool) : option Q :=
  match a with
  | [] => None
  | _ => Some (ratio (bsum a) (List.length a))
  end.

(** [m > 0.5], false on NaN. *)
Definition gt_half (m : option Q) : bool :=
  match m with
  | Some q => negb (Qle_bool q (1 # 2))
  | None => false
  end.

(** [out.where(~out.isna(), out2)] *)
Fixpoint where_notna (out out2 : list (option Z)) : list (option Z) :=
  match out, out2 with
  | x :: out', y :: out2' =>
      (match x with Some _ => x | None => y end) :: where_notna out' out2'
  | _, _ => []
  end.

(** [pod_dt <= target_dt], false where either side is NaT. *)
Fixpoint le_mask (a b : list (option Z)) : list bool :=
  match a, b with
  | x :: a', y :: b' =>
      (match x, y with Some p, Some t => p <=? t | _, _ => false end)
      :: le_mask a' b'
  | _, _ => []
  end.

(** Non-controllable QC codes (these should be excluded from Net OTP) *)
Definition non_controllable_patterns : list Regex.pattern := [
  [Regex.Lit "AGENT"];
  [Regex.Lit "DEL"; Regex.Spaces; Regex.Lit "AGT"];
  [Regex.Lit "DELIVERY"; Regex.Spaces; Regex.Lit "AGENT"];
  [Regex.Lit "CUSTOMS"];
  [Regex.Lit "WAREHOUSE"];
  [Regex.Lit "W/HOUSE"];
  [Regex.Lit "WH"];
  [Regex.Lit "CLEARANCE"];
  [Regex.Lit "REGULATORY"];
  [Regex.Lit "GOVERNMENT"];
  [Regex.Lit "WEATHER"];
  [Regex.Lit "FORCE"; Regex.Spaces; Regex.Lit "MAJEURE"]
].

(** [df['QC'].fillna('').astype(str).str.upper()] *)
Definition qc_text (c : cell) : string := Py.upper (pystr (fillna_empty c)).

(** [lambda x: bool(ctrl_regex.search(x)) if x else False]; the text is
    already in upper case, so [re.IGNORECASE] changes nothing. *)
Definition qc_non_controllable (x : string) : bool :=
  if String.eqb x "" then false
  else Regex.search non_controllable_patterns x.

Section Parsers.

(** [pd.to_datetime(., errors="coerce")] and [pd.to_numeric(.,
    errors="coerce")] on one cell; [None] is NaT, respectively NaN. *)
Variable to_datetime : cell -> option Z.
Variable to_numeric : cell -> option Q.

(** Robust datetime: parse; if many NaT, try Excel serials.  This is the
    series the function returns, given the reading [to_datetime] of the
    cells of [s]; [DateNormalizer._excel_to_dt] is the function with the
    reading chosen per series and with the error of [pd.to_timedelta]. *)
Definition _excel_to_dt (s : Series) : list (option Z) :=
  let out := map to_datetime s in
  if gt_half (bmean (map (fun o => negb (is_some o)) out)) then
    let num := map to_numeric s in
    let out2 := map (option_map (fun q => excel_epoch + days_to_ns q)) num in
    where_notna out out2
  else out.

Definition _get_target_series (df : DataFrame) : option Series :=
  if (has_col "UPD DEL" df && bany (map notna (col "UPD DEL" df)))%bool
  then Some (col "UPD DEL" df)
  else if has_col "QDT" df then Some (col "QDT" df)
  else None.

(** Calculate Gross and Net OTP percentages.  The debug record written to
    the session state is display only and is left out. *)
Definition calculate_otp (df : DataFrame) : Q * Q :=
  if is_empty df then (0%Q, 0%Q)
  else
    match _get_target_series df with
    | None => (0%Q, 0%Q)
    | Some target_col =>
      if negb (has_col "POD DATE/TIME" df) then (0%Q, 0%Q)
      else
        let target_dt := _excel_to_dt target_col in
        let pod_dt := _excel_to_dt (col "POD DATE/TIME" df) in
        let valid_mask := band (map is_some target_dt) (map is_some pod_dt) in
        if negb (bany valid_mask) then (0%Q, 0%Q)
        else
          let ontime_mask := band (le_mask pod_dt target_dt) valid_mask in
          let gross_otp :=
            if (0 <? bsum valid_mask)%nat
            then (ratio (bsum ontime_mask) (bsum valid_mask) * 100)%Q else 0%Q in
          let net_otp :=
            if has_col "QC" df then
              let qc_col := map qc_text (col "QC" df) in
              let non_controllable := map qc_non_controllable qc_col in
              let controllable_mask := band valid_mask (bnot non_controllable) in
              if (0 <? bsum controllable_mask)%nat then
                let controllable_ontime := band ontime_mask controllable_mask in
                (ratio (bsum controllable_ontime) (bsum controllable_mask) * 100)%Q
              else 0%Q
            else gross_otp in
          (round2 gross_otp, round2 net_otp)
    end.

End Parsers.

(** Filter by AMS office locations if column exists. *)
Definition contains_ams (c : cell) : bool :=
  Py.contains "ams" (Py.lower (pystr c)).

Fixpoint bor (a b : list bool) : list bool :=
  match a, b with
  | x :: a', y :: b' => (x || y)%bool :: bor a' b'
  | _, _ => []
  end.

Definition filter_by_ams (df : DataFrame) : DataFrame :=
  if is_empty df then df
  else if (has_col "DEP" df && has_col "ARR" df)%bool then
    let ams_mask := bor (map contains_ams (col "DEP" df))
                        (map contains_ams (col "ARR" df)) in
    loc ams_mask df
  else df.

(** *** The three tabs of the main script *)

Definition is_true (c : cell) : bool :=
  match c with CBool true => true | _ => false end.

(** The sheets of [names] that the workbook has, read and office-filtered. *)
Definition read_filtered (wb : workbook) (names : list string)
  : list DataFrame :=
  flat_map (fun sheet =>
              if Py.mem sheet (sheet_names wb)
              then [filter_by_ams (read_excel wb sheet)] else [])
           names.

(** TAB 1: RP.  [None] is the [KeyError] of a sheet without [ACCT NM],
    which ends the run. *)
Definition rp_df (wb : workbook) : option DataFrame :=
  if Py.mem "AMS" (sheet_names wb) then
    let df_ams := read_excel wb "AMS" in
    if has_col "ACCT NM" df_ams
    then Some (loc (map (isin RP_ACCOUNTS) (col "ACCT NM" df_ams)) df_ams)
    else None
  else Some empty_frame.

(** The body shared by tabs 2 and 3: flag the accounts, keep the flagged
    rows, then remove any RP account. *)
Definition keyword_tab (flag : string) (test : cell -> bool)
    (dfs : list DataFrame) : DataFrame :=
  match dfs with
  | [] => empty_frame
  | _ =>
    let combined := concat dfs in
    if has_col "ACCT NM" combined then
      let combined := set_col flag (map CBool (map test (col "ACCT NM" combined))) combined in
      let kept := loc (map is_true (col flag combined)) combined in
      loc (bnot (map (isin RP_ACCOUNTS) (col "ACCT NM" kept))) kept
    else empty_frame
  end.

(** TAB 2: LFS *)
Definition lfs_df (wb : workbook) : DataFrame :=
  keyword_tab "is_healthcare" is_healthcare
    (read_filtered wb ["AMS"; "Americas International Desk"]).

(** TAB 3: AVS *)
Definition avs_df (wb : workbook) : DataFrame :=
  keyword_tab "is_aviation" is_aviation
    (read_filtered wb ["AMS"; "Americas International Desk"; "Aviation SVC"]).

(** The member records of the three segments of one run.  The script
    computes the metrics of each tab between these steps; an exception there
    ends the run as well, so this is the outcome of a run that gets
    through. *)
Definition segments (wb : workbook)
  : option (DataFrame * DataFrame * DataFrame) :=
  match rp_df wb with
  | Some rp => Some (rp, lfs_df wb, avs_df wb)
  | None => None
  end.

End App1.

(** ** [src/unnamed/part_000], lines 351-872: the tab variant without the
    RP exclusion *)

Module TabVariant.

(** Non-controllable patterns (agent, customs, warehouse issues) *)
Definition ctrl_regex : list Regex.pattern := [
  [Regex.Lit "AGENT"];
  [Regex.Lit "DEL"; Regex.Spaces; Regex.Lit "AGT"];
  [Regex.Lit "DELIVERY"; Regex.Spaces; Regex.Lit "AGENT"];
  [Regex.Lit "CUSTOMS"];
  [Regex.Lit "WAREHOUSE"];
  [Regex.Lit "W/HOUSE"]
].

(** [df['QC'].astype(str).str.upper()]: a missing cell becomes the text
    [NAN], so [pd.notna(x)] holds of every entry. *)
Definition qc_text (c : cell) : string := Py.upper (pystr c).

Definition qc_non_controllable (x : string) : bool :=
  Regex.search ctrl_regex x.

(** The keyword lists of this variant have the entries of [src/app1.py]. *)
Definition HEALTHCARE_KEYWORDS : list string := App1.HEALTHCARE_KEYWORDS.
Definition AVIATION_KEYWORDS : list string := App1.AVIATION_KEYWORDS.

(** Determine if an account is healthcare-related. *)
Definition is_healthcare (account_name : cell) : bool :=
  if negb (truthy account_name) then false
  else
    let account_lower := Py.lower (pystr account_name) in
    if Py.any_in AVIATION_KEYWORDS account_lower then false
    else if Py.any_in HEALTHCARE_KEYWORDS account_lower then true
    else false.

(** Determine if an account is aviation-related. *)
Definition is_aviation (account_name : cell) : bool :=
  if negb (truthy account_name) then false
  else
    let account_lower := Py.lower (pystr account_name) in
    if Py.any_in HEALTHCARE_KEYWORDS account_lower then false
    else if Py.any_in AVIATION_KEYWORDS account_lower then true
    else false.

(** Filter rows where DEP or ARR contains 'AMS'. *)
Definition filter_by_ams (df : DataFrame) : DataFrame :=
  if is_empty df then df
  else
    let mask := map (fun _ => false) (rows df) in
    let mask :=
      if has_col "DEP" df
      then App1.bor mask (map App1.contains_ams (col "DEP" df)) else mask in
    let mask :=
      if has_col "ARR" df
      then App1.bor mask (map App1.contains_ams (col "ARR" df)) else mask in
    loc mask df.

Section Parsers.

Variable to_datetime : cell -> option Z.
Variable to_numeric : cell -> option Q.

(** Same text as in [src/app1.py]. *)
Definition _excel_to_dt : Series -> list (option Z) :=
  App1._excel_to_dt to_datetime to_numeric.

Definition _get_target_series : DataFrame -> option Series :=
  App1._get_target_series.

(** Calculate Gross and Net OTP percentages. *)
Definition calculate_otp (df : DataFrame) : Q * Q :=
  if is_empty df then (0%Q, 0%Q)
  else
    match _get_target_series df with
    | None => (0%Q, 0%Q)
    | Some target_col =>
      if negb (has_col "POD DATE/TIME" df) then (0%Q, 0%Q)
      else
        let target_dt := _excel_to_dt target_col in
        let pod_dt := _excel_to_dt (col "POD DATE/TIME" df) in
        let valid_mask :=
          band (map App1.is_some target_dt) (map App1.is_some pod_dt) in
        if negb (bany valid_mask) then (0%Q, 0%Q)
        else
          let ontime_mask := band (App1.le_mask pod_dt target_dt) valid_mask in
          let gross_otp :=
            if (0 <? bsum valid_mask)%nat
            then (App1.ratio (bsum ontime_mask) (bsum valid_mask) * 100)%Q
            else 0%Q in
          let net_otp :=
            if has_col "QC" df then
              let qc_col := map qc_text (col "QC" df) in
              let non_controllable := map qc_non_controllable qc_col in
              let controllable_mask := band valid_mask (bnot non_controllable) in
              if (0 <? bsum controllable_mask)%nat then
                (App1.ratio
                   (bsum (band (App1.le_mask pod_dt target_dt) controllable_mask))
                   (bsum controllable_mask) * 100)%Q
              else gross_otp
            else gross_otp in
          (gross_otp, net_otp)
    end.

End Parsers.

End TabVariant.

(** ** [src/unnamed/part_000], lines 1-349: the variant with per-row OTP
    columns and September KPIs *)

Module KpiVariant.

Definition HEALTHCARE_KEYWORDS : list string := [
  "pharma"; "medical"; "health"; "bio"; "clinical"; "hospital"; "diagnostic";
  "therapeut"; "laborator"; "patholog"; "oncolog"; "genetic"; "genomic";
  "molecular"; "vaccine"; "abbott"; "marken"; "fisher"; "patheon"; "qiagen";
  "veracyte"; "delpharm"; "agilent"; "biocare"; "tosoh"; "biolog";
  "life science"; "lifescience"; "specimen"; "reagent"; "immuno"; "assay";
  "curium"; "medtronic"
].

Definition AVIATION_KEYWORDS : list string := [
  "airline"; "airport"; "aviation"; "aircraft"; "aerospace"; "cargo";
  "freight"; "express"; "courier"; "lufthansa"; "delta"; "american airlines";
  "british airways"; "klm"; "air france"; "iberia"; "easyjet";
  "end eavor air"; "storm aviation"; "heathrow"; "spairliners"; "mnx";
  "tokyo electron"
].

(** [re.compile(r"\b(agent|del\s*agt|delivery\s*agent|customs|warehouse|w/house)\b", re.I)] *)
Definition CTRL_REGEX : list Regex.pattern := [
  [Regex.Lit "agent"];
  [Regex.Lit "del"; Regex.Spaces; Regex.Lit "agt"];
  [Regex.Lit "delivery"; Regex.Spaces; Regex.Lit "agent"];
  [Regex.Lit "customs"];
  [Regex.Lit "warehouse"];
  [Regex.Lit "w/house"]
].

(** [s.str.contains(CTRL_REGEX, na=False)] on text: the search ignores
    case, which on ASCII text is the search in the lower-cased text. *)
Definition contains_ctrl (s : string) : bool :=
  Regex.search CTRL_REGEX (Py.lower s).

Definition _contains_any (text : cell) (keywords : list string) : bool :=
  if negb (is_str text) then false
  else Py.any_in keywords (Py.lower (pystr text)).

Definition is_healthcare (account_name : cell) (sheet_name : option string)
  : bool :=
  match sheet_name with
  | Some "Aviation SVC" => false
  | _ => _contains_any (CStr (pystr account_name)) HEALTHCARE_KEYWORDS
  end.

Definition is_aviation (account_name : cell) (sheet_name : option string)
  : bool :=
  match sheet_name with
  | Some "Aviation SVC" => true
  | _ => _contains_any (CStr (pystr account_name)) AVIATION_KEYWORDS
  end.

(** A row of the frame returned by [add_otp_columns]: the input row and
    the columns the function adds or rewrites. *)
Record otp_row : Type := OtpRow {
  base : row;
  _pod : option Z;
  _target : option Z;
  Is_Controllable : bool;
  PIECES : Q;
  On_Time_Gross : bool;
  Late : bool;
  On_Time_Net : bool
}.

(** The result of [kpis_for_september]; [None] is NaN. *)
Record kpis : Type := Kpis {
  volume : nat;
  pieces : Z;
  gross : option Q;
  net : option Q
}.

Section Parsers.

Variable to_datetime : cell -> option Z.
Variable to_numeric : cell -> option Q.

(** Same text as in [src/app1.py]. *)
Definition _excel_to_dt : Series -> list (option Z) :=
  App1._excel_to_dt to_datetime to_numeric.

(** [pd.to_numeric(x, errors="coerce").fillna(0)] *)
Definition _coerce_num (c : cell) : Q :=
  match to_numeric c with Some q => q | None => 0%Q end.

(** The column the target is read from: UPD DEL preferred, else QDT. *)
Definition target_col (df : DataFrame) : option string :=
  if has_col "UPD DEL" df then Some "UPD DEL"
  else if has_col "QDT" df then Some "QDT"
  else None.

Definition const_column {A : Type} (x : A) (df : DataFrame) : list A :=
  map (fun _ => x) (rows df).

Fixpoint zip_rows (rs : list row) (pod target : list (option Z))
    (ctrl : list bool) (pcs : list Q) : list otp_row :=
  match rs, pod, target, ctrl, pcs with
  | r :: rs', p :: pod', t :: target', c :: ctrl', q :: pcs' =>
      let ok := (App1.is_some p && App1.is_some t)%bool in
      let on_time_gross :=
        if ok
        then match p, t with Some p, Some t => p <=? t | _, _ => false end
        else false in
      let late := negb on_time_gross in
      OtpRow r p t c q on_time_gross late
             (on_time_gross || (late && negb c))%bool
      :: zip_rows rs' pod' target' ctrl' pcs'
  | _, _, _, _, _ => []
  end.

(** Add POD/Target and OTP columns (Gross/Net). *)
Definition add_otp_columns (df : DataFrame) : list otp_row :=
  let pod :=
    if has_col "POD DATE/TIME" df
    then _excel_to_dt (col "POD DATE/TIME" df)
    else const_column None df in
  let target :=
    match target_col df with
    | Some c => _excel_to_dt (col c df)
    | None => const_column None df
    end in
  let ctrl :=
    if has_col "QC NAME" df
    then map (fun c => contains_ctrl (pystr c)) (col "QC NAME" df)
    else const_column false df in
  let pcs :=
    if has_col "PIECES" df
    then map _coerce_num (col "PIECES" df)
    else const_column 0%Q df in
  zip_rows (rows df) pod target ctrl pcs.

End Parsers.

Definition in_september (year : option Z) (r : otp_row) : bool :=
  match _pod r with
  | Some t =>
      ((Timestamp.month t =? 9)
       && match year with Some y => Timestamp.year t =? y | None => true end)%bool
  | None => false
  end.

Definition qsum (qs : list Q) : Q := fold_left Qplus qs 0%Q.

(** [int(x)]: truncation. *)
Definition int_of (q : Q) : Z := Z.quot (Qnum q) (Zpos (Qden q)).

(** [float(s.mean() * 100.0)] of a boolean column with at least one row. *)
Definition mean_pct (a : list bool) : Q :=
  (App1.ratio (bsum a) (List.length a) * 100)%Q.

(** Compute Volume, Pieces, Gross OTP, Net OTP for September (given year). *)
Definition kpis_for_september (df : list otp_row) (year : option Z) : kpis :=
  match df with
  | [] => Kpis 0 0 None None
  | _ =>
    let d := filter (in_september year) df in
    let volume := List.length d in
    let pieces := int_of (qsum (map PIECES d)) in
    let base := filter (fun r => App1.is_some (_target r)) d in
    match base with
    | [] => Kpis volume pieces None None
    | _ =>
      let gross := mean_pct (map On_Time_Gross base) in
      let net := mean_pct (map On_Time_Net base) in
      let net := if negb (Qle_bool gross net) then gross else net in
      Kpis volume pieces (Some gross) (Some net)
    end
  end.

(** [cols = {c.lower(): c for c in df.columns}] and [cols.get(key)]: of
    the columns whose lower-cased label is the key, the last one. *)
Fixpoint cols_get (key : string) (columns : list string) : option string :=
  match columns with
  | [] => None
  | c :: columns' =>
      match cols_get key columns' with
      | Some c' => Some c'
      | None => if String.eqb (Py.lower c) key then Some c else None
      end
  end.

(** [cols.get(a) or cols.get(b) or None] *)
Definition cols_get_or (a b : string) (df : DataFrame) : option string :=
  match cols_get a (columns df) with
  | Some c => Some c
  | None => cols_get b (columns df)
  end.

(** [s.astype(str).str.upper().str.strip().eq("AMS")] *)
Definition is_ams_code (c : cell) : bool :=
  String.eqb (Py.strip (Py.upper (pystr c))) "AMS".

(** Keep rows where DEP or ARR equals 'AMS' (case-insensitive).  Also
    accepts fallback columns DEP STN/ARR STN. *)
Definition filter_ams_rows (df : DataFrame) : DataFrame :=
  let dep := cols_get_or "dep" "dep stn" df in
  let arr := cols_get_or "arr" "arr stn" df in
  match dep, arr with
  | None, None => df
  | _, _ =>
    let mask := map (fun _ => false) (rows df) in
    let mask :=
      match dep with
      | Some c => App1.bor mask (map is_ams_code (col c df))
      | None => mask
      end in
    let mask :=
      match arr with
      | Some c => App1.bor mask (map is_ams_code (col c df))
      | None => mask
      end in
    loc mask df
  end.

(** [s.unique()]: the values in order of first appearance. *)
Fixpoint unique_from (seen l : list Z) : list Z :=
  match l with
  | [] => []
  | x :: l' =>
      if existsb (Z.eqb x) seen then unique_from seen l'
      else x :: unique_from (x :: seen) l'
  end.

Definition unique (l : list Z) : list Z := unique_from [] l.

(** [sorted(l)] on integers. *)
Fixpoint insert_sorted (x : Z) (l : list Z) : list Z :=
  match l with
  | [] => [x]
  | y :: l' => if x <=? y then x :: l else y :: insert_sorted x l'
  end.

Definition sorted (l : list Z) : list Z := fold_right insert_sorted [] l.

(** The year of a row whose POD lies in September. *)
Definition september_year (r : otp_row) : option Z :=
  match _pod r with
  | Some t => if Timestamp.month t =? 9 then Some (Timestamp.year t) else None
  | None => None
  end.

Fixpoint somes {A : Type} (l : list (option A)) : list A :=
  match l with
  | [] => []
  | Some x :: l' => x :: somes l'
  | None :: l' => somes l'
  end.

(** Return sorted list of years where POD month == 9. *)
Definition pick_september_years (df : list otp_row) : list Z :=
  sorted (unique (somes (map september_year df))).

(** The year a tab starts with: [options=years or [now.year]] with
    [index=len(years)-1 if years else 0]. *)
Definition default_year (years : list Z) (now_year : Z) : Z :=
  last years now_year.

End KpiVariant.

(** ** The date normaliser as a run

    [pd.to_datetime(s, errors="coerce")] reads a series as a whole: the
    format it applies to the text cells is inferred from the series (from
    its first text cell that is not missing), so what a cell becomes
    depends on the cell and on the series it stands in.  [guess_format] is
    that inference and [to_datetime] the reading of one cell under its
    outcome.  [pd.to_timedelta(num, unit="D")] is called without
    [errors="coerce"]: it raises [OutOfBoundsTimedelta] when a count of
    nanoseconds does not fit [timedelta64[ns]], and the addition to the
    epoch raises when the sum does not fit [datetime64[ns]].  [None] is
    that exception; a result [Some out] is the returned series. *)

Module DateNormalizer.

(** [pd.Timedelta.max] and [pd.Timestamp.max] in nanoseconds; the minima
    are their negatives. *)
Definition ns_max : Z := 9223372036854775807.

Definition fits (z : Z) : bool := ((- ns_max <=? z) && (z <=? ns_max))%bool.

(** [pd.to_timedelta(q, unit="D")] on one number. *)
Definition to_timedelta (q : Q) : option Z :=
  let ns := App1.days_to_ns q in
  if fits ns then Some ns else None.

(** [pd.to_datetime("1899-12-30") + td] *)
Definition add_epoch (td : Z) : option Z :=
  let t := App1.excel_epoch + td in
  if fits t then Some t else None.

(** The serial reading of one number: 1899-12-30 plus the number as days. *)
Definition serial (q : Q) : option Z :=
  match to_timedelta q with
  | Some td => add_epoch td
  | None => None
  end.

(** The candidate series [out2]: a NaN stays NaT, and one number out of
    range fails the whole conversion. *)
Fixpoint serials (num : list (option Q)) : option (list (option Z)) :=
  match num with
  | [] => Some []
  | x :: num' =>
      match match x with
            | Some q => option_map Some (serial q)
            | None => Some None
            end, serials num' with
      | Some t, Some ts => Some (t :: ts)
      | _, _ => None
      end
  end.

Section Parsers.

Variable format : Type.
Variable guess_format : Series -> format.
Variable to_datetime : format -> cell -> option Z.
Variable to_numeric : cell -> option Q.

(** Robust datetime: parse; if many NaT, try Excel serials. *)
Definition _excel_to_dt (s : Series) : option (list (option Z)) :=
  let out := map (to_datetime (guess_format s)) s in
  if App1.gt_half (App1.bmean (map (fun o => negb (App1.is_some o)) out)) then
    let num := map to_numeric s in
    match serials num with
    | Some out2 => Some (App1.where_notna out out2)
    | None => None
    end
  else Some out.

End Parsers.

End DateNormalizer.

(** ** The vocabulary of the specification

    A shipment as the OTP calculator sees it: the normalised POD and target
    timestamps and whether its QC annotation names a cause outside the
    company's control. *)

Module Spec.

Record shipment : Type := Shipment {
  pod : option Z;
  target : option Z;
  non_controllable : bool
}.

(** Valid: both timestamps are known. *)
Definition valid (r : shipment) : bool :=
  (App1.is_some (pod r) && App1.is_some (target r))%bool.

(** On time: valid and delivered at or before the target. *)
Definition on_time (r : shipment) : bool :=
  (valid r &&
   match pod r, target r with
   | Some p, Some t => p <=? t
   | _, _ => false
   end)%bool.

Definition controllable (r : shipment) : bool := negb (non_controllable r).

Definition count {A : Type} (f : A -> bool) (l : list A) : nat :=
  List.length (filter f l).

(** [a] out of [b], as a percentage. *)
Definition percent (a b : nat) : Q := (App1.ratio a b * 100)%Q.

Definition controllable_valid (r : shipment) : bool :=
  (valid r && controllable r)%bool.

Definition controllable_on_time (r : shipment) : bool :=
  (on_time r && controllable r)%bool.

(** [y] is [x] rounded to two decimals: a multiple of 1/100 nearest to
    [x]. *)
Definition rounded2 (x y : Q) : Prop :=
  (exists k : Z, y == k # 100)%Q /\ (Qabs (y - x) <= 1 # 200)%Q.

(** Gross OTP: the on-time valid shipments out of the valid ones, zero when
    none is valid. *)
Definition gross_otp (l : list shipment) : Q :=
  if (count valid l =? 0)%nat then 0%Q
  else percent (count on_time l) (count valid l).

(** Net OTP: the on-time controllable valid shipments out of the
    controllable valid ones, [fallback] when there is none. *)
Definition net_otp (fallback : Q) (l : list shipment) : Q :=
  if (count controllable_valid l =? 0)%nat then fallback
  else percent (count controllable_on_time l) (count controllable_valid l).

Fixpoint zip (pods targets : list (option Z)) (ncs : list bool)
  : list shipment :=
  match pods, targets, ncs with
  | p :: pods', t :: targets', n :: ncs' =>
      Shipment p t n :: zip pods' targets' ncs'
  | _, _, _ => []
  end.

(** The identifiers of the records of a frame. *)
Definition members (df : DataFrame) : list (string * nat) :=
  map origin (rows df).

Definition disjoint {A : Type} (l1 l2 : list A) : Prop :=
  forall x, In x l1 -> ~ In x l2.

(** [s.strip()] *)
Fixpoint lstrip (s : string) : string :=
  match s with
  | String c s' => if Regex.is_space c then lstrip s' else s
  | EmptyString => s
  end.

Fixpoint rev_string (s acc : string) : string :=
  match s with
  | String c s' => rev_string s' (String c acc)
  | EmptyString => acc
  end.

Definition strip (s : string) : string :=
  rev_string (lstrip (rev_string (lstrip s) "")) "".

Section Shipments.

Variable to_datetime : cell -> option Z.
Variable to_numeric : cell -> option Q.

(** The shipments [App1.calculate_otp] and [TabVariant.calculate_otp] work
    on: a column the frame lacks gives unknown timestamps, and no QC column
    gives controllable shipments.  [nc] is the variant's QC test. *)
Definition shipments (nc : cell -> bool) (df : DataFrame) : list shipment :=
  zip (if has_col "POD DATE/TIME" df
       then App1._excel_to_dt to_datetime to_numeric (col "POD DATE/TIME" df)
       else map (fun _ => None) (rows df))
      (match App1._get_target_series df with
       | Some target_col => App1._excel_to_dt to_datetime to_numeric target_col
       | None => map (fun _ => None) (rows df)
       end)
      (if has_col "QC" df
       then map nc (col "QC" df)
       else map (fun _ => false) (rows df)).

End Shipments.

(** The QC tests of the two calculators. *)
Definition app1_nc (c : cell) : bool :=
  App1.qc_non_controllable (App1.qc_text c).

Definition tab_nc (c : cell) : bool :=
  TabVariant.qc_non_controllable (TabVariant.qc_text c).

(** The shipment a row of the KPI variant stands for; the QC pattern of
    that variant names the causes outside the company's control. *)
Definition of_otp_row (r : KpiVariant.otp_row) : shipment :=
  Shipment (KpiVariant._pod r) (KpiVariant._target r)
           (KpiVariant.Is_Controllable r).

(** The number of cells of a series the calendar parser rejects. *)
Definition failures (to_datetime : cell -> option Z) (s : Series) : nat :=
  count (fun c => negb (App1.is_some (to_datetime c))) s.

End Spec.

(** ** Concrete inputs *)

Module Examples.

(** A parser instance for frames whose date cells are datetimes: a datetime
    cell is its own timestamp, any other cell is not a date. *)
Definition datetime_of (c : cell) : option Z :=
  match c with CDate t => Some t | _ => None end.

(** A numeric parser instance: whole numbers, as cells or as digit text. *)
Definition number_of (c : cell) : option Q :=
  match c with
  | CInt z => Some (inject_Z z)
  | CStr s => option_map (fun d => inject_Z (Z.of_int d)) (NilZero.int_of_string s)
  | _ => None
  end.

(** The reading of a cell in a series that gives pandas no format to
    infer: a datetime cell is its timestamp, a whole number is that many
    nanoseconds since 1970 (the default [unit="ns"]), and text that is no
    date is NaT. *)
Definition no_format (_ : Series) : unit := tt.

Definition pandas_datetime_of (_ : unit) (c : cell) : option Z :=
  match c with
  | CDate t => Some t
  | CInt n => if DateNormalizer.fits n then Some n else None
  | _ => None
  end.

Definition at_9 : Z := Timestamp.make 2024 9 5 9 0.
Definition at_10 : Z := Timestamp.make 2024 9 5 10 0.

Definition otp_row (i : nat) (pod target qc : cell) : row :=
  Row ("AMS", i) [("POD DATE/TIME", pod); ("UPD DEL", target); ("QC", qc)].

(** Three valid shipments, one of them on time, no QC annotation. *)
Definition df_one_in_three : DataFrame :=
  Frame ["POD DATE/TIME"; "UPD DEL"; "QC"]
        [otp_row 0 (CDate at_9) (CDate at_10) CNaN;
         otp_row 1 (CDate at_10) (CDate at_9) CNaN;
         otp_row 2 (CDate at_10) (CDate at_9) CNaN].

(** One valid shipment, on time, held by customs. *)
Definition df_customs : DataFrame :=
  Frame ["POD DATE/TIME"; "UPD DEL"; "QC"]
        [otp_row 0 (CDate at_9) (CDate at_10) (CStr "Customs Hold")].

(** Two valid shipments, both on time. *)
Definition df_all_on_time : DataFrame :=
  Frame ["POD DATE/TIME"; "UPD DEL"; "QC"]
        [otp_row 0 (CDate at_9) (CDate at_10) CNaN;
         otp_row 1 (CDate at_9) (CDate at_9) (CStr "agent")].

(** Two shipments: the first has an updated delivery and is on time, the
    second has only a quoted delivery time and is late for it. *)
Definition second_row : row :=
  Row ("AMS", 1%nat)
      [("POD DATE/TIME", CDate at_10); ("UPD DEL", CNaN); ("QDT", CDate at_9)].

Definition df_mixed_targets : DataFrame :=
  Frame ["POD DATE/TIME"; "UPD DEL"; "QDT"]
        [Row ("AMS", 0%nat)
             [("POD DATE/TIME", CDate at_9); ("UPD DEL", CDate at_10);
              ("QDT", CDate at_10)];
         second_row].

(** One September shipment delivered an hour late, no QC column at all. *)
Definition df_late_no_qc : DataFrame :=
  Frame ["ACCT NM"; "POD DATE/TIME"; "UPD DEL"]
        [Row ("AMS", 0%nat)
             [("ACCT NM", CStr "Marken Ltd"); ("POD DATE/TIME", CDate at_10);
              ("UPD DEL", CDate at_9)]].

(** A frame with a departure column and no arrival column. *)
Definition df_no_arr : DataFrame :=
  Frame ["ACCT NM"; "DEP"]
        [Row ("AMS", 0%nat) [("ACCT NM", CStr "Acme Pharma"); ("DEP", CStr "JFK")];
         Row ("AMS", 1%nat) [("ACCT NM", CStr "Lufthansa Cargo"); ("DEP", CStr "AMS")]].

(** A workbook with one record for each tab and one for none. *)
Definition wb : workbook := [
  ("AMS",
   Sheet ["ACCT NM"; "DEP"; "ARR"]
         [[CStr "Marken Ltd"; CStr "AMS"; CStr "JFK"];
          [CStr "Acme Pharma"; CStr "LHR"; CStr "ams"];
          [CStr "Delta Pharma"; CStr "AMS"; CStr "CDG"]]);
  ("Aviation SVC",
   Sheet ["ACCT NM"; "DEP"; "ARR"]
         [[CStr "Lufthansa Cargo"; CStr "JFK"; CStr "AMS"]])
].

(** A sheet with padded and lower-case office codes. *)
Definition df_offices : DataFrame :=
  Frame ["ACCT NM"; "DEP"; "ARR"]
        [Row ("AMS", 0%nat)
             [("ACCT NM", CStr "Acme Pharma"); ("DEP", CStr " ams ");
              ("ARR", CStr "JFK")];
         Row ("AMS", 1%nat)
             [("ACCT NM", CStr "Lufthansa Cargo"); ("DEP", CStr "LHR");
              ("ARR", CStr "AMSTERDAM")];
         Row ("AMS", 2%nat)
             [("ACCT NM", CStr "Delta Pharma"); ("DEP", CStr "CDG");
              ("ARR", CStr "JFK")]].

End Examples.

(** ** Text without letters

    The text of a number or of a timestamp is made of digits, signs and
    separators; no keyword and no account name is. *)

Module PlainText.

Definition plain_char (c : ascii) : bool :=
  (Py.is_digit c || Ascii.eqb c "-" || Ascii.eqb c ":" || Ascii.eqb c " "
   || Ascii.eqb c ".")%bool.

Fixpoint plain (s : string) : bool :=
  match s with
  | EmptyString => true
  | String c s' => (plain_char c && plain s')%bool
  end.

(** Every entry has a character that plain text cannot have. *)
Definition all_lettered (l : list string) : bool :=
  forallb (fun k => negb (plain k)) l.

End PlainText.

Import PlainText.

(** * Properties *)

Lemma plain_app : forall a b, plain (a ++ b) = (plain a && plain b)%bool.
Proof.
  induction a as [|c a IH]; intros b; simpl.
  - reflexivity.
  - rewrite IH. now rewrite andb_assoc.
Qed.

Lemma lower_char_plain : forall c, plain_char c = true -> Py.lower_char c = c.
Proof.
  intros c. destruct c as [[] [] [] [] [] [] [] []];
    vm_compute; intros H; try reflexivity; discriminate H.
Qed.

Lemma lower_plain : forall s, plain s = true -> Py.lower s = s.
Proof.
  induction s as [|c s IH]; simpl; intros H.
  - reflexivity.
  - apply andb_true_iff in H as [Hc Hs].
    now rewrite (lower_char_plain c Hc), (IH Hs).
Qed.

Lemma prefix_plain :
  forall k s, prefix k s = true -> plain s = true -> plain k = true.
Proof.
  induction k as [|c k IH]; intros s Hp Hs.
  - reflexivity.
  - destruct s as [|d s]; simpl in Hp; [discriminate|].
    destruct (Ascii.ascii_dec c d) as [->|]; [|discriminate].
    simpl in Hs |- *. apply andb_true_iff in Hs as [Hd Hs].
    rewrite Hd. simpl. now apply (IH s).
Qed.

Lemma contains_plain :
  forall k s, plain s = true -> plain k = false -> Py.contains k s = false.
Proof.
  intros k s Hs Hk. induction s as [|d s IH].
  - simpl. destruct k; [discriminate Hk | reflexivity].
  - cbn [Py.contains].
    destruct (prefix k (String d s)) eqn:Hp.
    + rewrite (prefix_plain _ _ Hp Hs) in Hk. discriminate.
    + simpl in Hs. apply andb_true_iff in Hs as [_ Hs]. now apply IH.
Qed.

Lemma any_in_plain :
  forall kws s, all_lettered kws = true -> plain s = true ->
  Py.any_in kws (Py.lower s) = false.
Proof.
  intros kws s Hk Hs. rewrite (lower_plain s Hs).
  unfold Py.any_in. induction kws as [|k kws IH]; simpl.
  - reflexivity.
  - simpl in Hk. apply andb_true_iff in Hk as [Hk1 Hk2].
    rewrite contains_plain; [now apply IH | assumption |].
    now apply negb_true_iff.
Qed.

Lemma mem_plain :
  forall l s, all_lettered l = true -> plain s = true -> Py.mem s l = false.
Proof.
  intros l s Hl Hs. unfold Py.mem. induction l as [|k l IH]; simpl.
  - reflexivity.
  - simpl in Hl. apply andb_true_iff in Hl as [Hk Hl].
    destruct (String.eqb s k) eqn:E.
    + apply String.eqb_eq in E. subst k. rewrite Hs in Hk. discriminate.
    + now apply IH.
Qed.

Lemma digit_plain : forall n, plain_char (Timestamp.digit n) = true.
Proof.
  intros n. unfold Timestamp.digit.
  assert (H : (Z.to_nat (n mod 10) < 10)%nat).
  { pose proof (Z.mod_pos_bound n 10 ltac:(lia)). lia. }
  destruct (Z.to_nat (n mod 10)) as [|[|[|[|[|[|[|[|[|[|m]]]]]]]]]];
    try (exfalso; lia); reflexivity.
Qed.

Lemma pad2_plain : forall n, plain (Timestamp.pad2 n) = true.
Proof.
  intros n. unfold Timestamp.pad2. cbn [plain]. now rewrite !digit_plain.
Qed.

Lemma pad3_plain : forall n, plain (Timestamp.pad3 n) = true.
Proof.
  intros n. unfold Timestamp.pad3. cbn [plain].
  now rewrite digit_plain, pad2_plain.
Qed.

Lemma pad4_plain : forall n, plain (Timestamp.pad4 n) = true.
Proof.
  intros n. unfold Timestamp.pad4. cbn [plain].
  now rewrite digit_plain, pad3_plain.
Qed.

Lemma string_of_uint_plain :
  forall d, plain (NilZero.string_of_uint d) = true.
Proof.
  intros d. destruct d as [|d|d|d|d|d|d|d|d|d|d]; try reflexivity;
    simpl; clear; induction d; simpl; auto.
Qed.

Lemma str_int_plain : forall z, plain (Py.str_int z) = true.
Proof.
  intros z. unfold Py.str_int, NilZero.string_of_int.
  destruct (Z.to_int z); simpl; apply string_of_uint_plain.
Qed.

Lemma timestamp_plain : forall t, plain (Timestamp.to_string t) = true.
Proof.
  intros t. unfold Timestamp.to_string. cbv zeta.
  repeat rewrite plain_app.
  repeat match goal with
         | |- context [if ?b then _ else _] => destruct b
         end;
    repeat rewrite plain_app;
    rewrite ?pad2_plain, ?pad3_plain, ?pad4_plain, ?str_int_plain;
    reflexivity.
Qed.

(** ** The account classifier of [src/app1.py] *)

Lemma app1_lists_lettered :
  all_lettered App1.RP_ACCOUNTS = true
  /\ all_lettered App1.HEALTHCARE_KEYWORDS = true
  /\ all_lettered App1.AVIATION_KEYWORDS = true.
Proof. repeat split; vm_compute; reflexivity. Qed.

Lemma kpi_lists_lettered :
  all_lettered KpiVariant.HEALTHCARE_KEYWORDS = true
  /\ all_lettered KpiVariant.AVIATION_KEYWORDS = true.
Proof. split; vm_compute; reflexivity. Qed.

(** An account whose text has no letter is in no list and has no keyword. *)
Lemma plain_account_unclassified :
  forall a, plain (pystr a) = true ->
  App1.is_rp_account a = false /\ App1.is_healthcare a = false
  /\ App1.is_aviation a = false.
Proof.
  intros a Hp.
  destruct app1_lists_lettered as (Hrp & Hhc & Hav).
  assert (R : App1.is_rp_account a = false).
  { unfold App1.is_rp_account. destruct (truthy a); [|reflexivity].
    cbn [negb]. now apply mem_plain. }
  repeat split; [exact R | |].
  - unfold App1.is_healthcare. rewrite R.
    destruct (truthy a); [|reflexivity]. cbn [negb].
    now rewrite !any_in_plain.
  - unfold App1.is_aviation. rewrite R.
    destruct (truthy a); [|reflexivity]. cbn [negb].
    now rewrite !any_in_plain.
Qed.

Lemma tabs_of_none :
  forall a, App1.is_healthcare a = false -> App1.is_aviation a = false ->
  isin App1.RP_ACCOUNTS a = false -> App1.tabs_of a = [].
Proof.
  intros a Hh Ha Hi. unfold App1.tabs_of. now rewrite Hh, Ha, Hi.
Qed.

(** An allow-listed name is recognised by [is_rp_account]. *)
Lemma isin_is_rp_account :
  forall a, isin App1.RP_ACCOUNTS a = true -> App1.is_rp_account a = true.
Proof.
  intros [s| | | | |] H; try discriminate H. simpl in H.
  unfold App1.is_rp_account. cbn [truthy pystr].
  destruct (String.eqb s "") eqn:E.
  - apply String.eqb_eq in E. subst s. vm_compute in H. discriminate.
  - exact H.
Qed.

Lemma is_rp_account_excluded :
  forall a, App1.is_rp_account a = true ->
  App1.is_healthcare a = false /\ App1.is_aviation a = false.
Proof.
  intros a H. unfold App1.is_healthcare, App1.is_aviation. rewrite H.
  now destruct (truthy a).
Qed.

(** The two keyword tests never both accept an account. *)
Lemma healthcare_not_aviation :
  forall a, App1.is_healthcare a = true -> App1.is_aviation a = false.
Proof.
  intros a. unfold App1.is_healthcare, App1.is_aviation.
  destruct (truthy a); cbn [negb]; [|reflexivity].
  destruct (App1.is_rp_account a); [reflexivity|].
  cbv zeta.
  destruct (Py.any_in App1.AVIATION_KEYWORDS _); [discriminate|].
  destruct (Py.any_in App1.HEALTHCARE_KEYWORDS _); [reflexivity | discriminate].
Qed.

(** C1, as the code has it: an account name that is exactly an entry of
    the RadioPharma allow-list (no white space is trimmed) is an RP account,
    is neither healthcare nor aviation whatever keywords it contains, and
    lands in the RP tab only. *)
Theorem rp_exact_name_is_radiopharma_only :
  forall s, In s App1.RP_ACCOUNTS ->
  App1.is_rp_account (CStr s) = true
  /\ App1.is_healthcare (CStr s) = false
  /\ App1.is_aviation (CStr s) = false
  /\ App1.tabs_of (CStr s) = [App1.RadioPharma].
Proof.
  intros s H.
  assert (I : isin App1.RP_ACCOUNTS (CStr s) = true).
  { cbn [isin]. unfold Py.mem. apply existsb_exists. exists s.
    split; [exact H | apply String.eqb_refl]. }
  pose proof (isin_is_rp_account _ I) as R.
  destruct (is_rp_account_excluded _ R) as [Hh Ha].
  repeat split; try assumption.
  unfold App1.tabs_of. now rewrite I, Hh, Ha.
Qed.

Lemma rp_exact_name_witness :
  App1.tabs_of (CStr "UNIVERSAL PICTURES INTERNATIONAL NETHERLANDS")
  = [App1.RadioPharma].
Proof.
  apply (rp_exact_name_is_radiopharma_only
           "UNIVERSAL PICTURES INTERNATIONAL NETHERLANDS").
  simpl. tauto.
Defined.

(** C1 as stated fails: with a trailing blank the name trims to an
    allow-list entry, yet it is not an RP account and the healthcare test
    accepts it (keyword [marken]). *)
Lemma rp_trimmed_name_counterexample :
  In (Spec.strip "Marken Ltd ") App1.RP_ACCOUNTS
  /\ App1.is_rp_account (CStr "Marken Ltd ") = false
  /\ App1.is_healthcare (CStr "Marken Ltd ") = true
  /\ App1.tabs_of (CStr "Marken Ltd ") = [App1.LifeSciences].
Proof. repeat split; vm_compute; tauto. Qed.

(** C3, as the code has it: an account outside the allow-list whose
    lower-cased name has both an aviation and a healthcare keyword is
    rejected by both keyword tests, so it is in no tab. *)
Theorem both_keywords_unclassified :
  forall a,
  App1.is_rp_account a = false ->
  Py.any_in App1.AVIATION_KEYWORDS (Py.lower (pystr a)) = true ->
  Py.any_in App1.HEALTHCARE_KEYWORDS (Py.lower (pystr a)) = true ->
  App1.is_healthcare a = false /\ App1.is_aviation a = false
  /\ App1.tabs_of a = [].
Proof.
  intros a R Hav Hhc.
  assert (Hh : App1.is_healthcare a = false).
  { unfold App1.is_healthcare. rewrite R. cbv zeta. rewrite Hav.
    now destruct (truthy a). }
  assert (Ha : App1.is_aviation a = false).
  { unfold App1.is_aviation. rewrite R. cbv zeta. rewrite Hhc.
    now destruct (truthy a). }
  repeat split; try assumption.
  apply tabs_of_none; try assumption.
  destruct (isin App1.RP_ACCOUNTS a) eqn:I; [|reflexivity].
  rewrite (isin_is_rp_account _ I) in R. discriminate.
Qed.

Lemma both_keywords_witness : App1.tabs_of (CStr "Delta Pharma") = [].
Proof.
  apply (both_keywords_unclassified (CStr "Delta Pharma")); reflexivity.
Defined.

(** C3 as stated fails: [Delta Pharma] is not allow-listed and has the
    aviation keyword [delta] and the healthcare keyword [pharma], and the
    aviation test rejects it. *)
Lemma aviation_tie_counterexample :
  App1.is_rp_account (CStr "Delta Pharma") = false
  /\ Py.any_in App1.AVIATION_KEYWORDS (Py.lower "Delta Pharma") = true
  /\ Py.any_in App1.HEALTHCARE_KEYWORDS (Py.lower "Delta Pharma") = true
  /\ App1.is_aviation (CStr "Delta Pharma") = false.
Proof. repeat split; vm_compute; reflexivity. Qed.

(** C9: an account name that is empty or is not text (a number, a Boolean,
    a timestamp, [None], a missing value) is no RP account, is neither
    healthcare nor aviation, is in no tab, and [_contains_any] finds no
    keyword in it.  The functions are total: no input raises. *)
Theorem no_text_unclassified :
  forall a, is_str a = false \/ a = CStr "" ->
  App1.is_rp_account a = false
  /\ App1.is_healthcare a = false
  /\ App1.is_aviation a = false
  /\ App1.tabs_of a = []
  /\ KpiVariant._contains_any a KpiVariant.HEALTHCARE_KEYWORDS = false
  /\ KpiVariant._contains_any a KpiVariant.AVIATION_KEYWORDS = false.
Proof.
  intros a H.
  assert (K : forall kws, all_lettered kws = true ->
                          KpiVariant._contains_any a kws = false).
  { intros kws L. destruct H as [H | ->].
    - unfold KpiVariant._contains_any. now rewrite H.
    - unfold KpiVariant._contains_any. cbn [is_str negb pystr].
      now apply any_in_plain. }
  destruct kpi_lists_lettered as [L1 L2].
  assert (N : isin App1.RP_ACCOUNTS a = false).
  { destruct H as [H | ->]; [now destruct a | reflexivity]. }
  assert (P : App1.is_rp_account a = false /\ App1.is_healthcare a = false
              /\ App1.is_aviation a = false).
  { destruct H as [H | ->].
    - destruct a as [s|z|b|t| |]; try discriminate H.
      + apply plain_account_unclassified. apply str_int_plain.
      + destruct b; repeat split; reflexivity.
      + apply plain_account_unclassified. apply timestamp_plain.
      + repeat split; reflexivity.
      + repeat split; vm_compute; reflexivity.
    - now apply plain_account_unclassified. }
  destruct P as (R & Hh & Ha).
  repeat split; try assumption; auto using tabs_of_none.
Qed.

Lemma no_text_witness : App1.tabs_of CNaN = [].
Proof.
  apply (no_text_unclassified CNaN). left. reflexivity.
Defined.

(** ** Masks and selections *)

Lemma select_map_filter :
  forall (A : Type) (f : A -> bool) (xs : list A),
  select (map f xs) xs = filter f xs.
Proof.
  intros A f xs. induction xs as [|x xs IH]; simpl.
  - reflexivity.
  - now rewrite IH.
Qed.

Lemma bor_map :
  forall (A : Type) (f g : A -> bool) (xs : list A),
  App1.bor (map f xs) (map g xs) = map (fun x => (f x || g x)%bool) xs.
Proof.
  intros A f g xs. induction xs as [|x xs IH]; simpl.
  - reflexivity.
  - now rewrite IH.
Qed.

Lemma band_map :
  forall (A : Type) (f g : A -> bool) (xs : list A),
  band (map f xs) (map g xs) = map (fun x => (f x && g x)%bool) xs.
Proof.
  intros A f g xs. induction xs as [|x xs IH]; simpl.
  - reflexivity.
  - now rewrite IH.
Qed.

Lemma bsum_map :
  forall (A : Type) (f : A -> bool) (xs : list A),
  bsum (map f xs) = Spec.count f xs.
Proof.
  intros A f xs. unfold bsum, Spec.count.
  induction xs as [|x xs IH]; simpl.
  - reflexivity.
  - destruct (f x); simpl; now rewrite IH.
Qed.

Lemma bany_map :
  forall (A : Type) (f : A -> bool) (xs : list A),
  bany (map f xs) = existsb f xs.
Proof.
  intros A f xs. unfold bany. induction xs as [|x xs IH]; simpl.
  - reflexivity.
  - now rewrite IH.
Qed.

Lemma bany_bsum : forall a, bany a = (0 <? bsum a)%nat.
Proof.
  intros a. unfold bany, bsum. induction a as [|[] a IH]; simpl; auto.
Qed.

(** ** The office filter *)

(** With both columns the filter keeps the rows that mention AMS. *)
Lemma filter_by_ams_rows :
  forall df, has_col "DEP" df = true -> has_col "ARR" df = true ->
  rows (App1.filter_by_ams df)
  = filter (fun r => (App1.contains_ams (get "DEP" r)
                      || App1.contains_ams (get "ARR" r))%bool) (rows df).
Proof.
  intros df Hd Ha. unfold App1.filter_by_ams.
  destruct (is_empty df) eqn:E.
  - unfold is_empty in E. destruct (rows df) as [|r rs] eqn:R.
    + reflexivity.
    + unfold has_col in Hd. destruct (columns df); discriminate.
  - rewrite Hd, Ha. cbn [andb loc rows]. unfold col.
    rewrite !map_map, bor_map. apply select_map_filter.
Qed.

Lemma filter_by_ams_subset :
  forall df r, In r (rows (App1.filter_by_ams df)) -> In r (rows df).
Proof.
  intros df r H.
  destruct (has_col "DEP" df) eqn:Hd, (has_col "ARR" df) eqn:Ha;
    try (unfold App1.filter_by_ams in H; rewrite Hd, Ha in H;
         now destruct (is_empty df)).
  rewrite (filter_by_ams_rows df Hd Ha) in H.
  now apply filter_In in H.
Qed.

(** C10: when the frame lacks the DEP column or the ARR column,
    [filter_by_ams] returns it unchanged, so each of its rows, whether it
    mentions AMS or not, goes on to the LFS and AVS tabs. *)
Theorem filter_by_ams_needs_both_columns :
  forall df, has_col "DEP" df = false \/ has_col "ARR" df = false ->
  App1.filter_by_ams df = df
  /\ forall r, In r (rows df) -> In r (rows (App1.filter_by_ams df)).
Proof.
  intros df H.
  assert (E : App1.filter_by_ams df = df).
  { unfold App1.filter_by_ams. destruct (is_empty df); [reflexivity|].
    destruct H as [H | H]; rewrite H; [reflexivity|].
    now rewrite andb_false_r. }
  split; [exact E | now rewrite E].
Qed.

Lemma filter_by_ams_witness :
  App1.filter_by_ams Examples.df_no_arr = Examples.df_no_arr.
Proof.
  apply (filter_by_ams_needs_both_columns Examples.df_no_arr).
  right. reflexivity.
Defined.

(** ** The target column *)

Lemma zip_rows_target :
  forall rs pod target ctrl pcs,
  List.length pod = List.length rs -> List.length target = List.length rs ->
  List.length ctrl = List.length rs -> List.length pcs = List.length rs ->
  map KpiVariant._target (KpiVariant.zip_rows rs pod target ctrl pcs) = target.
Proof.
  induction rs as [|r rs IH]; intros pod target ctrl pcs Hp Ht Hc Hq;
    destruct pod, target, ctrl, pcs; try discriminate; simpl.
  - reflexivity.
  - f_equal. apply IH; simpl in *; congruence.
Qed.

Lemma excel_to_dt_length :
  forall to_datetime to_numeric s,
  List.length (App1._excel_to_dt to_datetime to_numeric s) = List.length s.
Proof.
  intros f g s. unfold App1._excel_to_dt. cbv zeta.
  assert (W : forall a b : list (option Z),
             List.length a = List.length b ->
             List.length (App1.where_notna a b) = List.length a).
  { induction a as [|x a IH]; intros [|y b] E; simpl in *; try congruence.
    f_equal. apply IH. congruence. }
  destruct (App1.gt_half _).
  - rewrite W; now rewrite !length_map.
  - apply length_map.
Qed.

(** C7, as the code has it: the target is chosen for the frame as a whole.
    In [src/app1.py] every record takes its target from its UPD DEL cell
    when the frame has that column and at least one of its records has a
    value there, and from its QDT cell otherwise (when that column exists);
    a record without an UPD DEL value in a frame that reads UPD DEL has no
    target.  In the KPI variant the UPD DEL column is read whenever it
    exists. *)
Theorem target_is_chosen_per_frame :
  forall to_datetime to_numeric df,
  App1._get_target_series df
  = (if (has_col "UPD DEL" df
         && existsb (fun r => notna (get "UPD DEL" r)) (rows df))%bool
     then Some (map (get "UPD DEL") (rows df))
     else if has_col "QDT" df then Some (map (get "QDT") (rows df))
     else None)
  /\ (forall i r s,
      nth_error (rows df) i = Some r -> App1._get_target_series df = Some s ->
      nth_error s i
      = Some (if (has_col "UPD DEL" df
                  && existsb (fun r' => notna (get "UPD DEL" r')) (rows df))%bool
              then get "UPD DEL" r else get "QDT" r))
  /\ map KpiVariant._target
         (KpiVariant.add_otp_columns to_datetime to_numeric df)
     = (if has_col "UPD DEL" df
        then App1._excel_to_dt to_datetime to_numeric
               (map (get "UPD DEL") (rows df))
        else if has_col "QDT" df
        then App1._excel_to_dt to_datetime to_numeric
               (map (get "QDT") (rows df))
        else map (fun _ => None) (rows df)).
Proof.
  intros f g df.
  assert (E : App1._get_target_series df
              = (if (has_col "UPD DEL" df
                     && existsb (fun r => notna (get "UPD DEL" r)) (rows df))%bool
                 then Some (map (get "UPD DEL") (rows df))
                 else if has_col "QDT" df then Some (map (get "QDT") (rows df))
                 else None)).
  { unfold App1._get_target_series, col. now rewrite map_map, bany_map. }
  split; [exact E | split].
  - intros i r s Hr Hs. rewrite E in Hs.
    destruct (has_col "UPD DEL" df && _)%bool.
    + injection Hs as <-. now apply map_nth_error.
    + destruct (has_col "QDT" df); [|discriminate].
      injection Hs as <-. now apply map_nth_error.
  - unfold KpiVariant.add_otp_columns. cbv zeta.
    rewrite zip_rows_target.
    + unfold KpiVariant.target_col, KpiVariant._excel_to_dt, col.
      destruct (has_col "UPD DEL" df); [reflexivity|].
      now destruct (has_col "QDT" df).
    + destruct (has_col "POD DATE/TIME" df);
        unfold KpiVariant._excel_to_dt, KpiVariant.const_column, col;
        now rewrite ?excel_to_dt_length, !length_map.
    + destruct (KpiVariant.target_col df);
        unfold KpiVariant._excel_to_dt, KpiVariant.const_column, col;
        now rewrite ?excel_to_dt_length, !length_map.
    + destruct (has_col "QC NAME" df);
        unfold KpiVariant.const_column, col; now rewrite !length_map.
    + destruct (has_col "PIECES" df);
        unfold KpiVariant.const_column, col; now rewrite !length_map.
Qed.

(** C7 as stated fails: the second record has no UPD DEL value and has a
    QDT value, and its target is the missing UPD DEL cell, not the QDT cell;
    the record is then not valid, and the frame scores 100 although the
    record is late for its quoted delivery time. *)
Lemma target_per_record_counterexample :
  nth_error (rows Examples.df_mixed_targets) 1 = Some Examples.second_row
  /\ notna (get "UPD DEL" Examples.second_row) = false
  /\ get "QDT" Examples.second_row = CDate Examples.at_9
  /\ option_map (fun s => nth_error s 1)
                (App1._get_target_series Examples.df_mixed_targets)
     = Some (Some CNaN)
  /\ App1.calculate_otp Examples.datetime_of Examples.number_of
                        Examples.df_mixed_targets
     = ((10000 # 100)%Q, (10000 # 100)%Q).
Proof. repeat split; vm_compute; reflexivity. Qed.

(** ** The date normaliser *)

(** The mean of a Boolean series exceeds one half exactly when more than
    half of its entries are true. *)
Lemma ratio_le_half :
  forall c n, (0 < n)%nat ->
  (App1.ratio c n <= 1 # 2)%Q <-> (2 * c <= n)%nat.
Proof.
  intros c [|k] Hn; [lia|].
  unfold App1.ratio, Qdiv, Qinv, Qmult, Qle, inject_Z.
  cbn [Qnum Qden Z.of_nat]. lia.
Qed.

Lemma gt_half_bmean :
  forall a, App1.gt_half (App1.bmean a)
            = (List.length a <? 2 * bsum a)%nat.
Proof.
  intros a. destruct a as [|b a].
  - reflexivity.
  - unfold App1.bmean, App1.gt_half.
    set (n := List.length (b :: a)). set (c := bsum (b :: a)).
    assert (Hn : (0 < n)%nat) by (subst n; simpl; lia).
    clearbody n c.
    destruct (Nat.ltb_spec n (2 * c)) as [L | L].
    + apply negb_true_iff. apply not_true_is_false. intros H.
      apply Qle_bool_iff, ratio_le_half in H; lia.
    + apply negb_false_iff. apply Qle_bool_iff, ratio_le_half; lia.
Qed.

Lemma where_notna_map :
  forall (A : Type) (f g : A -> option Z) (xs : list A),
  App1.where_notna (map f xs) (map g xs)
  = map (fun x => match f x with Some t => Some t | None => g x end) xs.
Proof.
  intros A f g xs. induction xs as [|x xs IH]; simpl.
  - reflexivity.
  - rewrite IH. now destruct (f x).
Qed.

(** C8 fails on the code in two places.  A cell that is neither calendar
    text nor a number the serial reading can represent does not become
    null: for the text 9999999 the call raises, because
    [pd.to_timedelta] is the one conversion of the function without
    [errors="coerce"].  And the raw number 45200 of the scenario is not
    read as a serial: pandas reads a number as nanoseconds since 1970, so
    the cell does not count as a parse failure and comes out as
    1970-01-01 00:00:00.000045200.  The serial reading is reached by the
    text 45200, which becomes 2023-10-01, the day 45200 after
    1899-12-30. *)
Theorem excel_to_dt_fails_on_serials :
  let run :=
    DateNormalizer._excel_to_dt unit Examples.no_format
      Examples.pandas_datetime_of Examples.number_of in
  run [CStr "9999999"] = None
  /\ run [CInt 45200] = Some [Some 45200]
  /\ Timestamp.to_string 45200 = "1970-01-01 00:00:00.000045200"
  /\ run [CStr "45200"] = Some [Some (Timestamp.make 2023 10 1 0 0)]
  /\ Timestamp.make 2023 10 1 0 0
     = Timestamp.make 1899 12 30 0 0 + 45200 * 86400000000000.
Proof. repeat split; vm_compute; reflexivity. Qed.

(** ** The OTP calculators *)

Lemma round_half_even_comp :
  forall x y, (x == y)%Q -> App1.round_half_even x = App1.round_half_even y.
Proof.
  intros x y H. unfold App1.round_half_even.
  rewrite (Qfloor_comp _ _ H). cbv zeta.
  assert (E : (x - inject_Z (Qfloor y) == y - inject_Z (Qfloor y))%Q)
    by now rewrite H.
  now rewrite (Qcompare_comp _ _ E _ _ (Qeq_refl (1 # 2))).
Qed.

Lemma round_half_even_near :
  forall y, (Qabs (inject_Z (App1.round_half_even y) - y) <= 1 # 2)%Q.
Proof.
  intros y. unfold App1.round_half_even. cbv zeta.
  pose proof (Qfloor_le y) as L. pose proof (Qlt_floor y) as U.
  rewrite inject_Z_plus in U. change (inject_Z 1) with 1%Q in U.
  destruct (Qcompare (y - inject_Z (Qfloor y)) (1 # 2)) eqn:C.
  - apply Qeq_alt in C. destruct (Z.even (Qfloor y)).
    + apply Qabs_case; intros; lra.
    + rewrite inject_Z_plus. change (inject_Z 1) with 1%Q.
      apply Qabs_case; intros; lra.
  - apply Qlt_alt in C. apply Qabs_case; intros; lra.
  - apply Qgt_alt in C. rewrite inject_Z_plus. change (inject_Z 1) with 1%Q.
    apply Qabs_case; intros; lra.
Qed.

(** [round2] gives a nearest hundredth. *)
Lemma round2_rounded2 : forall x, Spec.rounded2 x (App1.round2 x).
Proof.
  intros x. split.
  - exists (App1.round_half_even (x * 100)). reflexivity.
  - unfold App1.round2.
    pose proof (round_half_even_near (x * 100)) as H.
    set (k := App1.round_half_even (x * 100)) in *.
    assert (E : (k # 100 == inject_Z k / 100)%Q).
    { unfold Qeq, Qdiv, Qmult, Qinv, inject_Z. simpl. lia. }
    rewrite E.
    assert (F : (inject_Z k / 100 * 100 == inject_Z k)%Q) by field.
    apply Qabs_case; intros; revert H; apply Qabs_case; intros; lra.
Qed.

Lemma rounded2_eq :
  forall x y y', (y == y')%Q -> Spec.rounded2 x y -> Spec.rounded2 x y'.
Proof.
  intros x y y' E [[k K] N]. split.
  - exists k. now rewrite <- E.
  - now rewrite <- E.
Qed.

Lemma round2_comp : forall x y, (x == y)%Q -> App1.round2 x = App1.round2 y.
Proof.
  intros x y H. unfold App1.round2.
  rewrite (round_half_even_comp (x * 100) (y * 100)); [reflexivity|].
  now rewrite H.
Qed.

Lemma percent_all : forall n, (0 < n)%nat -> (Spec.percent n n == 100)%Q.
Proof.
  intros n Hn. unfold Spec.percent, App1.ratio.
  field. unfold Qeq, inject_Z. simpl. lia.
Qed.

Lemma percent_none : forall n, (Spec.percent 0 n == 0)%Q.
Proof.
  intros n. unfold Spec.percent, App1.ratio, Qdiv.
  change (inject_Z (Z.of_nat 0)) with 0%Q. now rewrite !Qmult_0_l.
Qed.

(** The masks of the calculators are the spec's tests, shipment by
    shipment. *)
Lemma zip_masks :
  forall P T N,
  List.length P = List.length T -> List.length N = List.length T ->
  band (map App1.is_some T) (map App1.is_some P)
  = map Spec.valid (Spec.zip P T N)
  /\ band (App1.le_mask P T) (map Spec.valid (Spec.zip P T N))
     = map Spec.on_time (Spec.zip P T N)
  /\ N = map Spec.non_controllable (Spec.zip P T N).
Proof.
  induction P as [|p P IH]; intros [|t T] [|n N] HP HN; try discriminate;
    simpl in *.
  - repeat split.
  - destruct (IH T N) as (V & O & C); [congruence.. |].
    rewrite V, O. split; [|split]; f_equal; try exact C.
    + unfold Spec.valid. simpl. apply andb_comm.
    + unfold Spec.on_time, Spec.valid. simpl.
      destruct p, t; simpl; rewrite ?andb_true_r; reflexivity.
Qed.

Lemma count_ext :
  forall (A : Type) (f g : A -> bool) (l : list A),
  (forall x, In x l -> f x = g x) -> Spec.count f l = Spec.count g l.
Proof.
  intros A f g l H. unfold Spec.count. f_equal. now apply filter_ext_in.
Qed.

Lemma count_zero :
  forall (A : Type) (f : A -> bool) (l : list A),
  (forall x, In x l -> f x = false) -> Spec.count f l = 0%nat.
Proof.
  intros A f l H. unfold Spec.count.
  induction l as [|x l IH]; simpl.
  - reflexivity.
  - rewrite (H x (or_introl eq_refl)). apply IH.
    intros y Hy. apply H. now right.
Qed.

Lemma zip_pod_in :
  forall P T N r, In r (Spec.zip P T N) -> In (Spec.pod r) P.
Proof.
  induction P as [|p P IH]; intros [|t T] [|n N] r H; simpl in H;
    try contradiction.
  destruct H as [<- | H]; [now left | right; eauto].
Qed.

Lemma zip_target_in :
  forall P T N r, In r (Spec.zip P T N) -> In (Spec.target r) T.
Proof.
  induction P as [|p P IH]; intros [|t T] [|n N] r H; simpl in H;
    try contradiction.
  destruct H as [<- | H]; [now left | right; eauto].
Qed.

Lemma zip_nc_in :
  forall P T N r, In r (Spec.zip P T N) -> In (Spec.non_controllable r) N.
Proof.
  induction P as [|p P IH]; intros [|t T] [|n N] r H; simpl in H;
    try contradiction.
  destruct H as [<- | H]; [now left | right; eauto].
Qed.

Lemma in_const :
  forall (A B : Type) (b x : B) (l : list A),
  In x (map (fun _ => b) l) -> x = b.
Proof.
  intros A B b x l H. apply in_map_iff in H as (y & E & _). now symmetry.
Qed.

Lemma no_valid_without_pod :
  forall (A : Type) (l : list A) T N,
  Spec.count Spec.valid (Spec.zip (map (fun _ => None) l) T N) = 0%nat.
Proof.
  intros A l T N. apply count_zero. intros r H.
  apply zip_pod_in, in_const in H. unfold Spec.valid. now rewrite H.
Qed.

Lemma no_valid_without_target :
  forall (A : Type) (l : list A) P N,
  Spec.count Spec.valid (Spec.zip P (map (fun _ => None) l) N) = 0%nat.
Proof.
  intros A l P N. apply count_zero. intros r H.
  apply zip_target_in, in_const in H. unfold Spec.valid. rewrite H.
  apply andb_false_r.
Qed.

Lemma band_assoc :
  forall a b c, band a (band b c) = band (band a b) c.
Proof.
  induction a as [|x a IH]; intros [|y b] [|z c]; simpl; try reflexivity.
  now rewrite IH, andb_assoc.
Qed.

Lemma get_target_series_length :
  forall df s, App1._get_target_series df = Some s ->
  List.length s = List.length (rows df).
Proof.
  intros df s H. unfold App1._get_target_series in H.
  destruct (has_col "UPD DEL" df && _)%bool.
  - injection H as <-. apply length_map.
  - destruct (has_col "QDT" df); [|discriminate].
    injection H as <-. apply length_map.
Qed.

Lemma empty_no_valid :
  forall to_datetime to_numeric nc df, is_empty df = true ->
  Spec.count Spec.valid (Spec.shipments to_datetime to_numeric nc df) = 0%nat.
Proof.
  intros f g nc df E. unfold is_empty in E. unfold Spec.shipments.
  destruct (rows df) as [|r rs] eqn:R.
  - unfold col. rewrite R. cbn [map].
    destruct (has_col "QC" df);
      now destruct (if has_col "POD DATE/TIME" df then _ else _),
                   (match App1._get_target_series df with
                    | Some _ => _ | None => _ end).
  - destruct (columns df) eqn:C; [|discriminate].
    unfold has_col at 1. rewrite C. cbn [Py.mem existsb].
    apply no_valid_without_pod.
Qed.

Lemma on_time_controllable :
  forall r, (Spec.on_time r && Spec.controllable_valid r)%bool
            = Spec.controllable_on_time r.
Proof.
  intros r. unfold Spec.controllable_on_time, Spec.controllable_valid,
    Spec.on_time.
  destruct (Spec.valid r), (Spec.controllable r); simpl;
    rewrite ?andb_true_r, ?andb_false_r; reflexivity.
Qed.

(** The view has one shipment for each row of the frame. *)
Lemma shipments_length :
  forall to_datetime to_numeric nc df,
  List.length (Spec.shipments to_datetime to_numeric nc df)
  = List.length (rows df).
Proof.
  intros f g nc df. unfold Spec.shipments.
  assert (Z3 : forall P T N,
             List.length P = List.length T -> List.length N = List.length T ->
             List.length (Spec.zip P T N) = List.length T).
  { induction P as [|p P IH]; intros [|t T] [|n N] HP HN; try discriminate;
      simpl in *; [reflexivity|]. f_equal. apply IH; congruence. }
  assert (LT : List.length
                 (match App1._get_target_series df with
                  | Some target_col => App1._excel_to_dt f g target_col
                  | None => map (fun _ => None) (rows df)
                  end) = List.length (rows df)).
  { destruct (App1._get_target_series df) as [s|] eqn:G.
    - rewrite excel_to_dt_length. now apply get_target_series_length.
    - apply length_map. }
  rewrite Z3; rewrite LT; [reflexivity | |].
  - destruct (has_col "POD DATE/TIME" df);
      unfold col; now rewrite ?excel_to_dt_length, !length_map.
  - destruct (has_col "QC" df); unfold col; now rewrite !length_map.
Qed.

(** The early returns of the calculators are frames without a valid
    shipment. *)
Lemma early_return_no_valid :
  forall to_datetime to_numeric nc df,
  is_empty df = true \/ App1._get_target_series df = None
  \/ has_col "POD DATE/TIME" df = false ->
  Spec.count Spec.valid (Spec.shipments to_datetime to_numeric nc df) = 0%nat.
Proof.
  intros f g nc df [E | [G | HP]].
  - now apply empty_no_valid.
  - unfold Spec.shipments. rewrite G. apply no_valid_without_target.
  - unfold Spec.shipments. rewrite HP. apply no_valid_without_pod.
Qed.

(** Past the early returns, the masks are the spec's tests on the
    shipments of the frame. *)
Lemma shipment_masks :
  forall to_datetime to_numeric nc df s,
  App1._get_target_series df = Some s ->
  has_col "POD DATE/TIME" df = true ->
  let P := App1._excel_to_dt to_datetime to_numeric (col "POD DATE/TIME" df) in
  let T := App1._excel_to_dt to_datetime to_numeric s in
  let l := Spec.shipments to_datetime to_numeric nc df in
  band (map App1.is_some T) (map App1.is_some P) = map Spec.valid l
  /\ band (App1.le_mask P T) (map Spec.valid l) = map Spec.on_time l
  /\ (has_col "QC" df = true ->
      map nc (col "QC" df) = map Spec.non_controllable l).
Proof.
  intros f g nc df s G HP P T l.
  set (N := if has_col "QC" df then map nc (col "QC" df)
            else map (fun _ => false) (rows df)).
  assert (L : l = Spec.zip P T N).
  { subst l. unfold Spec.shipments. now rewrite HP, G. }
  destruct (zip_masks P T N) as (V & O & C).
  { subst P T. rewrite !excel_to_dt_length.
    rewrite (get_target_series_length _ _ G). apply length_map. }
  { subst T N. rewrite excel_to_dt_length.
    rewrite (get_target_series_length _ _ G).
    destruct (has_col "QC" df); unfold col; now rewrite !length_map. }
  rewrite <- L in V, O, C. repeat split; try assumption.
  intros HQ. subst N. now rewrite HQ in C.
Qed.

(** Both calculators start alike: after this step the goal is the main
    branch, and [V], [O], [C] express the masks on the shipments [l]. *)
Ltac otp_main_branch f g nc df l :=
  destruct (is_empty df) eqn:?E;
    [unfold l; now rewrite (early_return_no_valid f g nc df (or_introl E))|];
  destruct (App1._get_target_series df) as [?s|] eqn:?G;
    [|unfold l;
      now rewrite (early_return_no_valid f g nc df (or_intror (or_introl G)))];
  destruct (has_col "POD DATE/TIME" df) eqn:?HP; cbn [negb];
    [|unfold l;
      now rewrite (early_return_no_valid f g nc df (or_intror (or_intror HP)))];
  cbv zeta;
  match goal with
  | G : App1._get_target_series df = Some ?s,
    HP : has_col "POD DATE/TIME" df = true |- _ =>
      let M := fresh "M" in
      pose proof (shipment_masks f g nc df s G HP) as M;
      cbv zeta in M; fold l in M; fold l;
      destruct M as (V & O & C)
  end.

(** The frame-level computation of [src/app1.py], shipment by shipment. *)
Lemma app1_calculate_otp_shipments :
  forall to_datetime to_numeric df,
  let l := Spec.shipments to_datetime to_numeric Spec.app1_nc df in
  App1.calculate_otp to_datetime to_numeric df
  = if (Spec.count Spec.valid l =? 0)%nat then (0%Q, 0%Q)
    else
      (App1.round2
         (Spec.percent (Spec.count Spec.on_time l) (Spec.count Spec.valid l)),
       App1.round2
         (if has_col "QC" df then
            if (Spec.count Spec.controllable_valid l =? 0)%nat then 0%Q
            else Spec.percent (Spec.count Spec.controllable_on_time l)
                              (Spec.count Spec.controllable_valid l)
          else Spec.percent (Spec.count Spec.on_time l)
                            (Spec.count Spec.valid l))).
Proof.
  intros f g df l. unfold App1.calculate_otp.
  otp_main_branch f g Spec.app1_nc df l.
  rewrite V, O, bany_bsum, !bsum_map.
  destruct (Spec.count Spec.valid l) as [|k] eqn:CV; [reflexivity|].
  cbn [Nat.ltb Nat.leb negb Nat.eqb].
  f_equal. f_equal.
  destruct (has_col "QC" df) eqn:HQ; [|reflexivity].
  rewrite map_map.
  change (map (fun x => App1.qc_non_controllable (App1.qc_text x)))
    with (map Spec.app1_nc).
  rewrite (C eq_refl). unfold bnot. rewrite map_map, !band_map, !bsum_map.
  change (fun x => (Spec.valid x && negb (Spec.non_controllable x))%bool)
    with Spec.controllable_valid.
  rewrite (count_ext _
             (fun x => (Spec.on_time x
                        && (Spec.valid x && negb (Spec.non_controllable x)))%bool)
             Spec.controllable_on_time l
             (fun r _ => on_time_controllable r)).
  now destruct (Spec.count Spec.controllable_valid l).
Qed.

(** The same for the tab variant: no rounding, and the gross percentage
    when no valid shipment is controllable. *)
Lemma tab_calculate_otp_shipments :
  forall to_datetime to_numeric df,
  let l := Spec.shipments to_datetime to_numeric Spec.tab_nc df in
  TabVariant.calculate_otp to_datetime to_numeric df
  = if (Spec.count Spec.valid l =? 0)%nat then (0%Q, 0%Q)
    else
      (Spec.percent (Spec.count Spec.on_time l) (Spec.count Spec.valid l),
       if has_col "QC" df then
         if (Spec.count Spec.controllable_valid l =? 0)%nat
         then Spec.percent (Spec.count Spec.on_time l)
                           (Spec.count Spec.valid l)
         else Spec.percent (Spec.count Spec.controllable_on_time l)
                           (Spec.count Spec.controllable_valid l)
       else Spec.percent (Spec.count Spec.on_time l)
                         (Spec.count Spec.valid l)).
Proof.
  intros f g df l. unfold TabVariant.calculate_otp,
    TabVariant._get_target_series, TabVariant._excel_to_dt.
  otp_main_branch f g Spec.tab_nc df l.
  rewrite V, O, bany_bsum, !bsum_map.
  destruct (Spec.count Spec.valid l) as [|k] eqn:CV; [reflexivity|].
  cbn [Nat.ltb Nat.leb negb Nat.eqb].
  f_equal.
  destruct (has_col "QC" df) eqn:HQ; [|reflexivity].
  rewrite map_map.
  change (map (fun x => TabVariant.qc_non_controllable (TabVariant.qc_text x)))
    with (map Spec.tab_nc).
  rewrite (C eq_refl). unfold bnot. rewrite map_map, band_map, bsum_map.
  change (fun x => (Spec.valid x && negb (Spec.non_controllable x))%bool)
    with Spec.controllable_valid.
  destruct (Spec.count Spec.controllable_valid l) as [|c] eqn:CC;
    [reflexivity|].
  cbn [Nat.ltb Nat.leb Nat.eqb].
  assert (B : band (App1.le_mask
                      (App1._excel_to_dt f g (col "POD DATE/TIME" df))
                      (App1._excel_to_dt f g s))
                   (map Spec.controllable_valid l)
              = map Spec.controllable_on_time l).
  { unfold Spec.controllable_valid, Spec.controllable_on_time.
    rewrite <- !band_map, band_assoc. now rewrite O. }
  now rewrite B, bsum_map.
Qed.

Lemma count_zero_inv :
  forall (A : Type) (f : A -> bool) (l : list A),
  Spec.count f l = 0%nat -> forall x, In x l -> f x = false.
Proof.
  intros A f l. unfold Spec.count. induction l as [|y l IH]; simpl.
  - contradiction.
  - intros H x [<- | Hx].
    + destruct (f y); [discriminate | reflexivity].
    + destruct (f y); [discriminate | now apply IH].
Qed.

Lemma round2_zero : (App1.round2 0 == 0)%Q.
Proof. reflexivity. Qed.

Lemma round2_hundred : (App1.round2 100 == 100)%Q.
Proof. reflexivity. Qed.

(** Without a QC column every shipment is controllable. *)
Lemma no_qc_all_controllable :
  forall to_datetime to_numeric nc df, has_col "QC" df = false ->
  forall r, In r (Spec.shipments to_datetime to_numeric nc df) ->
  Spec.non_controllable r = false.
Proof.
  intros f g nc df H r Hr. unfold Spec.shipments in Hr. rewrite H in Hr.
  now apply zip_nc_in, in_const in Hr.
Qed.

(** When no shipment is non-controllable, the controllable counts are the
    plain counts. *)
Lemma controllable_counts :
  forall l, (forall r, In r l -> Spec.non_controllable r = false) ->
  Spec.count Spec.controllable_valid l = Spec.count Spec.valid l
  /\ Spec.count Spec.controllable_on_time l = Spec.count Spec.on_time l.
Proof.
  intros l H. split; apply count_ext; intros r Hr;
    unfold Spec.controllable_valid, Spec.controllable_on_time,
      Spec.controllable;
    rewrite (H r Hr); apply andb_true_r.
Qed.

(** C4, as the code has it: a shipment is valid when both timestamps are
    known and on time when it is valid and the POD is not after the target
    (a tie is on time); the gross OTP that [calculate_otp] returns is the
    on-time count over the valid count times 100, rounded to two decimals
    (a nearest hundredth), and 0 when no shipment is valid.  With at least one valid shipment and
    every valid shipment on time it is 100; with every valid shipment late
    it is 0. *)
Theorem gross_otp_is_rounded_percentage :
  forall to_datetime to_numeric df,
  let l := Spec.shipments to_datetime to_numeric Spec.app1_nc df in
  let gross := fst (App1.calculate_otp to_datetime to_numeric df) in
  (forall r, Spec.valid r = true
             <-> Spec.pod r <> None /\ Spec.target r <> None)
  /\ (forall r, Spec.on_time r = true
                <-> exists p t, Spec.pod r = Some p /\ Spec.target r = Some t
                                /\ p <= t)
  /\ Spec.rounded2 (Spec.gross_otp l) gross
  /\ ((0 < Spec.count Spec.valid l)%nat ->
      (forall r, In r l -> Spec.valid r = true -> Spec.on_time r = true) ->
      (gross == 100)%Q)
  /\ ((forall r, In r l -> Spec.valid r = true -> Spec.on_time r = false) ->
      (gross == 0)%Q).
Proof.
  intros f g df l gross.
  assert (G : gross = if (Spec.count Spec.valid l =? 0)%nat then 0%Q
                      else App1.round2
                             (Spec.percent (Spec.count Spec.on_time l)
                                           (Spec.count Spec.valid l))).
  { subst gross l. rewrite app1_calculate_otp_shipments. cbv zeta.
    now destruct (Nat.eqb _ 0). }
  split; [|split; [|split; [|split]]].
  - intros [[p|] [t|] n]; unfold Spec.valid; simpl; split;
      try discriminate; try (intros [? ?]; congruence);
      intros _; split; discriminate.
  - intros [[p|] [t|] n]; unfold Spec.on_time, Spec.valid; simpl; split;
      try discriminate;
      try (intros (p' & t' & ? & ? & ?); discriminate).
    + intros H. exists p, t. repeat split. now apply Z.leb_le.
    + intros (p' & t' & Hp & Ht & Hle). injection Hp as <-.
      injection Ht as <-. now apply Z.leb_le.
  - apply (rounded2_eq _ (App1.round2 (Spec.gross_otp l)));
      [|apply round2_rounded2].
    rewrite G. unfold Spec.gross_otp.
    destruct (Nat.eqb _ 0); [apply round2_zero | reflexivity].
  - intros Hv Hall. rewrite G.
    destruct (Nat.eqb_spec (Spec.count Spec.valid l) 0) as [E|_]; [lia|].
    assert (C : Spec.count Spec.on_time l = Spec.count Spec.valid l).
    { apply count_ext. intros r Hr. destruct (Spec.valid r) eqn:V.
      - now apply Hall.
      - unfold Spec.on_time. now rewrite V. }
    rewrite C, (round2_comp _ 100 (percent_all _ Hv)).
    apply round2_hundred.
  - intros Hall. rewrite G.
    destruct (Nat.eqb _ 0); [reflexivity|].
    assert (C : Spec.count Spec.on_time l = 0%nat).
    { apply count_zero. intros r Hr. destruct (Spec.valid r) eqn:V.
      - now apply Hall.
      - unfold Spec.on_time. now rewrite V. }
    rewrite C, (round2_comp _ 0 (percent_none _)). apply round2_zero.
Qed.

Lemma gross_otp_witness :
  (fst (App1.calculate_otp Examples.datetime_of Examples.number_of
                           Examples.df_all_on_time) == 100)%Q.
Proof.
  apply (gross_otp_is_rounded_percentage
           Examples.datetime_of Examples.number_of Examples.df_all_on_time).
  - vm_compute. lia.
  - intros r Hr _. vm_compute in Hr.
    destruct Hr as [<- | [<- | []]]; reflexivity.
Defined.

(** C4 as stated fails: with one shipment on time out of three valid ones
    the function returns 33.33, which is not 1/3 x 100; and the frame with
    no record, in which every valid record is on time, scores 0. *)
Lemma gross_otp_exact_counterexample :
  Spec.count Spec.valid
    (Spec.shipments Examples.datetime_of Examples.number_of Spec.app1_nc
                    Examples.df_one_in_three) = 3%nat
  /\ Spec.count Spec.on_time
       (Spec.shipments Examples.datetime_of Examples.number_of Spec.app1_nc
                       Examples.df_one_in_three) = 1%nat
  /\ fst (App1.calculate_otp Examples.datetime_of Examples.number_of
                             Examples.df_one_in_three) = (3333 # 100)%Q
  /\ Qeq_bool (3333 # 100) (Spec.percent 1 3) = false
  /\ fst (App1.calculate_otp Examples.datetime_of Examples.number_of
                             empty_frame) = 0%Q.
Proof. repeat split; vm_compute; reflexivity. Qed.

(** C5, as the code has it: the net OTP of [src/app1.py] is the on-time
    controllable valid count over the controllable valid count times 100,
    rounded to two decimals (a nearest hundredth), and 0 when no valid
    shipment is controllable;
    the tab variant of [part_000] returns the unrounded percentage and falls
    back to its gross OTP.  Neither divides by zero. *)
Theorem net_otp_by_variant :
  forall to_datetime to_numeric df,
  let l := Spec.shipments to_datetime to_numeric Spec.app1_nc df in
  let l' := Spec.shipments to_datetime to_numeric Spec.tab_nc df in
  Spec.rounded2 (Spec.net_otp 0 l)
                (snd (App1.calculate_otp to_datetime to_numeric df))
  /\ (fst (TabVariant.calculate_otp to_datetime to_numeric df)
      == Spec.gross_otp l')%Q
  /\ (snd (TabVariant.calculate_otp to_datetime to_numeric df)
      == Spec.net_otp (Spec.gross_otp l') l')%Q.
Proof.
  intros f g df l l'.
  assert (Z0 : forall m : list Spec.shipment,
             Spec.count Spec.valid m = 0%nat ->
             Spec.count Spec.controllable_valid m = 0%nat).
  { intros m H. apply count_zero. intros r Hr.
    unfold Spec.controllable_valid.
    now rewrite (count_zero_inv _ _ _ H r Hr). }
  split; [|split].
  - apply (rounded2_eq _ (App1.round2 (Spec.net_otp 0 l)));
      [|apply round2_rounded2].
    subst l. rewrite app1_calculate_otp_shipments. cbv zeta.
    set (l := Spec.shipments f g Spec.app1_nc df). unfold Spec.net_otp.
    destruct (Nat.eqb_spec (Spec.count Spec.valid l) 0) as [E|E].
    + rewrite (Z0 l E). reflexivity.
    + cbn [snd]. destruct (has_col "QC" df) eqn:HQ; [reflexivity|].
      destruct (controllable_counts l (no_qc_all_controllable f g _ df HQ))
        as [-> ->].
      destruct (Nat.eqb_spec (Spec.count Spec.valid l) 0); [lia|reflexivity].
  - subst l'. rewrite tab_calculate_otp_shipments. cbv zeta.
    unfold Spec.gross_otp. now destruct (Nat.eqb _ 0).
  - subst l'. rewrite tab_calculate_otp_shipments. cbv zeta.
    set (l' := Spec.shipments f g Spec.tab_nc df).
    unfold Spec.net_otp, Spec.gross_otp.
    destruct (Nat.eqb_spec (Spec.count Spec.valid l') 0) as [E|E].
    + rewrite (Z0 l' E). reflexivity.
    + cbn [snd]. destruct (has_col "QC" df) eqn:HQ.
      * now destruct (Nat.eqb _ 0).
      * destruct (controllable_counts l'
                    (no_qc_all_controllable f g _ df HQ)) as [-> ->].
        destruct (Nat.eqb_spec (Spec.count Spec.valid l') 0);
          [lia|reflexivity].
Qed.

(** C5 as stated fails on [src/app1.py]: the only valid shipment is on
    time and held by customs, so no valid shipment is controllable; the
    gross OTP is 100 and the net OTP is 0, not the gross. *)
Lemma net_otp_fallback_counterexample :
  Spec.count Spec.controllable_valid
    (Spec.shipments Examples.datetime_of Examples.number_of Spec.app1_nc
                    Examples.df_customs) = 0%nat
  /\ App1.calculate_otp Examples.datetime_of Examples.number_of
                        Examples.df_customs
     = ((10000 # 100)%Q, (0 # 100)%Q)
  /\ Qeq_bool (0 # 100) (10000 # 100) = false
  /\ TabVariant.calculate_otp Examples.datetime_of Examples.number_of
                              Examples.df_customs
     = (100%Q, 100%Q).
Proof. repeat split; vm_compute; reflexivity. Qed.

(** In both [calculate_otp] functions the net OTP is the gross OTP when no
    shipment has a non-controllable QC annotation, and when the frame has
    no QC column. *)
Lemma calculate_otp_net_equals_gross :
  forall to_datetime to_numeric df,
  (has_col "QC" df = false
   \/ forall c, In c (col "QC" df) -> Spec.app1_nc c = false) ->
  snd (App1.calculate_otp to_datetime to_numeric df)
  = fst (App1.calculate_otp to_datetime to_numeric df).
Proof.
  intros f g df H. rewrite app1_calculate_otp_shipments. cbv zeta.
  set (l := Spec.shipments f g Spec.app1_nc df).
  destruct (Nat.eqb_spec (Spec.count Spec.valid l) 0) as [E|E];
    [reflexivity|].
  cbn [fst snd]. destruct (has_col "QC" df) eqn:HQ; [|reflexivity].
  destruct H as [H|H]; [discriminate|].
  assert (A : forall r, In r l -> Spec.non_controllable r = false).
  { intros r Hr. subst l. unfold Spec.shipments in Hr. rewrite HQ in Hr.
    apply zip_nc_in, in_map_iff in Hr as (c & <- & Hc). now apply H. }
  destruct (controllable_counts l A) as [-> ->].
  now destruct (Nat.eqb_spec (Spec.count Spec.valid l) 0).
Qed.

Lemma tab_calculate_otp_net_equals_gross :
  forall to_datetime to_numeric df,
  (has_col "QC" df = false
   \/ forall c, In c (col "QC" df) -> Spec.tab_nc c = false) ->
  snd (TabVariant.calculate_otp to_datetime to_numeric df)
  = fst (TabVariant.calculate_otp to_datetime to_numeric df).
Proof.
  intros f g df H. rewrite tab_calculate_otp_shipments. cbv zeta.
  set (l := Spec.shipments f g Spec.tab_nc df).
  destruct (Nat.eqb_spec (Spec.count Spec.valid l) 0) as [E|E];
    [reflexivity|].
  cbn [fst snd]. destruct (has_col "QC" df) eqn:HQ; [|reflexivity].
  destruct H as [H|H]; [discriminate|].
  assert (A : forall r, In r l -> Spec.non_controllable r = false).
  { intros r Hr. subst l. unfold Spec.shipments in Hr. rewrite HQ in Hr.
    apply zip_nc_in, in_map_iff in Hr as (c & <- & Hc). now apply H. }
  destruct (controllable_counts l A) as [-> ->].
  now destruct (Nat.eqb_spec (Spec.count Spec.valid l) 0).
Qed.

Lemma calculate_otp_net_equals_gross_witness :
  snd (App1.calculate_otp Examples.datetime_of Examples.number_of
                          Examples.df_one_in_three)
  = fst (App1.calculate_otp Examples.datetime_of Examples.number_of
                            Examples.df_one_in_three).
Proof.
  apply (calculate_otp_net_equals_gross
           Examples.datetime_of Examples.number_of Examples.df_one_in_three).
  right. intros c Hc. vm_compute in Hc.
  destruct Hc as [<- | [<- | [<- | []]]]; reflexivity.
Defined.

Lemma tab_calculate_otp_net_equals_gross_witness :
  snd (TabVariant.calculate_otp Examples.datetime_of Examples.number_of
                                Examples.df_late_no_qc)
  = fst (TabVariant.calculate_otp Examples.datetime_of Examples.number_of
                                  Examples.df_late_no_qc).
Proof.
  apply (tab_calculate_otp_net_equals_gross
           Examples.datetime_of Examples.number_of Examples.df_late_no_qc).
  left. reflexivity.
Defined.


(** ** The three tabs *)

Lemma select_In :
  forall (A : Type) (mask : list bool) (xs : list A) (x : A),
  In x (select mask xs) -> In x xs.
Proof.
  intros A mask. induction mask as [|b mask IH]; intros [|y xs] x H;
    simpl in H; try contradiction.
  destruct b; [destruct H as [<- | H]|]; simpl; eauto.
Qed.

Lemma set_cells_map :
  forall (name : string) (h : row -> cell) (rs : list row),
  set_cells name (map h rs) rs = map (fun r => set_cell name (h r) r) rs.
Proof.
  intros name h rs. induction rs as [|r rs IH]; simpl.
  - reflexivity.
  - now rewrite IH.
Qed.

Lemma get_set_cell :
  forall name v r, get name (set_cell name v r) = v.
Proof.
  intros name v r. unfold get, set_cell. simpl. now rewrite String.eqb_refl.
Qed.

(** A row read from a sheet carries the sheet's name, and two rows of the
    sheet with the same identifier are the same row. *)
Lemma tag_rows_origin :
  forall name hd lines i r, In r (tag_rows name hd i lines) ->
  fst (origin r) = name /\ (i <= snd (origin r))%nat.
Proof.
  intros name hd lines. induction lines as [|l lines IH]; intros i r H;
    simpl in H; [contradiction|].
  destruct H as [<- | H]; simpl; [split; [reflexivity | lia]|].
  destruct (IH _ _ H). split; [assumption | lia].
Qed.

Lemma tag_rows_inj :
  forall name hd lines i r r',
  In r (tag_rows name hd i lines) -> In r' (tag_rows name hd i lines) ->
  origin r = origin r' -> r = r'.
Proof.
  intros name hd lines. induction lines as [|l lines IH]; intros i r r' H H' E;
    simpl in H, H'; [contradiction|].
  destruct H as [<- | H], H' as [<- | H'].
  - reflexivity.
  - apply tag_rows_origin in H' as [_ B]. rewrite <- E in B. simpl in B. lia.
  - apply tag_rows_origin in H as [_ B]. rewrite E in B. simpl in B. lia.
  - now apply (IH (S i)).
Qed.

Lemma read_excel_origin :
  forall wb s r, In r (rows (read_excel wb s)) -> fst (origin r) = s.
Proof.
  intros wb s r H. unfold read_excel in H.
  destruct (find_sheet s wb); [|contradiction].
  now apply tag_rows_origin in H.
Qed.

Lemma read_excel_inj :
  forall wb s r r',
  In r (rows (read_excel wb s)) -> In r' (rows (read_excel wb s)) ->
  origin r = origin r' -> r = r'.
Proof.
  intros wb s r r' H H'. unfold read_excel in H, H'.
  destruct (find_sheet s wb); [|contradiction].
  now apply tag_rows_inj with (1 := H).
Qed.

(** Rows of one workbook with the same identifier are the same row. *)
Lemma workbook_row_unique :
  forall wb s s' r r',
  In r (rows (read_excel wb s)) -> In r' (rows (read_excel wb s')) ->
  origin r = origin r' -> r = r'.
Proof.
  intros wb s s' r r' H H' E.
  assert (S : s = s').
  { rewrite <- (read_excel_origin _ _ _ H), <- (read_excel_origin _ _ _ H').
    now rewrite E. }
  subst s'. now apply (read_excel_inj wb s).
Qed.

Lemma read_filtered_rows :
  forall wb names r, In r (flat_map rows (App1.read_filtered wb names)) ->
  exists s, In s names /\ In r (rows (read_excel wb s)).
Proof.
  intros wb names r H. apply in_flat_map in H as (df & Hdf & Hr).
  unfold App1.read_filtered in Hdf.
  apply in_flat_map in Hdf as (s & Hs & Hd).
  destruct (Py.mem s (sheet_names wb)); [|contradiction].
  destruct Hd as [<- | []]. exists s. split; [assumption|].
  now apply filter_by_ams_subset.
Qed.

(** A row of a keyword tab is a row of one of its frames, with its
    identifier, whose account name passed the tab's test. *)
Lemma keyword_tab_rows :
  forall flag test dfs r, In r (rows (App1.keyword_tab flag test dfs)) ->
  exists r0, In r0 (flat_map rows dfs) /\ origin r = origin r0
             /\ test (get "ACCT NM" r0) = true.
Proof.
  intros flag test dfs r H. unfold App1.keyword_tab in H.
  destruct dfs as [|d dfs]; [contradiction|].
  destruct (has_col "ACCT NM" (concat (d :: dfs))); [|contradiction].
  cbv zeta in H. cbn [loc rows] in H. apply select_In in H.
  unfold col, set_col in H. cbn [rows] in H.
  rewrite !map_map, select_map_filter in H.
  apply filter_In in H as [H T].
  change (concat (d :: dfs)) with (Frame (columns (concat (d :: dfs)))
                                     (flat_map rows (d :: dfs))) in H.
  cbn [rows] in H.
  rewrite (set_cells_map flag
             (fun x => CBool (test (get "ACCT NM" x)))) in H.
  apply in_map_iff in H as (r0 & <- & H0).
  exists r0. repeat split; [assumption|].
  rewrite get_set_cell in T. now destruct (test (get "ACCT NM" r0)).
Qed.

Lemma rp_df_rows :
  forall wb rp r, App1.rp_df wb = Some rp -> In r (rows rp) ->
  In r (rows (read_excel wb "AMS"))
  /\ isin App1.RP_ACCOUNTS (get "ACCT NM" r) = true.
Proof.
  intros wb rp r E H. unfold App1.rp_df in E.
  destruct (Py.mem "AMS" (sheet_names wb)).
  - destruct (has_col "ACCT NM" (read_excel wb "AMS")); [|discriminate].
    injection E as <-. cbn [loc rows] in H. unfold col in H.
    rewrite map_map, select_map_filter in H. now apply filter_In in H.
  - injection E as <-. contradiction.
Qed.

(** C2: in a run that completes, no spreadsheet record is a member of two
    of the three segments. *)
Theorem segments_pairwise_disjoint :
  forall wb rp lfs avs, App1.segments wb = Some (rp, lfs, avs) ->
  Spec.disjoint (Spec.members rp) (Spec.members lfs)
  /\ Spec.disjoint (Spec.members rp) (Spec.members avs)
  /\ Spec.disjoint (Spec.members lfs) (Spec.members avs).
Proof.
  intros wb rp lfs avs E. unfold App1.segments in E.
  destruct (App1.rp_df wb) as [rp'|] eqn:R; [|discriminate].
  injection E as -> <- <-.
  assert (K : forall flag test names x,
             In x (Spec.members
                     (App1.keyword_tab flag test
                        (App1.read_filtered wb names))) ->
             exists s r0, In r0 (rows (read_excel wb s)) /\ origin r0 = x
                          /\ test (get "ACCT NM" r0) = true).
  { intros flag test names x H. unfold Spec.members in H.
    apply in_map_iff in H as (r & <- & H).
    apply keyword_tab_rows in H as (r0 & H0 & O & T).
    apply read_filtered_rows in H0 as (s & _ & H0).
    exists s, r0. now repeat split. }
  assert (P : forall x, In x (Spec.members rp) ->
             exists r1, In r1 (rows (read_excel wb "AMS")) /\ origin r1 = x
                        /\ App1.is_rp_account (get "ACCT NM" r1) = true).
  { intros x H. unfold Spec.members in H.
    apply in_map_iff in H as (r & <- & H).
    destruct (rp_df_rows _ _ _ R H) as [H1 H2].
    exists r. repeat split; [assumption|]. now apply isin_is_rp_account. }
  repeat split; intros x H1 H2.
  - apply P in H1 as (r1 & I1 & O1 & A1).
    apply K in H2 as (s & r2 & I2 & O2 & A2).
    assert (r1 = r2) as -> by
        (apply (workbook_row_unique wb "AMS" s); congruence).
    apply is_rp_account_excluded in A1 as [A1 _]. congruence.
  - apply P in H1 as (r1 & I1 & O1 & A1).
    apply K in H2 as (s & r2 & I2 & O2 & A2).
    assert (r1 = r2) as -> by
        (apply (workbook_row_unique wb "AMS" s); congruence).
    apply is_rp_account_excluded in A1 as [_ A1]. congruence.
  - apply K in H1 as (s1 & r1 & I1 & O1 & A1).
    apply K in H2 as (s2 & r2 & I2 & O2 & A2).
    assert (r1 = r2) as -> by
        (apply (workbook_row_unique wb s1 s2); congruence).
    apply healthcare_not_aviation in A1. congruence.
Qed.

Lemma segments_disjoint_witness :
  option_map (fun s => (Spec.members (fst (fst s)), Spec.members (snd (fst s)),
                        Spec.members (snd s)))
             (App1.segments Examples.wb)
  = Some ([("AMS", 0%nat)], [("AMS", 1%nat)], [("Aviation SVC", 0%nat)])
  /\ Spec.disjoint (Spec.members (App1.lfs_df Examples.wb))
                   (Spec.members (App1.avs_df Examples.wb)).
Proof.
  split; [vm_compute; reflexivity|].
  destruct (App1.rp_df Examples.wb) as [rp|] eqn:R.
  - apply (segments_pairwise_disjoint Examples.wb rp
             (App1.lfs_df Examples.wb) (App1.avs_df Examples.wb)).
    unfold App1.segments. now rewrite R.
  - vm_compute in R. discriminate R.
Defined.

(** * Further properties of the code *)

(** ** The classifiers of the two tab variants *)

(** The classifier of [src/app1.py] is the one of [part_000] with the RP
    accounts taken out: the two agree on every account that is not
    allow-listed, and [src/app1.py] rejects the allow-listed ones.  In both
    files no account is healthcare and aviation at once. *)
Theorem hardened_classifier_removes_rp_only :
  forall a,
  App1.is_healthcare a
  = (TabVariant.is_healthcare a && negb (App1.is_rp_account a))%bool
  /\ App1.is_aviation a
     = (TabVariant.is_aviation a && negb (App1.is_rp_account a))%bool
  /\ (TabVariant.is_healthcare a && TabVariant.is_aviation a)%bool = false
  /\ (App1.is_healthcare a && App1.is_aviation a)%bool = false.
Proof.
  intros a.
  unfold App1.is_healthcare, App1.is_aviation, TabVariant.is_healthcare,
    TabVariant.is_aviation, TabVariant.HEALTHCARE_KEYWORDS,
    TabVariant.AVIATION_KEYWORDS.
  cbv zeta.
  destruct (truthy a), (App1.is_rp_account a),
    (Py.any_in App1.AVIATION_KEYWORDS (Py.lower (pystr a))),
    (Py.any_in App1.HEALTHCARE_KEYWORDS (Py.lower (pystr a)));
    repeat split.
Qed.

(** ** The QC patterns *)

Lemma existsb_incl :
  forall (A : Type) (f : A -> bool) (l l' : list A),
  incl l l' -> existsb f l = true -> existsb f l' = true.
Proof.
  intros A f l l' I H. apply existsb_exists in H as (x & Hx & Fx).
  apply existsb_exists. exists x. split; [now apply I | assumption].
Qed.

(** A search with more alternatives finds whatever the search with fewer
    finds. *)
Lemma search_from_incl :
  forall ps ps' s prev, incl ps ps' ->
  Regex.search_from ps prev s = true -> Regex.search_from ps' prev s = true.
Proof.
  intros ps ps' s. induction s as [|c s IH]; intros prev I H;
    cbn [Regex.search_from] in *;
    apply orb_true_iff in H as [H | H]; apply orb_true_iff.
  - left. exact (existsb_incl _ _ _ _ I H).
  - discriminate.
  - left. exact (existsb_incl _ _ _ _ I H).
  - right. now apply IH.
Qed.

Lemma ctrl_regex_incl :
  incl TabVariant.ctrl_regex App1.non_controllable_patterns.
Proof.
  intros p H. unfold TabVariant.ctrl_regex in H.
  unfold App1.non_controllable_patterns. simpl in H |- *.
  repeat (destruct H as [<- | H]; [tauto|]). contradiction.
Qed.

(** The QC test of [src/app1.py] extends the one of [part_000]: whatever
    cell the earlier [calculate_otp] takes for non-controllable, the later
    one does too (it knows six more patterns). *)
Theorem app1_patterns_extend_tab_patterns :
  forall c : cell,
  TabVariant.qc_non_controllable (TabVariant.qc_text c) = true ->
  App1.qc_non_controllable (App1.qc_text c) = true.
Proof.
  intros c H. unfold TabVariant.qc_non_controllable, TabVariant.qc_text in H.
  unfold App1.qc_non_controllable, App1.qc_text, fillna_empty.
  destruct (notna c) eqn:N.
  - destruct (String.eqb (Py.upper (pystr c)) "") eqn:E.
    + apply String.eqb_eq in E. rewrite E in H. discriminate H.
    + unfold Regex.search in *.
      exact (search_from_incl _ _ _ _ ctrl_regex_incl H).
  - destruct c; try discriminate N; vm_compute in H; discriminate H.
Qed.

Lemma app1_patterns_extend_witness :
  App1.qc_non_controllable (App1.qc_text (CStr "held by del agt")) = true.
Proof.
  apply (app1_patterns_extend_tab_patterns (CStr "held by del agt")).
  reflexivity.
Defined.

(** ** The office filters of the three variants *)

Lemma filter_idempotent :
  forall (A : Type) (f : A -> bool) (l : list A),
  filter f (filter f l) = filter f l.
Proof.
  intros A f l. induction l as [|x l IH]; simpl.
  - reflexivity.
  - destruct (f x) eqn:E; simpl; now rewrite ?E, IH.
Qed.

Lemma bor_false_l :
  forall (A : Type) (f : A -> bool) (xs : list A),
  App1.bor (map (fun _ => false) xs) (map f xs) = map f xs.
Proof.
  intros A f xs. induction xs as [|x xs IH]; simpl.
  - reflexivity.
  - now rewrite IH.
Qed.

Lemma select_false :
  forall (A : Type) (xs : list A), select (map (fun _ => false) xs) xs = [].
Proof.
  intros A xs. induction xs as [|x xs IH]; simpl; auto.
Qed.

(** With both office columns the filter of [src/app1.py] is a selection of
    the rows, whatever the frame. *)
Lemma filter_by_ams_frame :
  forall df, has_col "DEP" df = true -> has_col "ARR" df = true ->
  App1.filter_by_ams df
  = Frame (columns df)
          (filter (fun r => (App1.contains_ams (get "DEP" r)
                             || App1.contains_ams (get "ARR" r))%bool)
                  (rows df)).
Proof.
  intros df Hd Ha. unfold App1.filter_by_ams.
  destruct (is_empty df) eqn:E.
  - unfold is_empty in E. destruct df as [cs rs]. simpl in *.
    destruct rs; [reflexivity|].
    unfold has_col in Hd. simpl in Hd. destruct cs; discriminate.
  - rewrite Hd, Ha. cbn [andb]. unfold loc, col.
    now rewrite !map_map, bor_map, select_map_filter.
Qed.

(** Filtering by office twice is filtering once: the filter of
    [src/app1.py] keeps the columns, keeps only rows of the input, and a
    second pass changes nothing. *)
Theorem filter_by_ams_idempotent :
  forall df,
  App1.filter_by_ams (App1.filter_by_ams df) = App1.filter_by_ams df
  /\ columns (App1.filter_by_ams df) = columns df
  /\ incl (rows (App1.filter_by_ams df)) (rows df).
Proof.
  intros df.
  destruct (has_col "DEP" df) eqn:Hd, (has_col "ARR" df) eqn:Ha.
  - rewrite (filter_by_ams_frame df Hd Ha).
    set (p := fun r => (App1.contains_ams (get "DEP" r)
                        || App1.contains_ams (get "ARR" r))%bool).
    repeat split.
    + rewrite (filter_by_ams_frame (Frame (columns df) (filter p (rows df)))
                 Hd Ha).
      cbn [columns rows]. fold p. now rewrite filter_idempotent.
    + intros r H. cbn [rows] in H. now apply filter_In in H.
  - assert (E : App1.filter_by_ams df = df).
    { unfold App1.filter_by_ams. rewrite Hd, Ha. now destruct (is_empty df). }
    rewrite !E. repeat split. apply incl_refl.
  - assert (E : App1.filter_by_ams df = df).
    { unfold App1.filter_by_ams. rewrite Hd, Ha. now destruct (is_empty df). }
    rewrite !E. repeat split. apply incl_refl.
  - assert (E : App1.filter_by_ams df = df).
    { unfold App1.filter_by_ams. rewrite Hd, Ha. now destruct (is_empty df). }
    rewrite !E. repeat split. apply incl_refl.
Qed.

(** The filter of [part_000] (lines 550-563) against the one of
    [src/app1.py]: with both office columns they are the same function;
    with the DEP column only the earlier one filters on it, where
    [src/app1.py] keeps every row; and with neither column the earlier one
    drops every row of a frame that has rows and columns. *)
Theorem tab_filter_by_ams_cases :
  forall df,
  (has_col "DEP" df = true -> has_col "ARR" df = true ->
   TabVariant.filter_by_ams df = App1.filter_by_ams df)
  /\ (has_col "DEP" df = true -> has_col "ARR" df = false ->
      is_empty df = false ->
      rows (TabVariant.filter_by_ams df)
      = filter (fun r => App1.contains_ams (get "DEP" r)) (rows df)
      /\ App1.filter_by_ams df = df)
  /\ (has_col "DEP" df = false -> has_col "ARR" df = false ->
      is_empty df = false ->
      rows (TabVariant.filter_by_ams df) = []
      /\ App1.filter_by_ams df = df).
Proof.
  intros df. split; [|split]; intros Hd Ha;
    unfold TabVariant.filter_by_ams, App1.filter_by_ams;
    rewrite Hd, Ha; cbv zeta; cbn [andb].
  - destruct (is_empty df); [reflexivity|]. unfold col.
    now rewrite !map_map, bor_false_l.
  - intros ->. split; [|reflexivity]. cbn [loc rows]. unfold col.
    now rewrite map_map, bor_false_l, select_map_filter.
  - intros ->. split; [|reflexivity]. cbn [loc rows]. apply select_false.
Qed.

Lemma tab_filter_by_ams_witness :
  rows (TabVariant.filter_by_ams Examples.df_no_arr)
  = filter (fun r => App1.contains_ams (get "DEP" r))
           (rows Examples.df_no_arr)
  /\ App1.filter_by_ams Examples.df_no_arr = Examples.df_no_arr.
Proof.
  apply (tab_filter_by_ams_cases Examples.df_no_arr); reflexivity.
Defined.

(** *** Exact codes and codes that contain AMS *)

Lemma lstrip_suffix : forall s, exists a, s = a ++ Py.lstrip s.
Proof.
  induction s as [|c s [a IH]].
  - exists "". reflexivity.
  - cbn [Py.lstrip]. destruct (Py.is_whitespace c).
    + exists (String c a). simpl. now rewrite <- IH.
    + exists "". reflexivity.
Qed.

Lemma rstrip_prefix : forall s, exists b, s = Py.rstrip s ++ b.
Proof.
  induction s as [|c s [b IH]].
  - exists "". reflexivity.
  - cbn [Py.rstrip]. destruct (Py.rstrip s) as [|d r].
    + destruct (Py.is_whitespace c).
      * exists (String c s). reflexivity.
      * exists b. simpl. simpl in IH. now rewrite <- IH.
    + exists b. simpl. simpl in IH. now rewrite <- IH.
Qed.

(** Stripping removes a prefix and a suffix. *)
Lemma strip_middle : forall s, exists a b, s = a ++ Py.strip s ++ b.
Proof.
  intros s. unfold Py.strip.
  destruct (lstrip_suffix s) as [a Ha].
  destruct (rstrip_prefix (Py.lstrip s)) as [b Hb].
  exists a, b. now rewrite <- Hb.
Qed.

Lemma lower_upper_char :
  forall c, Py.lower_char (Py.upper_char c) = Py.lower_char c.
Proof.
  intros c. destruct c as [[] [] [] [] [] [] [] []]; reflexivity.
Qed.

Lemma lower_upper : forall s, Py.lower (Py.upper s) = Py.lower s.
Proof.
  induction s as [|c s IH]; simpl.
  - reflexivity.
  - now rewrite lower_upper_char, IH.
Qed.

Lemma lower_app :
  forall a b, Py.lower (a ++ b) = Py.lower a ++ Py.lower b.
Proof.
  induction a as [|c a IH]; intros b; simpl.
  - reflexivity.
  - now rewrite IH.
Qed.

Lemma prefix_app : forall k b, prefix k (k ++ b) = true.
Proof.
  induction k as [|c k IH]; intros b; simpl.
  - now destruct b.
  - destruct (Ascii.ascii_dec c c); [apply IH | congruence].
Qed.

Lemma contains_middle :
  forall k a b, Py.contains k (a ++ k ++ b) = true.
Proof.
  intros k a b. induction a as [|c a IH].
  - simpl. destruct (k ++ b) eqn:E.
    + destruct k; [reflexivity | discriminate].
    + cbn [Py.contains]. rewrite <- E, prefix_app. reflexivity.
  - cbn [append Py.contains]. rewrite IH. apply orb_true_r.
Qed.

(** An office code that is AMS after upper-casing and trimming contains
    AMS, whatever the case. *)
Lemma exact_code_contains_ams :
  forall c, KpiVariant.is_ams_code c = true -> App1.contains_ams c = true.
Proof.
  intros c H. unfold KpiVariant.is_ams_code in H. apply String.eqb_eq in H.
  unfold App1.contains_ams.
  destruct (strip_middle (Py.upper (pystr c))) as (a & b & E).
  rewrite H in E. rewrite <- lower_upper, E, !lower_app.
  apply contains_middle.
Qed.

Lemma cols_get_in :
  forall key cs c, KpiVariant.cols_get key cs = Some c -> In c cs.
Proof.
  intros key cs. induction cs as [|x cs IH]; intros c H; simpl in H.
  - discriminate.
  - destruct (KpiVariant.cols_get key cs) as [c'|].
    + injection H as <-. right. now apply IH.
    + destruct (String.eqb (Py.lower x) key); [|discriminate].
      injection H as <-. now left.
Qed.

Lemma in_has_col : forall c df, In c (columns df) -> has_col c df = true.
Proof.
  intros c df H. unfold has_col, Py.mem. apply existsb_exists.
  exists c. split; [assumption | apply String.eqb_refl].
Qed.

(** The office filter of the KPI variant ([filter_ams_rows]): a frame
    without a DEP, DEP STN, ARR or ARR STN column (in any case) is returned
    as it is; and when the columns it picks are DEP and ARR, every row it
    keeps is a row that the substring filter of [src/app1.py] keeps: the
    exact match is the stricter test. *)
Theorem filter_ams_rows_exact_is_stricter :
  forall df,
  (KpiVariant.cols_get_or "dep" "dep stn" df = None ->
   KpiVariant.cols_get_or "arr" "arr stn" df = None ->
   KpiVariant.filter_ams_rows df = df)
  /\ (KpiVariant.cols_get_or "dep" "dep stn" df = Some "DEP" ->
      KpiVariant.cols_get_or "arr" "arr stn" df = Some "ARR" ->
      rows (KpiVariant.filter_ams_rows df)
      = filter (fun r => (KpiVariant.is_ams_code (get "DEP" r)
                          || KpiVariant.is_ams_code (get "ARR" r))%bool)
               (rows df)
      /\ incl (rows (KpiVariant.filter_ams_rows df))
              (rows (App1.filter_by_ams df))).
Proof.
  intros df. split.
  - intros Hd Ha. unfold KpiVariant.filter_ams_rows. now rewrite Hd, Ha.
  - intros Hd Ha.
    assert (R : rows (KpiVariant.filter_ams_rows df)
                = filter (fun r => (KpiVariant.is_ams_code (get "DEP" r)
                                    || KpiVariant.is_ams_code (get "ARR" r))%bool)
                         (rows df)).
    { unfold KpiVariant.filter_ams_rows. rewrite Hd, Ha. cbv zeta.
      cbn [loc rows]. unfold col.
      now rewrite !map_map, bor_false_l, bor_map, select_map_filter. }
    split; [exact R|].
    assert (Cd : has_col "DEP" df = true).
    { apply in_has_col. unfold KpiVariant.cols_get_or in Hd.
      destruct (KpiVariant.cols_get "dep" (columns df)) eqn:G.
      - injection Hd as ->. now apply cols_get_in in G.
      - now apply cols_get_in in Hd. }
    assert (Ca : has_col "ARR" df = true).
    { apply in_has_col. unfold KpiVariant.cols_get_or in Ha.
      destruct (KpiVariant.cols_get "arr" (columns df)) eqn:G.
      - injection Ha as ->. now apply cols_get_in in G.
      - now apply cols_get_in in Ha. }
    rewrite R, (filter_by_ams_frame df Cd Ca). cbn [rows].
    intros r H. apply filter_In in H as [I T]. apply filter_In.
    split; [assumption|].
    apply orb_true_iff in T as [T | T]; apply orb_true_iff;
      [left | right]; now apply exact_code_contains_ams.
Qed.

Lemma filter_ams_rows_witness :
  map origin (rows (KpiVariant.filter_ams_rows Examples.df_offices))
  = [("AMS", 0%nat)]
  /\ map origin (rows (App1.filter_by_ams Examples.df_offices))
     = [("AMS", 0%nat); ("AMS", 1%nat)]
  /\ incl (rows (KpiVariant.filter_ams_rows Examples.df_offices))
          (rows (App1.filter_by_ams Examples.df_offices)).
Proof.
  split; [reflexivity | split; [reflexivity|]].
  apply (filter_ams_rows_exact_is_stricter Examples.df_offices); reflexivity.
Defined.

(** ** The range of the percentages *)

Lemma count_le :
  forall (A : Type) (f g : A -> bool) (l : list A),
  (forall x, f x = true -> g x = true) ->
  (Spec.count f l <= Spec.count g l)%nat.
Proof.
  intros A f g l H. unfold Spec.count. induction l as [|x l IH]; simpl.
  - lia.
  - destruct (f x) eqn:F.
    + rewrite (H x F). simpl. lia.
    + destruct (g x); simpl; lia.
Qed.

Lemma percent_range :
  forall a b, (a <= b)%nat -> (0 < b)%nat ->
  (0 <= Spec.percent a b)%Q /\ (Spec.percent a b <= 100)%Q.
Proof.
  intros a [|k] L P; [lia|].
  unfold Spec.percent, App1.ratio, Qdiv, Qinv, Qmult, Qle, inject_Z.
  cbn [Qnum Qden Z.of_nat]. split; lia.
Qed.

Lemma round2_range :
  forall x, (0 <= x)%Q -> (x <= 100)%Q ->
  (0 <= App1.round2 x)%Q /\ (App1.round2 x <= 100)%Q.
Proof.
  intros x L U. unfold App1.round2.
  pose proof (round_half_even_near (x * 100)) as N.
  set (k := App1.round_half_even (x * 100)) in *.
  assert (B : (- (1 # 2) <= inject_Z k)%Q /\ (inject_Z k <= 10000 + (1 # 2))%Q).
  { revert N. apply Qabs_case; intros; split; lra. }
  destruct B as [B1 B2]. unfold Qle, inject_Z in B1, B2. simpl in B1, B2.
  unfold Qle. simpl. split; lia.
Qed.

Lemma on_time_valid : forall r, Spec.on_time r = true -> Spec.valid r = true.
Proof.
  intros r H. unfold Spec.on_time in H. now apply andb_true_iff in H.
Qed.

Lemma controllable_on_time_valid :
  forall r, Spec.controllable_on_time r = true ->
  Spec.controllable_valid r = true.
Proof.
  intros r H. unfold Spec.controllable_on_time in H.
  apply andb_true_iff in H as [O C]. unfold Spec.controllable_valid.
  now rewrite (on_time_valid r O), C.
Qed.

(** Both [calculate_otp] functions return percentages: the gross and the
    net OTP lie between 0 and 100 on every frame. *)
Theorem calculate_otp_in_range :
  forall to_datetime to_numeric df,
  let a := App1.calculate_otp to_datetime to_numeric df in
  let b := TabVariant.calculate_otp to_datetime to_numeric df in
  ((0 <= fst a)%Q /\ (fst a <= 100)%Q /\ (0 <= snd a)%Q /\ (snd a <= 100)%Q)
  /\ ((0 <= fst b)%Q /\ (fst b <= 100)%Q
      /\ (0 <= snd b)%Q /\ (snd b <= 100)%Q).
Proof.
  intros f g df a b.
  assert (R : forall l : list Spec.shipment,
             Spec.count Spec.valid l <> 0%nat ->
             (0 <= Spec.percent (Spec.count Spec.on_time l)
                                (Spec.count Spec.valid l))%Q
             /\ (Spec.percent (Spec.count Spec.on_time l)
                              (Spec.count Spec.valid l) <= 100)%Q).
  { intros l H. apply percent_range; [|lia].
    apply count_le, on_time_valid. }
  assert (C : forall l : list Spec.shipment,
             Spec.count Spec.controllable_valid l <> 0%nat ->
             (0 <= Spec.percent (Spec.count Spec.controllable_on_time l)
                                (Spec.count Spec.controllable_valid l))%Q
             /\ (Spec.percent (Spec.count Spec.controllable_on_time l)
                              (Spec.count Spec.controllable_valid l)
                 <= 100)%Q).
  { intros l H. apply percent_range; [|lia].
    apply count_le, controllable_on_time_valid. }
  split.
  - subst a. rewrite app1_calculate_otp_shipments. cbv zeta.
    set (l := Spec.shipments f g Spec.app1_nc df).
    destruct (Nat.eqb_spec (Spec.count Spec.valid l) 0) as [E|E].
    + cbn [fst snd]. repeat split; lra.
    + cbn [fst snd]. destruct (R l E) as [R1 R2].
      destruct (round2_range _ R1 R2) as [G1 G2].
      repeat split; try assumption;
        destruct (has_col "QC" df); try assumption;
        destruct (Nat.eqb_spec (Spec.count Spec.controllable_valid l) 0)
          as [Z|Z];
        try (destruct (C l Z) as [C1 C2];
             now apply round2_range);
        now apply round2_range.
  - subst b. rewrite tab_calculate_otp_shipments. cbv zeta.
    set (l := Spec.shipments f g Spec.tab_nc df).
    destruct (Nat.eqb_spec (Spec.count Spec.valid l) 0) as [E|E].
    + cbn [fst snd]. repeat split; lra.
    + cbn [fst snd]. destruct (R l E) as [R1 R2].
      repeat split; try assumption;
        destruct (has_col "QC" df); try assumption;
        destruct (Nat.eqb_spec (Spec.count Spec.controllable_valid l) 0)
          as [Z|Z];
        try assumption; now apply C.
Qed.

(** ** The KPI variant: OTP columns and September figures *)

(** The rows go through [zip_rows] one for one. *)
Lemma zip_rows_base :
  forall rs pod target ctrl pcs,
  List.length pod = List.length rs -> List.length target = List.length rs ->
  List.length ctrl = List.length rs -> List.length pcs = List.length rs ->
  map KpiVariant.base (KpiVariant.zip_rows rs pod target ctrl pcs) = rs.
Proof.
  induction rs as [|r rs IH]; intros pod target ctrl pcs Hp Ht Hc Hq;
    destruct pod, target, ctrl, pcs; try discriminate; simpl.
  - reflexivity.
  - f_equal. apply IH; simpl in *; congruence.
Qed.

Lemma zip_rows_ctrl :
  forall rs pod target ctrl pcs r,
  In r (KpiVariant.zip_rows rs pod target ctrl pcs) ->
  In (KpiVariant.Is_Controllable r) ctrl.
Proof.
  induction rs as [|x rs IH]; intros pod target ctrl pcs r H;
    destruct pod, target, ctrl, pcs; simpl in H; try contradiction.
  destruct H as [<- | H]; [now left | right; eauto].
Qed.

Lemma zip_rows_coherent :
  forall rs pod target ctrl pcs r,
  In r (KpiVariant.zip_rows rs pod target ctrl pcs) ->
  KpiVariant.On_Time_Gross r
  = Spec.on_time (Spec.of_otp_row r)
  /\ KpiVariant.Late r = negb (KpiVariant.On_Time_Gross r)
  /\ KpiVariant.On_Time_Net r
     = (KpiVariant.On_Time_Gross r
        || negb (KpiVariant.Is_Controllable r))%bool.
Proof.
  induction rs as [|x rs IH]; intros pod target ctrl pcs r H;
    destruct pod as [|p pod], target as [|t target], ctrl as [|c ctrl],
             pcs as [|q pcs]; simpl in H; try contradiction.
  destruct H as [<- | H]; [|eauto].
  cbn [KpiVariant.On_Time_Gross KpiVariant.Late KpiVariant.On_Time_Net
       KpiVariant._pod KpiVariant._target KpiVariant.Is_Controllable].
  unfold Spec.on_time, Spec.valid, Spec.of_otp_row.
  cbn [Spec.pod Spec.target KpiVariant._pod KpiVariant._target].
  destruct p, t; cbn [App1.is_some andb]; repeat split;
    try (destruct (Z.leb _ _), c; reflexivity); now destruct c.
Qed.

Lemma add_otp_columns_lengths :
  forall to_datetime to_numeric df,
  let n := List.length (rows df) in
  List.length (if has_col "POD DATE/TIME" df
               then KpiVariant._excel_to_dt to_datetime to_numeric
                      (col "POD DATE/TIME" df)
               else KpiVariant.const_column None df) = n
  /\ List.length (match KpiVariant.target_col df with
                  | Some c => KpiVariant._excel_to_dt to_datetime to_numeric
                                (col c df)
                  | None => KpiVariant.const_column None df
                  end) = n
  /\ List.length (if has_col "QC NAME" df
                  then map (fun c => KpiVariant.contains_ctrl (pystr c))
                           (col "QC NAME" df)
                  else KpiVariant.const_column false df) = n
  /\ List.length (if has_col "PIECES" df
                  then map (KpiVariant._coerce_num to_numeric)
                           (col "PIECES" df)
                  else KpiVariant.const_column 0%Q df) = n.
Proof.
  intros f g df n. subst n. repeat split.
  - destruct (has_col "POD DATE/TIME" df);
      unfold KpiVariant._excel_to_dt, KpiVariant.const_column, col;
      now rewrite ?excel_to_dt_length, !length_map.
  - destruct (KpiVariant.target_col df);
      unfold KpiVariant._excel_to_dt, KpiVariant.const_column, col;
      now rewrite ?excel_to_dt_length, !length_map.
  - destruct (has_col "QC NAME" df);
      unfold KpiVariant.const_column, col; now rewrite !length_map.
  - destruct (has_col "PIECES" df);
      unfold KpiVariant.const_column, col; now rewrite !length_map.
Qed.

(** [add_otp_columns] annotates the rows it is given, in their order, one
    for one.  On every row the gross flag says that both timestamps are
    known and the POD is not after the target, the late flag is its
    negation, and the net flag holds of the rows that are on time or not
    flagged by the QC pattern.  Without a QC NAME column no row is flagged,
    so the net flag holds of every row. *)
Theorem add_otp_columns_annotates :
  forall to_datetime to_numeric df,
  let d := KpiVariant.add_otp_columns to_datetime to_numeric df in
  map KpiVariant.base d = rows df
  /\ (forall r, In r d ->
      KpiVariant.On_Time_Gross r
      = Spec.on_time (Spec.of_otp_row r)
      /\ KpiVariant.Late r = negb (KpiVariant.On_Time_Gross r)
      /\ KpiVariant.On_Time_Net r
         = (KpiVariant.On_Time_Gross r
            || negb (KpiVariant.Is_Controllable r))%bool)
  /\ (has_col "QC NAME" df = false ->
      forall r, In r d -> KpiVariant.On_Time_Net r = true).
Proof.
  intros f g df d. subst d. unfold KpiVariant.add_otp_columns. cbv zeta.
  destruct (add_otp_columns_lengths f g df) as (L1 & L2 & L3 & L4).
  cbv zeta in L1, L2, L3, L4.
  split; [now apply zip_rows_base | split].
  - intros r H. now apply zip_rows_coherent in H.
  - intros Q r H.
    destruct (zip_rows_coherent _ _ _ _ _ _ H) as (_ & _ & N).
    apply zip_rows_ctrl in H. rewrite Q in H.
    apply in_const in H. rewrite N, H. apply orb_true_r.
Qed.

Lemma add_otp_columns_witness :
  Forall (fun r => KpiVariant.On_Time_Net r = true)
         (KpiVariant.add_otp_columns Examples.datetime_of Examples.number_of
                                     Examples.df_late_no_qc).
Proof.
  apply Forall_forall.
  apply (add_otp_columns_annotates Examples.datetime_of Examples.number_of
                                   Examples.df_late_no_qc).
  reflexivity.
Defined.

Lemma count_map :
  forall (A B : Type) (v : A -> B) (f : B -> bool) (l : list A),
  Spec.count f (map v l) = Spec.count (fun x => f (v x)) l.
Proof.
  intros A B v f l. unfold Spec.count. induction l as [|x l IH]; simpl.
  - reflexivity.
  - destruct (f (v x)); simpl; now rewrite IH.
Qed.

Lemma count_filter :
  forall (A : Type) (f g : A -> bool) (l : list A),
  (forall x, In x l -> f x = true -> g x = true) ->
  Spec.count f (filter g l) = Spec.count f l.
Proof.
  intros A f g l H. unfold Spec.count. induction l as [|x l IH]; simpl.
  - reflexivity.
  - assert (IH' : List.length (filter f (filter g l))
                  = List.length (filter f l)).
    { apply IH. intros y Hy. apply H. now right. }
    destruct (g x) eqn:G; simpl.
    + destruct (f x); simpl; now rewrite IH'.
    + destruct (f x) eqn:F; [|exact IH'].
      rewrite (H x (or_introl eq_refl) F) in G. discriminate.
Qed.

Lemma count_le_in :
  forall (A : Type) (f g : A -> bool) (l : list A),
  (forall x, In x l -> f x = true -> g x = true) ->
  (Spec.count f l <= Spec.count g l)%nat.
Proof.
  intros A f g l H. unfold Spec.count. induction l as [|x l IH]; simpl.
  - lia.
  - assert (IH' : (List.length (filter f l) <= List.length (filter g l))%nat).
    { apply IH. intros y Hy. apply H. now right. }
    destruct (f x) eqn:F.
    + rewrite (H x (or_introl eq_refl) F). simpl. lia.
    + destruct (g x); simpl; lia.
Qed.

Lemma bsum_le_length : forall a, (bsum a <= List.length a)%nat.
Proof.
  intros a. unfold bsum. induction a as [|[] a IH]; simpl; lia.
Qed.

Lemma percent_mono :
  forall a a' b, (a <= a')%nat ->
  (Spec.percent a b <= Spec.percent a' b)%Q.
Proof.
  intros a a' [|k] L;
    unfold Spec.percent, App1.ratio, Qdiv, Qinv, Qmult, Qle, inject_Z;
    cbn [Qnum Qden Z.of_nat]; simpl; nia.
Qed.

(** [kpis_for_september] without the special case of the empty frame,
    which gives the same figures. *)
Lemma kpis_for_september_unfold :
  forall d year,
  KpiVariant.kpis_for_september d year
  = let S := filter (KpiVariant.in_september year) d in
    let base := filter (fun r => App1.is_some (KpiVariant._target r)) S in
    match base with
    | [] => KpiVariant.Kpis (List.length S)
              (KpiVariant.int_of (KpiVariant.qsum (map KpiVariant.PIECES S)))
              None None
    | _ =>
      let gross := KpiVariant.mean_pct (map KpiVariant.On_Time_Gross base) in
      let net := KpiVariant.mean_pct (map KpiVariant.On_Time_Net base) in
      KpiVariant.Kpis (List.length S)
        (KpiVariant.int_of (KpiVariant.qsum (map KpiVariant.PIECES S)))
        (Some gross)
        (Some (if negb (Qle_bool gross net) then gross else net))
    end.
Proof.
  intros [|x d] year; reflexivity.
Qed.

(** The September figures of the KPI variant, on the rows that
    [add_otp_columns] returns: the volume is the number of rows whose POD
    lies in September of the chosen year, with or without a target; the
    gross OTP is the share of the on-time shipments among the valid ones of
    those rows, and it is NaN exactly when none of them is valid. *)
Theorem kpis_gross_is_september_share :
  forall to_datetime to_numeric df year,
  let d := KpiVariant.add_otp_columns to_datetime to_numeric df in
  let l := map Spec.of_otp_row (filter (KpiVariant.in_september year) d) in
  let k := KpiVariant.kpis_for_september d year in
  KpiVariant.volume k = List.length l
  /\ (Spec.count Spec.valid l <= KpiVariant.volume k)%nat
  /\ KpiVariant.gross k
     = (if (Spec.count Spec.valid l =? 0)%nat then None
        else Some (Spec.percent (Spec.count Spec.on_time l)
                                (Spec.count Spec.valid l)))
  /\ (KpiVariant.net k = None <-> KpiVariant.gross k = None).
Proof.
  intros f g df year d l k.
  assert (Coh : forall r, In r d ->
                KpiVariant.On_Time_Gross r = Spec.on_time (Spec.of_otp_row r)).
  { intros r H. unfold d, KpiVariant.add_otp_columns in H. cbv zeta in H.
    now apply zip_rows_coherent in H. }
  clearbody d. subst k. rewrite kpis_for_september_unfold. cbv zeta.
  set (S := filter (KpiVariant.in_september year) d) in *.
  set (base := filter (fun r => App1.is_some (KpiVariant._target r)) S).
  assert (Pod : forall r, In r S -> App1.is_some (KpiVariant._pod r) = true).
  { intros r H. subst S. apply filter_In in H as [_ H].
    unfold KpiVariant.in_september in H. now destruct (KpiVariant._pod r). }
  assert (V : Spec.count Spec.valid l = List.length base).
  { subst l base. rewrite count_map. unfold Spec.count. f_equal.
    apply filter_ext_in. intros r H.
    unfold Spec.valid, Spec.of_otp_row. cbn [Spec.pod Spec.target].
    now rewrite (Pod r H). }
  assert (O : Spec.count Spec.on_time l
              = bsum (map KpiVariant.On_Time_Gross base)).
  { subst l base. rewrite count_map, bsum_map, count_filter.
    - apply count_ext. intros r H. symmetry. apply Coh.
      subst S. now apply filter_In in H.
    - intros r H T. rewrite Coh in T by (subst S; now apply filter_In in H).
      apply on_time_valid in T. unfold Spec.valid, Spec.of_otp_row in T.
      cbn [Spec.pod Spec.target] in T. now apply andb_true_iff in T. }
  assert (Len : List.length l = List.length S)
    by (subst l; apply length_map).
  assert (LB : (List.length base <= List.length S)%nat)
    by (subst base; apply filter_length_le).
  rewrite V, O. clearbody base.
  destruct base as [|b base]; cbn [KpiVariant.volume KpiVariant.gross
                                   KpiVariant.net List.length Nat.eqb].
  - repeat split; try lia; reflexivity.
  - repeat split; try (cbn [List.length] in LB; lia); try discriminate.
    unfold KpiVariant.mean_pct, Spec.percent. now rewrite length_map.
Qed.

(** The net OTP of [kpis_for_september] is never below the gross OTP, and
    both are percentages, whatever rows it is given.  On the rows that
    [add_otp_columns] returns the clamp [if net < gross: net = gross] never
    fires: the net figure is the share of the net flags as it stands. *)
Theorem kpis_net_at_least_gross :
  forall to_datetime to_numeric df d year,
  (match KpiVariant.gross (KpiVariant.kpis_for_september d year),
         KpiVariant.net (KpiVariant.kpis_for_september d year) with
   | Some g, Some n => (0 <= g)%Q /\ (g <= n)%Q /\ (n <= 100)%Q
   | None, None => True
   | _, _ => False
   end)
  /\ (let d' := KpiVariant.add_otp_columns to_datetime to_numeric df in
      let base := filter (fun r => App1.is_some (KpiVariant._target r))
                         (filter (KpiVariant.in_september year) d') in
      base <> [] ->
      KpiVariant.net (KpiVariant.kpis_for_september d' year)
      = Some (KpiVariant.mean_pct (map KpiVariant.On_Time_Net base))).
Proof.
  intros f g df d year.
  assert (R : forall a : list bool, a <> [] ->
             (0 <= KpiVariant.mean_pct a)%Q
             /\ (KpiVariant.mean_pct a <= 100)%Q).
  { intros a H. apply percent_range; [apply bsum_le_length|].
    destruct a; [congruence | simpl; lia]. }
  split.
  - rewrite kpis_for_september_unfold. cbv zeta.
    destruct (filter _ (filter _ d)) as [|b base] eqn:B;
      cbn [KpiVariant.gross KpiVariant.net]; [exact I|].
    set (G := KpiVariant.mean_pct (map KpiVariant.On_Time_Gross (b :: base))).
    set (N := KpiVariant.mean_pct (map KpiVariant.On_Time_Net (b :: base))).
    destruct (R (map KpiVariant.On_Time_Gross (b :: base))) as [G0 G1];
      [discriminate|].
    destruct (R (map KpiVariant.On_Time_Net (b :: base))) as [N0 N1];
      [discriminate|].
    fold G in G0, G1. fold N in N0, N1.
    destruct (Qle_bool G N) eqn:L; cbn [negb].
    + apply Qle_bool_iff in L. now repeat split.
    + repeat split; try assumption. apply Qle_refl.
  - intros d' base NE. rewrite kpis_for_september_unfold. cbv zeta.
    fold base.
    assert (L : Qle_bool
                  (KpiVariant.mean_pct (map KpiVariant.On_Time_Gross base))
                  (KpiVariant.mean_pct (map KpiVariant.On_Time_Net base))
                = true).
    { apply Qle_bool_iff. unfold KpiVariant.mean_pct.
      rewrite !length_map, !bsum_map. apply percent_mono, count_le_in.
      intros r H T.
      assert (I : In r d').
      { subst base. apply filter_In in H as [H _].
        now apply filter_In in H. }
      unfold d', KpiVariant.add_otp_columns in I. cbv zeta in I.
      destruct (zip_rows_coherent _ _ _ _ _ _ I) as (_ & _ & ->).
      now rewrite T. }
    clearbody base. destruct base as [|b base]; [congruence|].
    cbn [KpiVariant.net]. now rewrite L.
Qed.

Lemma kpis_net_witness :
  KpiVariant.net
    (KpiVariant.kpis_for_september
       (KpiVariant.add_otp_columns Examples.datetime_of Examples.number_of
                                   Examples.df_late_no_qc) (Some 2024))
  = Some (KpiVariant.mean_pct [true]).
Proof.
  apply (kpis_net_at_least_gross Examples.datetime_of Examples.number_of
           Examples.df_late_no_qc [] (Some 2024)).
  vm_compute. discriminate.
Defined.

(** ** The September years *)

Lemma unique_from_spec :
  forall l seen x,
  In x (KpiVariant.unique_from seen l) <-> In x l /\ ~ In x seen.
Proof.
  induction l as [|y l IH]; intros seen x; simpl.
  - tauto.
  - destruct (existsb (Z.eqb y) seen) eqn:E.
    + apply existsb_exists in E as (z & Hz & Ez). apply Z.eqb_eq in Ez.
      subst z. rewrite IH. split.
      * intros [H N]. tauto.
      * intros [[<- | H] N]; [contradiction | tauto].
    + assert (N : ~ In y seen).
      { intros H. apply not_true_iff_false in E. apply E.
        apply existsb_exists. exists y. split; [assumption|].
        apply Z.eqb_refl. }
      simpl. rewrite IH. simpl. split.
      * intros [<- | [H M]]; [tauto|]. split; [tauto|]. intros S. apply M.
        now right.
      * intros [[<- | H] M]; [now left|].
        destruct (Z.eq_dec y x) as [->|D]; [now left|].
        right. split; [assumption|]. intros [S | S]; [congruence | tauto].
Qed.

Lemma unique_from_nodup :
  forall l seen, NoDup (KpiVariant.unique_from seen l).
Proof.
  induction l as [|y l IH]; intros seen; simpl.
  - constructor.
  - destruct (existsb (Z.eqb y) seen); [apply IH|].
    constructor; [|apply IH].
    intros H. apply unique_from_spec in H as [_ H]. apply H. now left.
Qed.

Lemma insert_sorted_in :
  forall x l y, In y (KpiVariant.insert_sorted x l) <-> y = x \/ In y l.
Proof.
  intros x l y. induction l as [|z l IH]; simpl.
  - split; [intros [<- | []]; now left | intros [-> | []]; now left].
  - destruct (x <=? z); simpl; [split; intros [H | H]; subst; auto|].
    rewrite IH. split; intros H; tauto.
Qed.

Lemma insert_sorted_increasing :
  forall x l, StronglySorted Z.lt l -> ~ In x l ->
  StronglySorted Z.lt (KpiVariant.insert_sorted x l).
Proof.
  intros x l S. induction S as [|z l S IH F]; intros N; simpl.
  - constructor; constructor.
  - destruct (Z.leb_spec x z) as [L | L].
    + assert (x < z) by (assert (x <> z) by (intros ->; apply N; now left);
                         lia).
      constructor; [now constructor|].
      constructor; [assumption|].
      eapply Forall_impl; [|exact F]. intros a Ha. simpl in Ha. lia.
    + constructor.
      * apply IH. intros H. apply N. now right.
      * apply Forall_forall. intros a Ha.
        apply insert_sorted_in in Ha as [-> | Ha]; [assumption|].
        rewrite Forall_forall in F. now apply F.
Qed.

Lemma sorted_in : forall l y, In y (KpiVariant.sorted l) <-> In y l.
Proof.
  induction l as [|x l IH]; intros y; simpl.
  - tauto.
  - rewrite insert_sorted_in, IH. split; intros [H | H]; subst; auto.
Qed.

Lemma sorted_increasing :
  forall l, NoDup l -> StronglySorted Z.lt (KpiVariant.sorted l).
Proof.
  induction l as [|x l IH]; intros N; simpl.
  - constructor.
  - inversion N as [|? ? Hx Hl]; subst.
    apply insert_sorted_increasing; [now apply IH|].
    now rewrite sorted_in.
Qed.

Lemma somes_in :
  forall (A : Type) (l : list (option A)) (x : A),
  In x (KpiVariant.somes l) <-> In (Some x) l.
Proof.
  intros A l x. induction l as [|[y|] l IH]; simpl.
  - tauto.
  - rewrite IH. split; intros [H | H]; auto; [left; congruence|].
    injection H as ->. now left.
  - rewrite IH. split; [auto | intros [H | H]; [discriminate | assumption]].
Qed.

Lemma last_of_increasing :
  forall l d, StronglySorted Z.lt l -> l <> [] ->
  In (last l d) l /\ forall y, In y l -> y <= last l d.
Proof.
  intros l d S. induction S as [|x l S IH F]; intros NE; [congruence|].
  destruct l as [|z l].
  - simpl. split; [now left|]. intros y [<- | []]. lia.
  - destruct IH as [I M]; [discriminate|].
    change (last (x :: z :: l) d) with (last (z :: l) d).
    split; [now right|]. intros y [<- | H]; [|now apply M].
    rewrite Forall_forall in F. specialize (F _ I). lia.
Qed.

(** [pick_september_years] lists, in strictly increasing order and so
    without repeats, exactly the years in which some row has its POD in
    September; a frame with no September POD gives the empty list.  The
    year a tab opens with is the last entry, which is the latest of these
    years, and the current year when there is none. *)
Theorem pick_september_years_sorted_exact :
  forall (d : list KpiVariant.otp_row) (now_year : Z),
  let years := KpiVariant.pick_september_years d in
  StronglySorted Z.lt years
  /\ (forall y, In y years <->
                exists r t, In r d /\ KpiVariant._pod r = Some t
                            /\ Timestamp.month t = 9
                            /\ Timestamp.year t = y)
  /\ (years = [] -> KpiVariant.default_year years now_year = now_year)
  /\ (years <> [] ->
      In (KpiVariant.default_year years now_year) years
      /\ forall y, In y years ->
                   y <= KpiVariant.default_year years now_year).
Proof.
  intros d now_year years.
  assert (S : StronglySorted Z.lt years).
  { subst years. unfold KpiVariant.pick_september_years.
    apply sorted_increasing. apply unique_from_nodup. }
  split; [exact S | split; [|split]].
  - intros y. subst years. unfold KpiVariant.pick_september_years.
    rewrite sorted_in. unfold KpiVariant.unique.
    rewrite unique_from_spec, somes_in, in_map_iff. split.
    + intros [(r & E & H) _]. unfold KpiVariant.september_year in E.
      destruct (KpiVariant._pod r) as [t|] eqn:P; [|discriminate].
      destruct (Z.eqb_spec (Timestamp.month t) 9) as [M|M]; [|discriminate].
      injection E as <-. now exists r, t.
    + intros (r & t & H & P & M & Y). split; [|tauto]. exists r.
      split; [|assumption]. unfold KpiVariant.september_year.
      rewrite P, M, Z.eqb_refl. now rewrite Y.
  - now intros ->.
  - intros NE. unfold KpiVariant.default_year.
    now apply last_of_increasing.
Qed.

(** ** The keyword tabs of [src/app1.py], row by row *)

Lemma filter_map_swap :
  forall (A B : Type) (h : A -> B) (f : B -> bool) (l : list A),
  filter f (map h l) = map h (filter (fun x => f (h x)) l).
Proof.
  intros A B h f l. induction l as [|x l IH]; simpl.
  - reflexivity.
  - destruct (f (h x)); simpl; now rewrite IH.
Qed.

Lemma filter_all :
  forall (A : Type) (f : A -> bool) (l : list A),
  (forall x, In x l -> f x = true) -> filter f l = l.
Proof.
  intros A f l H. induction l as [|x l IH]; simpl.
  - reflexivity.
  - rewrite (H x (or_introl eq_refl)). f_equal. apply IH.
    intros y Hy. apply H. now right.
Qed.

Lemma get_set_cell_other :
  forall name flag v r, String.eqb name flag = false ->
  get name (set_cell flag v r) = get name r.
Proof.
  intros name flag v r H. unfold get, set_cell. simpl. now rewrite H.
Qed.

(** A keyword tab whose test rejects the allow-listed names: its rows are
    the rows of its frames that pass the test, each with the flag column
    set, and the removal of RP accounts that follows takes nothing away. *)
Lemma keyword_tab_exact :
  forall flag test dfs,
  String.eqb "ACCT NM" flag = false ->
  (forall a, test a = true -> isin App1.RP_ACCOUNTS a = false) ->
  rows (App1.keyword_tab flag test dfs)
  = if has_col "ACCT NM" (concat dfs)
    then map (set_cell flag (CBool true))
             (filter (fun r => test (get "ACCT NM" r)) (flat_map rows dfs))
    else [].
Proof.
  intros flag test dfs F T. unfold App1.keyword_tab.
  destruct dfs as [|d dfs]; [reflexivity|].
  destruct (has_col "ACCT NM" (concat (d :: dfs))); [|reflexivity].
  cbv zeta. set (R := flat_map rows (d :: dfs)).
  set (h := fun r => set_cell flag (CBool (test (get "ACCT NM" r))) r).
  remember (loc (map App1.is_true
                     (col flag
                        (set_col flag
                           (map CBool
                              (map test (col "ACCT NM" (concat (d :: dfs)))))
                           (concat (d :: dfs)))))
                (set_col flag
                   (map CBool
                      (map test (col "ACCT NM" (concat (d :: dfs)))))
                   (concat (d :: dfs)))) as kept eqn:Hk.
  assert (K : rows kept
              = map (set_cell flag (CBool true))
                    (filter (fun r => test (get "ACCT NM" r)) R)).
  { subst kept. unfold col. cbn [loc rows set_col concat]. fold R.
    assert (S : set_cells flag
                  (map CBool (map test (map (get "ACCT NM") R))) R
                = map h R)
      by (rewrite !map_map; apply set_cells_map).
    rewrite !S. rewrite (map_map (get flag) App1.is_true).
    rewrite select_map_filter, filter_map_swap.
    assert (E : forall r, App1.is_true (get flag (h r)) = test (get "ACCT NM" r)).
    { intros r. unfold h. rewrite get_set_cell.
      now destruct (test (get "ACCT NM" r)). }
    rewrite (filter_ext _ _ E). apply map_ext_in.
    intros r H. apply filter_In in H as [_ H]. unfold h. now rewrite H. }
  clear Hk. unfold col. cbn [loc rows]. rewrite K. unfold bnot.
  set (K' := map (set_cell flag (CBool true))
                 (filter (fun r => test (get "ACCT NM" r)) R)).
  rewrite !map_map, select_map_filter. subst K'.
  apply filter_all. intros r H. apply in_map_iff in H as (r0 & <- & H).
  apply filter_In in H as [_ H].
  rewrite (get_set_cell_other _ _ _ _ F). now rewrite (T _ H).
Qed.

Lemma healthcare_not_listed :
  forall a, App1.is_healthcare a = true -> isin App1.RP_ACCOUNTS a = false.
Proof.
  intros a H. destruct (isin App1.RP_ACCOUNTS a) eqn:I; [|reflexivity].
  apply isin_is_rp_account, is_rp_account_excluded in I as [I _]. congruence.
Qed.

Lemma aviation_not_listed :
  forall a, App1.is_aviation a = true -> isin App1.RP_ACCOUNTS a = false.
Proof.
  intros a H. destruct (isin App1.RP_ACCOUNTS a) eqn:I; [|reflexivity].
  apply isin_is_rp_account, is_rp_account_excluded in I as [_ I]. congruence.
Qed.

(** The LFS and AVS tabs of [src/app1.py] are exactly the office-filtered
    rows whose account passes [is_healthcare], respectively [is_aviation],
    in sheet order and with the flag column set; the "double-check" that
    removes RP accounts afterwards never removes a row.  When no sheet of
    the tab has an ACCT NM column the tab is empty. *)
Theorem keyword_tabs_exact :
  forall wb,
  let lfs_sheets := App1.read_filtered wb ["AMS"; "Americas International Desk"] in
  let avs_sheets :=
    App1.read_filtered
      wb ["AMS"; "Americas International Desk"; "Aviation SVC"] in
  rows (App1.lfs_df wb)
  = (if has_col "ACCT NM" (concat lfs_sheets)
     then map (set_cell "is_healthcare" (CBool true))
              (filter (fun r => App1.is_healthcare (get "ACCT NM" r))
                      (flat_map rows lfs_sheets))
     else [])
  /\ rows (App1.avs_df wb)
     = (if has_col "ACCT NM" (concat avs_sheets)
        then map (set_cell "is_aviation" (CBool true))
                 (filter (fun r => App1.is_aviation (get "ACCT NM" r))
                         (flat_map rows avs_sheets))
        else []).
Proof.
  intros wb lfs_sheets avs_sheets. split.
  - apply keyword_tab_exact; [reflexivity | apply healthcare_not_listed].
  - apply keyword_tab_exact; [reflexivity | apply aviation_not_listed].
Qed.

Lemma read_filtered_office :
  forall wb names r, In r (flat_map rows (App1.read_filtered wb names)) ->
  exists s, In s names /\ In r (rows (read_excel wb s))
            /\ (has_col "DEP" (read_excel wb s) = true ->
                has_col "ARR" (read_excel wb s) = true ->
                (App1.contains_ams (get "DEP" r)
                 || App1.contains_ams (get "ARR" r))%bool = true).
Proof.
  intros wb names r H. apply in_flat_map in H as (df & Hdf & Hr).
  unfold App1.read_filtered in Hdf.
  apply in_flat_map in Hdf as (s & Hs & Hd).
  destruct (Py.mem s (sheet_names wb)); [|contradiction].
  destruct Hd as [<- | []]. exists s. split; [assumption|].
  split; [now apply filter_by_ams_subset|].
  intros D A. rewrite (filter_by_ams_rows _ D A) in Hr.
  now apply filter_In in Hr.
Qed.

(** Every member of the LFS or the AVS tab is a record of one of the
    tab's sheets, and if that sheet has the DEP and the ARR column the
    record mentions AMS in one of them. *)
Theorem keyword_tab_members_pass_office :
  forall wb x,
  In x (Spec.members (App1.lfs_df wb)) \/ In x (Spec.members (App1.avs_df wb)) ->
  exists s r, In r (rows (read_excel wb s)) /\ origin r = x
              /\ (has_col "DEP" (read_excel wb s) = true ->
                  has_col "ARR" (read_excel wb s) = true ->
                  (App1.contains_ams (get "DEP" r)
                   || App1.contains_ams (get "ARR" r))%bool = true).
Proof.
  intros wb x H.
  assert (K : forall flag test names,
             In x (Spec.members
                     (App1.keyword_tab flag test
                        (App1.read_filtered wb names))) ->
             exists s r, In r (rows (read_excel wb s)) /\ origin r = x
              /\ (has_col "DEP" (read_excel wb s) = true ->
                  has_col "ARR" (read_excel wb s) = true ->
                  (App1.contains_ams (get "DEP" r)
                   || App1.contains_ams (get "ARR" r))%bool = true)).
  { intros flag test names M. unfold Spec.members in M.
    apply in_map_iff in M as (r & <- & M).
    apply keyword_tab_rows in M as (r0 & H0 & O & _).
    apply read_filtered_office in H0 as (s & _ & I & A).
    exists s, r0. now repeat split. }
  destruct H as [H | H]; now apply K in H.
Qed.

Lemma keyword_tab_members_witness :
  exists s r, In r (rows (read_excel Examples.wb s))
              /\ origin r = ("Aviation SVC", 0%nat)
              /\ (has_col "DEP" (read_excel Examples.wb s) = true ->
                  has_col "ARR" (read_excel Examples.wb s) = true ->
                  (App1.contains_ams (get "DEP" r)
                   || App1.contains_ams (get "ARR" r))%bool = true).
Proof.
  apply (keyword_tab_members_pass_office Examples.wb).
  right. vm_compute. now left.
Defined.

(** ** The total volume of [src/app1.py] *)

Lemma count_app :
  forall (A : Type) (f : A -> bool) (l l' : list A),
  Spec.count f (l ++ l') = (Spec.count f l + Spec.count f l')%nat.
Proof.
  intros A f l l'. unfold Spec.count. now rewrite filter_app, length_app.
Qed.

Lemma count_filter_le :
  forall (A : Type) (f q : A -> bool) (l : list A),
  (Spec.count f (filter q l) <= Spec.count f l)%nat.
Proof.
  intros A f q l. unfold Spec.count. induction l as [|x l IH]; simpl.
  - lia.
  - destruct (q x); simpl; destruct (f x); simpl; lia.
Qed.

Lemma three_counts :
  forall (A : Type) (f g h : A -> bool) (l : list A),
  (forall x, f x = true -> g x = false /\ h x = false) ->
  (forall x, g x = true -> h x = false) ->
  (Spec.count f l + Spec.count g l + Spec.count h l <= List.length l)%nat.
Proof.
  intros A f g h l F G. unfold Spec.count. induction l as [|x l IH]; simpl.
  - lia.
  - destruct (f x) eqn:Fx.
    + destruct (F x Fx) as [-> ->]. simpl. lia.
    + destruct (g x) eqn:Gx.
      * rewrite (G x Gx). simpl. lia.
      * destruct (h x); simpl; lia.
Qed.

Lemma filter_by_ams_count :
  forall (f : row -> bool) df,
  (Spec.count f (rows (App1.filter_by_ams df)) <= Spec.count f (rows df))%nat.
Proof.
  intros f df. unfold App1.filter_by_ams.
  destruct (is_empty df); [lia|].
  destruct (has_col "DEP" df && has_col "ARR" df)%bool; [|lia].
  cbn [loc rows]. unfold col. rewrite !map_map, bor_map, select_map_filter.
  apply count_filter_le.
Qed.

Lemma read_filtered_count :
  forall (f : row -> bool) wb names,
  (Spec.count f (flat_map rows (App1.read_filtered wb names))
   <= Spec.count f (flat_map (fun s => rows (read_excel wb s)) names))%nat.
Proof.
  intros f wb names. unfold App1.read_filtered.
  induction names as [|s names IH]; cbn [flat_map].
  - lia.
  - rewrite flat_map_app, !count_app.
    destruct (Py.mem s (sheet_names wb)); cbn [flat_map].
    + rewrite app_nil_r.
      pose proof (filter_by_ams_count f (read_excel wb s)). lia.
    + unfold Spec.count at 1. cbn [filter List.length]. lia.
Qed.

Lemma keyword_tab_length :
  forall flag test dfs,
  String.eqb "ACCT NM" flag = false ->
  (forall a, test a = true -> isin App1.RP_ACCOUNTS a = false) ->
  (List.length (rows (App1.keyword_tab flag test dfs))
   <= Spec.count (fun r => test (get "ACCT NM" r)) (flat_map rows dfs))%nat.
Proof.
  intros flag test dfs F T. rewrite (keyword_tab_exact _ _ _ F T).
  destruct (has_col "ACCT NM" (concat dfs)).
  - rewrite length_map. unfold Spec.count. lia.
  - cbn [List.length]. lia.
Qed.

Lemma rp_df_length :
  forall wb rp, App1.rp_df wb = Some rp ->
  (List.length (rows rp)
   <= Spec.count (fun r => isin App1.RP_ACCOUNTS (get "ACCT NM" r))
                 (rows (read_excel wb "AMS")))%nat.
Proof.
  intros wb rp H. unfold App1.rp_df in H.
  destruct (Py.mem "AMS" (sheet_names wb)).
  - destruct (has_col "ACCT NM" (read_excel wb "AMS")); [|discriminate].
    injection H as <-. cbn [loc rows]. unfold col.
    rewrite map_map, select_map_filter. unfold Spec.count. lia.
  - injection H as <-. cbn. lia.
Qed.

(** The total volume of a run of [src/app1.py] (the sum of the three tab
    volumes) never exceeds the number of records of the three sheets: no
    record is counted in two tabs, although the AMS sheet feeds all three
    and the Americas International Desk sheet feeds two. *)
Theorem total_volume_counts_no_record_twice :
  forall wb rp lfs avs,
  App1.segments wb = Some (rp, lfs, avs) ->
  (List.length (rows rp) + List.length (rows lfs) + List.length (rows avs)
   <= List.length (rows (read_excel wb "AMS"))
      + List.length (rows (read_excel wb "Americas International Desk"))
      + List.length (rows (read_excel wb "Aviation SVC")))%nat.
Proof.
  intros wb rp lfs avs H. unfold App1.segments in H.
  destruct (App1.rp_df wb) as [rp'|] eqn:R; [|discriminate].
  injection H as -> <- <-.
  pose proof (rp_df_length _ _ R) as Hrp.
  pose proof (keyword_tab_length "is_healthcare" App1.is_healthcare
                (App1.read_filtered wb ["AMS"; "Americas International Desk"])
                eq_refl healthcare_not_listed) as Hl.
  pose proof (keyword_tab_length "is_aviation" App1.is_aviation
                (App1.read_filtered
                   wb ["AMS"; "Americas International Desk"; "Aviation SVC"])
                eq_refl aviation_not_listed) as Ha.
  fold (App1.lfs_df wb) in Hl. fold (App1.avs_df wb) in Ha.
  pose proof (read_filtered_count
                (fun r => App1.is_healthcare (get "ACCT NM" r)) wb
                ["AMS"; "Americas International Desk"]) as Cl.
  pose proof (read_filtered_count
                (fun r => App1.is_aviation (get "ACCT NM" r)) wb
                ["AMS"; "Americas International Desk"; "Aviation SVC"]) as Ca.
  cbn [flat_map] in Cl, Ca. rewrite ?app_nil_r in Cl, Ca.
  rewrite !count_app in Cl. rewrite !count_app in Ca.
  set (A := rows (read_excel wb "AMS")) in *.
  set (B := rows (read_excel wb "Americas International Desk")) in *.
  set (C := rows (read_excel wb "Aviation SVC")) in *.
  assert (X : forall l : list row,
             (Spec.count (fun r => isin App1.RP_ACCOUNTS (get "ACCT NM" r)) l
              + Spec.count (fun r => App1.is_healthcare (get "ACCT NM" r)) l
              + Spec.count (fun r => App1.is_aviation (get "ACCT NM" r)) l
              <= List.length l)%nat).
  { intros l. apply three_counts.
    - intros x I. now apply isin_is_rp_account, is_rp_account_excluded in I.
    - intros x. apply healthcare_not_aviation. }
  assert (Y : forall (f : row -> bool) (l : list row),
             (Spec.count f l <= List.length l)%nat).
  { intros f l. unfold Spec.count. apply filter_length_le. }
  pose proof (X A) as XA. pose proof (X B) as XB.
  pose proof (Y (fun r => isin App1.RP_ACCOUNTS (get "ACCT NM" r)) B) as YB.
  pose proof (Y (fun r => App1.is_aviation (get "ACCT NM" r)) C) as YC.
  lia.
Qed.

Lemma total_volume_witness :
  exists rp lfs avs,
    App1.segments Examples.wb = Some (rp, lfs, avs)
    /\ (List.length (rows rp) + List.length (rows lfs)
        + List.length (rows avs)
        <= List.length (rows (read_excel Examples.wb "AMS"))
           + List.length
               (rows (read_excel Examples.wb "Americas International Desk"))
           + List.length (rows (read_excel Examples.wb "Aviation SVC")))%nat.
Proof.
  eexists _, _, _. split.
  - reflexivity.
  - now apply (total_volume_counts_no_record_twice Examples.wb).
Defined.

(** ** The QC pattern of the two variants of [src/unnamed/part_000] *)

Lemma ascii_all : forall c : ascii, In c (map ascii_of_nat (seq 0 256)).
Proof.
  intros c. rewrite <- (ascii_nat_embedding c). apply in_map, in_seq.
  pose proof (nat_ascii_bounded c). lia.
Qed.

Lemma is_word_case :
  forall d, Regex.is_word (Py.lower_char d) = Regex.is_word (Py.upper_char d).
Proof.
  intros d.
  assert (H : forallb (fun d => Bool.eqb (Regex.is_word (Py.lower_char d))
                                         (Regex.is_word (Py.upper_char d)))
                      (map ascii_of_nat (seq 0 256)) = true)
    by (vm_compute; reflexivity).
  rewrite forallb_forall in H. now apply eqb_prop, H, ascii_all.
Qed.

Lemma is_space_case :
  forall d, Regex.is_space (Py.lower_char d) = Regex.is_space (Py.upper_char d).
Proof.
  intros d.
  assert (H : forallb (fun d => Bool.eqb (Regex.is_space (Py.lower_char d))
                                         (Regex.is_space (Py.upper_char d)))
                      (map ascii_of_nat (seq 0 256)) = true)
    by (vm_compute; reflexivity).
  rewrite forallb_forall in H. now apply eqb_prop, H, ascii_all.
Qed.

(** A character that lower-casing leaves alone meets the lower-cased text
    exactly where its upper-case form meets the upper-cased text. *)
Lemma eqb_case :
  forall c d, Py.lower_char c = c ->
  Ascii.eqb c (Py.lower_char d)
  = Ascii.eqb (Py.upper_char c) (Py.upper_char d).
Proof.
  assert (H : forallb
                (fun c =>
                   forallb
                     (fun d =>
                        implb (Ascii.eqb (Py.lower_char c) c)
                              (Bool.eqb
                                 (Ascii.eqb c (Py.lower_char d))
                                 (Ascii.eqb (Py.upper_char c)
                                            (Py.upper_char d))))
                     (map ascii_of_nat (seq 0 256)))
                (map ascii_of_nat (seq 0 256)) = true)
    by (vm_compute; reflexivity).
  intros c d E. rewrite forallb_forall in H.
  specialize (H c (ascii_all c)). rewrite forallb_forall in H.
  specialize (H d (ascii_all d)). rewrite E, Ascii.eqb_refl in H.
  now apply eqb_prop in H.
Qed.

Lemma match_lit_case :
  forall l s p, Py.lower l = l ->
  match Regex.match_lit l (Py.lower s) (option_map Py.lower_char p),
        Regex.match_lit (Py.upper l) (Py.upper s) (option_map Py.upper_char p)
  with
  | Some (q1, r1), Some (q2, r2) =>
      exists q r, q1 = option_map Py.lower_char q /\ r1 = Py.lower r
                  /\ q2 = option_map Py.upper_char q /\ r2 = Py.upper r
  | None, None => True
  | _, _ => False
  end.
Proof.
  induction l as [|c l IH]; intros s p L.
  - cbn. now exists p, s.
  - cbn in L. injection L as Lc Ll. destruct s as [|d s]; cbn; [exact I|].
    rewrite <- (eqb_case c d Lc).
    destruct (Ascii.eqb c (Py.lower_char d)); [|exact I].
    exact (IH s (Some d) Ll).
Qed.

Lemma skip_spaces_case :
  forall s p, exists q r,
  Regex.skip_spaces (Py.lower s) (option_map Py.lower_char p)
  = (option_map Py.lower_char q, Py.lower r)
  /\ Regex.skip_spaces (Py.upper s) (option_map Py.upper_char p)
     = (option_map Py.upper_char q, Py.upper r).
Proof.
  induction s as [|d s IH]; intros p.
  - now exists p, EmptyString.
  - cbn. rewrite <- is_space_case.
    destruct (Regex.is_space (Py.lower_char d)).
    + exact (IH (Some d)).
    + now exists p, (String d s).
Qed.

Lemma match_tokens_case :
  forall pat,
  Forall (fun t => match t with
                   | Regex.Lit l => Py.lower l = l
                   | Regex.Spaces => True
                   end) pat ->
  forall p s,
  match Regex.match_tokens pat (option_map Py.lower_char p) (Py.lower s),
        Regex.match_tokens
          (map (fun t => match t with
                         | Regex.Lit l => Regex.Lit (Py.upper l)
                         | Regex.Spaces => Regex.Spaces
                         end) pat)
          (option_map Py.upper_char p) (Py.upper s)
  with
  | Some (q1, r1), Some (q2, r2) =>
      exists q r, q1 = option_map Py.lower_char q /\ r1 = Py.lower r
                  /\ q2 = option_map Py.upper_char q /\ r2 = Py.upper r
  | None, None => True
  | _, _ => False
  end.
Proof.
  intros pat F. induction F as [|t pat Ht F IH]; intros p s.
  - cbn. now exists p, s.
  - destruct t as [l|]; cbn [map Regex.match_tokens].
    + pose proof (match_lit_case l s p Ht) as M.
      destruct (Regex.match_lit l (Py.lower s) (option_map Py.lower_char p))
        as [[q1 r1]|];
        destruct (Regex.match_lit (Py.upper l) (Py.upper s)
                    (option_map Py.upper_char p)) as [[q2 r2]|];
        try contradiction; [|exact I].
      destruct M as (q & r & -> & -> & -> & ->). apply IH.
    + destruct (skip_spaces_case s p) as (q & r & -> & ->). apply IH.
Qed.

Lemma boundary_case :
  forall p s,
  Regex.boundary (option_map Py.lower_char p) (Py.lower s)
  = Regex.boundary (option_map Py.upper_char p) (Py.upper s).
Proof.
  intros p s. unfold Regex.boundary. f_equal.
  - destruct p; cbn; [apply is_word_case | reflexivity].
  - destruct s; cbn; [reflexivity | apply is_word_case].
Qed.

Lemma search_from_case :
  forall ps,
  Forall (Forall (fun t => match t with
                           | Regex.Lit l => Py.lower l = l
                           | Regex.Spaces => True
                           end)) ps ->
  forall s p,
  Regex.search_from ps (option_map Py.lower_char p) (Py.lower s)
  = Regex.search_from
      (map (map (fun t => match t with
                          | Regex.Lit l => Regex.Lit (Py.upper l)
                          | Regex.Spaces => Regex.Spaces
                          end)) ps)
      (option_map Py.upper_char p) (Py.upper s).
Proof.
  intros ps F.
  assert (A : forall s p,
             existsb (fun pat => Regex.match_at pat
                                   (option_map Py.lower_char p) (Py.lower s))
                     ps
             = existsb (fun pat => Regex.match_at pat
                                     (option_map Py.upper_char p) (Py.upper s))
                       (map (map (fun t => match t with
                                           | Regex.Lit l => Regex.Lit (Py.upper l)
                                           | Regex.Spaces => Regex.Spaces
                                           end)) ps)).
  { intros s p. induction F as [|pat ps Hp F IH]; [reflexivity|].
    cbn [map existsb]. rewrite IH. f_equal.
    unfold Regex.match_at. rewrite boundary_case. f_equal.
    pose proof (match_tokens_case pat Hp p s) as M.
    destruct (Regex.match_tokens pat (option_map Py.lower_char p) (Py.lower s))
      as [[q1 r1]|];
      destruct (Regex.match_tokens _ (option_map Py.upper_char p) (Py.upper s))
        as [[q2 r2]|];
      try contradiction; [|reflexivity].
    destruct M as (q & r & -> & -> & -> & ->). apply boundary_case. }
  induction s as [|d s IH]; intros p.
  - pose proof (A EmptyString p) as E.
    cbn [Py.lower Py.upper Regex.search_from] in E |- *. now rewrite E.
  - pose proof (A (String d s) p) as E.
    cbn [Py.lower Py.upper Regex.search_from] in E |- *.
    rewrite E. f_equal. exact (IH (Some d)).
Qed.

(** The QC pattern of the KPI variant, searched without regard to case in
    the QC NAME text, finds a match in exactly the cells in which the
    pattern of the tab variant finds one after upper-casing the QC text:
    the two variants single out the same texts (and give the flag
    opposite names, [Is_Controllable] and [non_controllable]). *)
Theorem kpi_and_tab_patterns_agree :
  forall c : cell,
  KpiVariant.contains_ctrl (pystr c)
  = TabVariant.qc_non_controllable (TabVariant.qc_text c).
Proof.
  intros c. unfold KpiVariant.contains_ctrl, TabVariant.qc_non_controllable,
    TabVariant.qc_text, Regex.search.
  apply (search_from_case KpiVariant.CTRL_REGEX) with (p := None).
  unfold KpiVariant.CTRL_REGEX. repeat constructor.
Qed.

(** ** The verification shown in the LFS tab *)

Lemma keyword_tab_no_listed :
  forall flag test dfs r,
  String.eqb "ACCT NM" flag = false ->
  (forall a, test a = true -> isin App1.RP_ACCOUNTS a = false) ->
  In r (rows (App1.keyword_tab flag test dfs)) ->
  isin App1.RP_ACCOUNTS (get "ACCT NM" r) = false.
Proof.
  intros flag test dfs r F T H. rewrite (keyword_tab_exact _ _ _ F T) in H.
  destruct (has_col "ACCT NM" (concat dfs)); [|contradiction].
  apply in_map_iff in H as (r0 & <- & H). apply filter_In in H as [_ H].
  rewrite (get_set_cell_other _ _ _ _ F). now apply T.
Qed.

(** The check in the details of the LFS tab of [src/app1.py], which looks
    for RP accounts among the LFS rows, finds none on any workbook: its
    error message is never shown.  The AVS tab holds no RP account
    either. *)
Theorem lfs_verification_finds_nothing :
  forall wb,
  rows (loc (map (isin App1.RP_ACCOUNTS) (col "ACCT NM" (App1.lfs_df wb)))
            (App1.lfs_df wb)) = []
  /\ rows (loc (map (isin App1.RP_ACCOUNTS) (col "ACCT NM" (App1.avs_df wb)))
               (App1.avs_df wb)) = [].
Proof.
  assert (K : forall flag test dfs,
             String.eqb "ACCT NM" flag = false ->
             (forall a, test a = true -> isin App1.RP_ACCOUNTS a = false) ->
             rows (loc (map (isin App1.RP_ACCOUNTS)
                            (col "ACCT NM" (App1.keyword_tab flag test dfs)))
                       (App1.keyword_tab flag test dfs)) = []).
  { intros flag test dfs F T. cbn [loc rows]. unfold col.
    rewrite map_map, select_map_filter.
    destruct (filter _ _) as [|r l] eqn:E; [reflexivity|].
    assert (H : In r (r :: l)) by now left.
    rewrite <- E in H. apply filter_In in H as [H I].
    now rewrite (keyword_tab_no_listed _ _ _ _ F T H) in I. }
  intros wb. split.
  - apply K; [reflexivity | apply healthcare_not_listed].
  - apply K; [reflexivity | apply aviation_not_listed].
Qed.

(** ** The date normaliser as a run *)

Lemma serials_some :
  forall num out, DateNormalizer.serials num = Some out ->
  out = map (fun x => match x with
                      | Some q => DateNormalizer.serial q
                      | None => None
                      end) num
  /\ forall q, In (Some q) num -> DateNormalizer.serial q <> None.
Proof.
  induction num as [|x num IH]; intros out H; cbn in H.
  - injection H as <-. split; [reflexivity | intros q []].
  - destruct x as [q|].
    + destruct (DateNormalizer.serial q) as [t|] eqn:S; cbn in H;
        [|discriminate].
      destruct (DateNormalizer.serials num) as [ts|]; [|discriminate].
      injection H as <-. destruct (IH ts eq_refl) as [-> N].
      split; [cbn; now rewrite S|].
      intros q' [E | I]; [injection E as <-; congruence | now apply N].
    + destruct (DateNormalizer.serials num) as [ts|]; [|discriminate].
      injection H as <-. destruct (IH ts eq_refl) as [-> N].
      split; [reflexivity|].
      intros q' [E | I]; [discriminate | now apply N].
Qed.

Lemma serials_none :
  forall num, DateNormalizer.serials num = None ->
  exists q, In (Some q) num /\ DateNormalizer.serial q = None.
Proof.
  induction num as [|x num IH]; intros H; cbn in H; [discriminate|].
  destruct x as [q|].
  - destruct (DateNormalizer.serial q) as [t|] eqn:S; cbn in H.
    + destruct (DateNormalizer.serials num) as [ts|]; [discriminate|].
      destruct (IH eq_refl) as (q' & I & N). exists q'. split; [now right|].
      exact N.
    + exists q. split; [now left | exact S].
  - destruct (DateNormalizer.serials num) as [ts|]; [discriminate|].
    destruct (IH eq_refl) as (q' & I & N). exists q'. split; [now right|].
    exact N.
Qed.

Lemma days_to_ns_whole :
  forall n : Z, App1.days_to_ns (inject_Z n) = n * 86400000000000.
Proof.
  intros n. unfold App1.days_to_ns, inject_Z. cbn [Qnum Qden].
  now rewrite Z.quot_1_r.
Qed.

Lemma serial_value :
  forall q t, DateNormalizer.serial q = Some t ->
  t = App1.excel_epoch + App1.days_to_ns q.
Proof.
  intros q t H. unfold DateNormalizer.serial, DateNormalizer.to_timedelta,
    DateNormalizer.add_epoch in H. cbv zeta in H.
  destruct (DateNormalizer.fits (App1.days_to_ns q)); [|discriminate].
  destruct (DateNormalizer.fits (App1.excel_epoch + App1.days_to_ns q));
    [|discriminate].
  congruence.
Qed.

(** The series the calculators work on is the one the run returns, for the
    reading of the cells that belongs to the series. *)
Lemma excel_to_dt_run_value :
  forall (format : Type) (guess_format : Series -> format)
         (to_datetime : format -> cell -> option Z)
         (to_numeric : cell -> option Q) (s : Series) out,
  DateNormalizer._excel_to_dt format guess_format to_datetime to_numeric s
  = Some out ->
  out = App1._excel_to_dt (to_datetime (guess_format s)) to_numeric s.
Proof.
  intros F gf td g s out H.
  unfold DateNormalizer._excel_to_dt, App1._excel_to_dt in *. cbv zeta in *.
  destruct (App1.gt_half _); [|now injection H as <-].
  destruct (DateNormalizer.serials (map g s)) as [out2|] eqn:S;
    [|discriminate].
  injection H as <-. apply serials_some in S as [-> N]. f_equal.
  rewrite !map_map. apply map_ext_in. intros c I.
  destruct (g c) as [q|] eqn:E; [|reflexivity]. cbn [option_map].
  destruct (DateNormalizer.serial q) as [t|] eqn:T.
  - now rewrite (serial_value q t T).
  - exfalso. apply (N q); [|exact T]. rewrite <- E. now apply in_map.
Qed.

(** The date normaliser of [src/app1.py] as it runs.  When it returns, the
    result has the length and the order of the input: a cell the calendar
    reading accepts keeps that timestamp; a cell it rejects takes the
    serial reading of its number when more than half of the cells were
    rejected, and is null otherwise or when it is no number.  The call
    raises exactly when the serial readings are taken and the number of
    some cell is out of range.  The serial reading of a whole number [n]
    is midnight [n] days after 1899-12-30 (day number -25569 of the
    calendar), defined for [n] from -81182 to 106751; half a day more is
    noon. *)
Theorem excel_to_dt_run_normalises :
  forall (format : Type) (guess_format : Series -> format)
         (to_datetime : format -> cell -> option Z)
         (to_numeric : cell -> option Q) (s : Series),
  let f := to_datetime (guess_format s) in
  let serial_path := (List.length s <? 2 * Spec.failures f s)%nat in
  let run :=
    DateNormalizer._excel_to_dt format guess_format to_datetime to_numeric s in
  (forall out, run = Some out ->
   List.length out = List.length s
   /\ out = map (fun c =>
                   match f c with
                   | Some t => Some t
                   | None =>
                       if serial_path
                       then match to_numeric c with
                            | Some q => DateNormalizer.serial q
                            | None => None
                            end
                       else None
                   end) s)
  /\ (run = None <->
      serial_path = true
      /\ exists c q, In c s /\ to_numeric c = Some q
                     /\ DateNormalizer.serial q = None)
  /\ (forall n : Z,
      DateNormalizer.serial (inject_Z n)
      = if ((-81182 <=? n) && (n <=? 106751))%bool
        then Some ((n - 25569) * 86400000000000)
        else None)
  /\ Timestamp.civil_from_days (-25569) = (1899, 12, 30)
  /\ DateNormalizer.serial (inject_Z 45200)
     = Some (Timestamp.make 2023 10 1 0 0)
  /\ DateNormalizer.serial (90401 # 2)
     = Some (Timestamp.make 2023 10 1 12 0).
Proof.
  intros F gf td g s f serial_path run.
  assert (M : App1.gt_half
                (App1.bmean (map (fun o => negb (App1.is_some o)) (map f s)))
              = serial_path).
  { rewrite gt_half_bmean, map_map, length_map, bsum_map. reflexivity. }
  assert (R : run = if serial_path
                    then match DateNormalizer.serials (map g s) with
                         | Some out2 => Some (App1.where_notna (map f s) out2)
                         | None => None
                         end
                    else Some (map f s)).
  { unfold run, DateNormalizer._excel_to_dt. cbv zeta. fold f.
    now rewrite M. }
  clearbody run serial_path. subst run.
  split; [|split; [|split; [|repeat split; vm_compute; reflexivity]]].
  - intros out H. destruct serial_path.
    + destruct (DateNormalizer.serials (map g s)) as [out2|] eqn:S;
        [|discriminate].
      injection H as <-. apply serials_some in S as [-> _].
      rewrite map_map, where_notna_map. split; [apply length_map|].
      apply map_ext. intros c. now destruct (f c).
    + injection H as <-. split; [apply length_map|].
      apply map_ext. intros c. now destruct (f c).
  - split.
    + intros H. destruct serial_path; [|discriminate].
      split; [reflexivity|].
      destruct (DateNormalizer.serials (map g s)) as [out2|] eqn:S;
        [discriminate|].
      apply serials_none in S as (q & I & N).
      apply in_map_iff in I as (c & E & I). now exists c, q.
    + intros (-> & c & q & I & E & N).
      destruct (DateNormalizer.serials (map g s)) as [out2|] eqn:S;
        [|reflexivity].
      apply serials_some in S as [_ S]. exfalso. apply (S q); [|exact N].
      rewrite <- E. now apply in_map.
  - intros n. unfold DateNormalizer.serial, DateNormalizer.to_timedelta,
      DateNormalizer.add_epoch, DateNormalizer.fits, DateNormalizer.ns_max.
    cbv zeta. rewrite days_to_ns_whole.
    change App1.excel_epoch with (-25569 * 86400000000000).
    destruct (Z.leb_spec (-81182) n), (Z.leb_spec n 106751); cbn [andb];
      repeat (match goal with
              | |- context [Z.leb ?a ?b] => destruct (Z.leb_spec a b)
              end; cbn [andb]);
      try reflexivity; try (f_equal; lia); exfalso; lia.
Qed.

Lemma excel_to_dt_run_witness :
  exists out,
    DateNormalizer._excel_to_dt unit Examples.no_format
      Examples.pandas_datetime_of Examples.number_of
      [CStr "45200"; CDate Examples.at_9; CStr "n/a"] = Some out
    /\ List.length out = 3%nat
    /\ out = [Some (Timestamp.make 2023 10 1 0 0); Some Examples.at_9; None].
Proof.
  eexists. split; [reflexivity|]. split; [|reflexivity].
  exact (proj1 (proj1 (excel_to_dt_run_normalises
                         unit Examples.no_format Examples.pandas_datetime_of
                         Examples.number_of
                         [CStr "45200"; CDate Examples.at_9; CStr "n/a"])
                      _ eq_refl)).
Defined.
